(** * Residual U-net generator and model selection: a shallow embedding

    The development follows [models/res_unet.py] (the blocks
    [EncoderBlock], [DecoderBlock] and the generator [ResUnet]) and
    [main.py] (model selection and the command-line parser).

    Tensors are followed through the network by what the properties of
    interest depend on: their shape [N, C, H, W].  The network code is
    written once, over an interface of tensor operations, and read at two
    instances: shapes (with the failures torch raises on ill-shaped
    arguments) and symbolic data-flow terms.  Constructors return a
    module or raise, as the layers they create do for a negative channel
    count or a dropout probability outside [0, 1]. *)

From Stdlib Require Import ZArith List String QArith Bool Lia.
Import ListNotations.
Open Scope string_scope.
Open Scope list_scope.
Open Scope Z_scope.

(** ** Python values, exceptions and loops *)

Module Py.

(** The exceptions that the modelled code can raise. *)
Inductive exn : Type :=
| IndexError (msg : string)
| ValueError (msg : string)
| RuntimeError (msg : string)
| SystemExit (code : Z).

Inductive result (A : Type) : Type :=
| Ok (a : A)
| Raise (e : exn).
Arguments Ok {A} a.
Arguments Raise {A} e.

Definition bind {A B : Type} (c : result A) (k : A -> result B) : result B :=
  match c with
  | Ok a => k a
  | Raise e => Raise e
  end.

(** [for item in items: s = body(s, item)] *)
Fixpoint for_loop {A S : Type} (body : S -> A -> result S)
         (items : list A) (s : S) : result S :=
  match items with
  | [] => Ok s
  | item :: rest => bind (body s item) (for_loop body rest)
  end.

(** [enumerate(l, start)] *)
Fixpoint enumerate {A : Type} (start : Z) (l : list A) : list (Z * A) :=
  match l with
  | [] => []
  | a :: rest => (start, a) :: enumerate (start + 1) rest
  end.

(** [len(l)] *)
Definition len {A : Type} (l : list A) : Z := Z.of_nat (List.length l).

(** [l[0]] *)
Definition getitem0 {A : Type} (l : list A) : result A :=
  match l with
  | [] => Raise (IndexError "tuple index out of range")
  | a :: _ => Ok a
  end.

(** [l.pop()]: the last element and the list without it. *)
Definition pop {A : Type} (l : list A) : result (A * list A) :=
  match rev l with
  | [] => Raise (IndexError "pop from empty list")
  | a :: r => Ok (a, rev r)
  end.

(** [max(l)] *)
Definition max (l : list Z) : result Z :=
  match l with
  | [] => Raise (ValueError "max() arg is an empty sequence")
  | a :: rest => Ok (fold_left Z.max rest a)
  end.

(** Whether a computation ended in an exception of class RuntimeError. *)
Definition is_RuntimeError {A : Type} (r : result A) : bool :=
  match r with
  | Raise (RuntimeError _) => true
  | _ => false
  end.

End Py.

Import Py.

Notation "x <- c ;; k" := (Py.bind c (fun x => k))
  (at level 61, c at next level, right associativity).
Notation "' pat <- c ;; k" := (Py.bind c (fun x => match x with pat => k end))
  (at level 61, pat pattern, c at next level, right associativity).

(** ** torch.nn layers and the tensor interface *)

(** The layers the network is built from, with the constructor arguments
    the source gives them.  Every [nn.Module] is created in training mode;
    the flag is kept on the two layers whose forward pass reads it. *)
Inductive Layer : Type :=
| LeakyReLU (negative_slope : Q)
| ReLU
| Tanh
| Identity
| Conv2d (in_channels out_channels kernel_size stride padding : Z)
| ConvTranspose2d (in_channels out_channels kernel_size stride padding : Z)
| BatchNorm2d (num_features : Z) (training : bool)
| Dropout2d (p : Q) (training : bool).

(** [module.train(mode)] on a layer. *)
Definition Layer_train (mode : bool) (l : Layer) : Layer :=
  match l with
  | BatchNorm2d c _ => BatchNorm2d c mode
  | Dropout2d p _ => Dropout2d p mode
  | _ => l
  end.

(** The constructors of the layers that can fail.  A convolution and a
    batch normalisation allocate their parameters with [torch.empty],
    which refuses a negative length; [Dropout2d] checks its probability.
    A channel count of 0 is accepted here.  Layers are created in training
    mode. *)
Module nn.

Definition Conv2d (in_channels out_channels kernel_size stride padding : Z)
  : result Layer :=
  if (in_channels <? 0) || (out_channels <? 0)
  then Raise (RuntimeError "Trying to create tensor with negative dimension")
  else Ok (Conv2d in_channels out_channels kernel_size stride padding).

Definition ConvTranspose2d
           (in_channels out_channels kernel_size stride padding : Z)
  : result Layer :=
  if (in_channels <? 0) || (out_channels <? 0)
  then Raise (RuntimeError "Trying to create tensor with negative dimension")
  else Ok (ConvTranspose2d in_channels out_channels kernel_size stride padding).

Definition BatchNorm2d (num_features : Z) : result Layer :=
  if num_features <? 0
  then Raise (RuntimeError "Trying to create tensor with negative dimension")
  else Ok (BatchNorm2d num_features true).

Definition Dropout2d (p : Q) : result Layer :=
  if Qlt_le_dec p 0
  then Raise (ValueError "dropout probability has to be between 0 and 1")
  else if Qlt_le_dec 1 p
  then Raise (ValueError "dropout probability has to be between 0 and 1")
  else Ok (Dropout2d p true).

End nn.

(** What the network code asks of tensors. *)
Class Tensor (T : Type) : Type := {
  (** [layer(x)] *)
  call_layer : Layer -> T -> result T;
  (** [a + b] *)
  add : T -> T -> result T;
  (** [torch.cat([a, b], dim=1)] *)
  cat : T -> T -> result T;
  (** [x.type(torch.float32)] *)
  to_float32 : T -> T
}.

(** [nn.Sequential(l1, ..., lk)(x)] *)
Definition Sequential {T : Type} `{Tensor T} (layers : list Layer) (x : T)
  : result T :=
  for_loop (fun h l => call_layer l h) layers x.

(** ** Shapes *)

Record Shape : Type := mkShape { dimN : Z; dimC : Z; dimH : Z; dimW : Z }.

(** A tensor that holds at least one value. *)
Definition nonempty (x : Shape) : Prop :=
  0 < dimN x /\ 0 < dimC x /\ 0 < dimH x /\ 0 < dimW x.

Module ShapeOps.

(** Output length of a convolution along one spatial axis (dilation 1);
    torch refuses a kernel larger than the padded input. *)
Definition conv_out (size k s p : Z) : result Z :=
  if size + 2 * p <? k
  then Raise (RuntimeError "Kernel size can't be greater than actual input size")
  else Ok ((size + 2 * p - (k - 1) - 1) / s + 1).

(** Output length of a transposed convolution along one spatial axis
    (dilation 1, no output padding). *)
Definition conv_transpose_out (size k s p : Z) : result Z :=
  let o := (size - 1) * s - 2 * p + (k - 1) + 1 in
  if o <=? 0
  then Raise (RuntimeError "Output size is too small")
  else Ok o.

(** The first axis of a convolution's weight (the output channels of
    [Conv2d], the input channels of [ConvTranspose2d]) must be at least
    [groups = 1] long; torch checks this before it looks at the input. *)
Definition check_weight (c : Z) : result unit :=
  if c <? 1
  then Raise (RuntimeError "expected weight to be at least 1 at dimension 0")
  else Ok tt.

(** The channels of a convolution's output: an input without channels
    gives an output without channels, whatever the weight. *)
Definition conv_channels (x : Shape) (out_channels : Z) : Z :=
  if dimC x =? 0 then 0 else out_channels.

Definition check_channels (c : Z) (x : Shape) : result unit :=
  if dimC x =? c then Ok tt
  else Raise (RuntimeError "channel count does not match the layer").

(** Batch normalisation in training mode needs more than one value per
    channel. *)
Definition verify_batch_size (x : Shape) : result unit :=
  if dimN x * dimH x * dimW x =? 1
  then Raise (ValueError "Expected more than 1 value per channel when training")
  else Ok tt.

Definition call_layer (l : Layer) (x : Shape) : result Shape :=
  match l with
  | LeakyReLU _ | ReLU | Tanh | Identity | Dropout2d _ _ => Ok x
  | Conv2d cin cout k s p =>
      _ <- check_weight cout ;;
      _ <- check_channels cin x ;;
      h <- conv_out (dimH x) k s p ;;
      w <- conv_out (dimW x) k s p ;;
      Ok (mkShape (dimN x) (conv_channels x cout) h w)
  | ConvTranspose2d cin cout k s p =>
      _ <- check_weight cin ;;
      _ <- check_channels cin x ;;
      h <- conv_transpose_out (dimH x) k s p ;;
      w <- conv_transpose_out (dimW x) k s p ;;
      Ok (mkShape (dimN x) cout h w)
  | BatchNorm2d c training =>
      _ <- (if training then verify_batch_size x else Ok tt) ;;
      _ <- check_channels c x ;;
      Ok x
  end.

(** Broadcasting of one axis: equal lengths, or one of them is 1. *)
Definition broadcast (a b : Z) : result Z :=
  if a =? b then Ok a
  else if a =? 1 then Ok b
  else if b =? 1 then Ok a
  else Raise (RuntimeError "The size of tensor a must match the size of tensor b").

Definition add (a b : Shape) : result Shape :=
  n <- broadcast (dimN a) (dimN b) ;;
  c <- broadcast (dimC a) (dimC b) ;;
  h <- broadcast (dimH a) (dimH b) ;;
  w <- broadcast (dimW a) (dimW b) ;;
  Ok (mkShape n c h w).

(** Concatenation along the channel axis: the other axes must agree. *)
Definition cat (a b : Shape) : result Shape :=
  if (dimN a =? dimN b) && (dimH a =? dimH b) && (dimW a =? dimW b)
  then Ok (mkShape (dimN a) (dimC a + dimC b) (dimH a) (dimW a))
  else Raise (RuntimeError "Sizes of tensors must match except in dimension 1").

Definition to_float32 (x : Shape) : Shape := x.

End ShapeOps.

#[export] Instance Shape_Tensor : Tensor Shape := {
  call_layer := ShapeOps.call_layer;
  add := ShapeOps.add;
  cat := ShapeOps.cat;
  to_float32 := ShapeOps.to_float32
}.

(** ** Data-flow terms *)

(** A tensor named by the computation that produced it. *)
Inductive Flow : Type :=
| FInput
| FCast (x : Flow)
| FLayer (l : Layer) (x : Flow)
| FAdd (a b : Flow)
| FCat (a b : Flow).

#[export] Instance Flow_Tensor : Tensor Flow := {
  call_layer := fun l x => Ok (FLayer l x);
  add := fun a b => Ok (FAdd a b);
  cat := fun a b => Ok (FCat a b);
  to_float32 := FCast
}.

(** ** EncoderBlock *)

Module EncoderBlock.

Record t : Type := mk { conv_block : list Layer; conv_skip : Layer }.

Definition init (in_channels out_channels : Z) (norm : bool) : result t :=
  conv1 <- nn.Conv2d in_channels out_channels 4 2 1 ;;
  norm1 <- nn.BatchNorm2d out_channels ;;
  conv2 <- nn.Conv2d out_channels out_channels 3 1 1 ;;
  norm2 <- (if norm then nn.BatchNorm2d out_channels else Ok Identity) ;;
  skip <- nn.Conv2d in_channels out_channels 1 2 0 ;;
  Ok {| conv_block :=
          [ LeakyReLU (2 # 10); conv1; norm1;
            LeakyReLU (2 # 10); conv2; norm2 ];
        conv_skip := skip |}.

Definition train (mode : bool) (self : t) : t :=
  {| conv_block := map (Layer_train mode) (conv_block self);
     conv_skip := Layer_train mode (conv_skip self) |}.

Definition forward {T : Type} `{Tensor T} (self : t) (x : T) : result T :=
  a <- Sequential (conv_block self) x ;;
  b <- call_layer (conv_skip self) x ;;
  add a b.

End EncoderBlock.

(** ** DecoderBlock *)

Module DecoderBlock.

Record t : Type := mk { conv_block : list Layer; conv_skip : Layer }.

Definition init (in_channels out_channels : Z) (dropout : Q) : result t :=
  conv1 <- nn.ConvTranspose2d in_channels out_channels 4 2 1 ;;
  norm1 <- nn.BatchNorm2d out_channels ;;
  conv2 <- nn.Conv2d out_channels out_channels 3 1 1 ;;
  norm2 <- nn.BatchNorm2d out_channels ;;
  drop <- (if Qlt_le_dec 0 dropout then nn.Dropout2d dropout
           else Ok Identity) ;;
  skip <- nn.ConvTranspose2d in_channels out_channels 2 2 0 ;;
  Ok {| conv_block := [ ReLU; conv1; norm1; ReLU; conv2; norm2; drop ];
        conv_skip := skip |}.

Definition train (mode : bool) (self : t) : t :=
  {| conv_block := map (Layer_train mode) (conv_block self);
     conv_skip := Layer_train mode (conv_skip self) |}.

Definition forward {T : Type} `{Tensor T} (self : t) (x : T) : result T :=
  a <- Sequential (conv_block self) x ;;
  b <- call_layer (conv_skip self) x ;;
  add a b.

End DecoderBlock.

(** ** ResUnet *)

(** An element of the [encoders] and [decoders] module lists. *)
Inductive Stage : Type :=
| Plain (l : Layer)
| Enc (b : EncoderBlock.t)
| Dec (b : DecoderBlock.t).

Definition Stage_train (mode : bool) (s : Stage) : Stage :=
  match s with
  | Plain l => Plain (Layer_train mode l)
  | Enc b => Enc (EncoderBlock.train mode b)
  | Dec b => Dec (DecoderBlock.train mode b)
  end.

(** [stage(h)] *)
Definition call_stage {T : Type} `{Tensor T} (s : Stage) (h : T) : result T :=
  match s with
  | Plain l => call_layer l h
  | Enc b => EncoderBlock.forward b h
  | Dec b => DecoderBlock.forward b h
  end.

Module ResUnet.

Record t : Type := mk {
  encoders : list Stage;
  decoders : list Stage;
  out : Layer
}.

(** Body of the loop over [enumerate(channel_mults[1:], 1)]. *)
Definition encoder_step (channel_mults : list Z)
           (s : list Stage * Z) (item : Z * Z) : result (list Stage * Z) :=
  let '(encoders, in_channels) := s in
  let '(level, mult) := item in
  let channels := mult * 64 in
  block <- EncoderBlock.init in_channels channels
             (negb (level =? len channel_mults - 1)) ;;
  Ok (encoders ++ [Enc block], channels).

(** The dropout argument of the decoder block at [level]. *)
Definition decoder_dropout (channel_mults : list Z) (dropout : Q)
           (level mult : Z) : result Q :=
  widest <- Py.max channel_mults ;;
  Ok (if (mult =? widest) && (level >? len channel_mults - 5)
      then dropout else 0%Q).

(** Body of the loop over [reversed(list(enumerate(channel_mults[:-1])))]. *)
Definition decoder_step (channel_mults : list Z) (dropout : Q)
           (s : list Stage * Z) (item : Z * Z) : result (list Stage * Z) :=
  let '(decoders, in_channels) := s in
  let '(level, mult) := item in
  let channels := mult * 64 in
  rate <- decoder_dropout channel_mults dropout level mult ;;
  block <- DecoderBlock.init in_channels channels rate ;;
  Ok (decoders ++ [Dec block], channels * 2).

Definition init (in_channels out_channels : Z) (channel_mults : list Z)
           (dropout : Q) : result t :=
  m0 <- getitem0 channel_mults ;;
  first <- nn.Conv2d in_channels (m0 * 64) 4 2 1 ;;
  let encoders := [Plain first] in
  let in_channels := m0 * 64 in
  '(encoders, in_channels) <-
    for_loop (encoder_step channel_mults)
             (enumerate 1 (tl channel_mults)) (encoders, in_channels) ;;
  '(decoders, in_channels) <-
    for_loop (decoder_step channel_mults dropout)
             (rev (enumerate 0 (removelast channel_mults)))
             ([], in_channels) ;;
  final <- nn.ConvTranspose2d in_channels out_channels 4 2 1 ;;
  let decoders := decoders ++ [Plain final] in
  Ok {| encoders := encoders; decoders := decoders; out := Tanh |}.

(** [self.train(mode)]; [self.eval()] is [train false]. *)
Definition train (mode : bool) (self : t) : t :=
  {| encoders := map (Stage_train mode) (encoders self);
     decoders := map (Stage_train mode) (decoders self);
     out := Layer_train mode (out self) |}.


Section Forward.
Context {T : Type} `{Tensor T}.

(** Body of [for encoder in self.encoders]. *)
Definition encode_step (s : T * list T) (encoder : Stage)
  : result (T * list T) :=
  let '(h, feats) := s in
  h <- call_stage encoder h ;;
  Ok (h, feats ++ [h]).

Definition encode (self : t) (h : T) : result (T * list T) :=
  for_loop encode_step (encoders self) (h, []).

(** Body of [for index, decoder in enumerate(self.decoders)]. *)
Definition decode_step (s : T * list T) (item : Z * Stage)
  : result (T * list T) :=
  let '(h, feats) := s in
  let '(index, decoder) := item in
  '(h, feats) <-
    (if negb (index =? 0)
     then '(f, feats) <- pop feats ;;
          h <- cat h f ;;
          Ok (h, feats)
     else Ok (h, feats)) ;;
  h <- call_stage decoder h ;;
  Ok (h, feats).

Definition decode (self : t) (h : T) (feats : list T)
  : result (T * list T) :=
  for_loop decode_step (enumerate 0 (decoders self)) (h, feats).

Definition forward (self : t) (x : T) : result T :=
  let h := to_float32 x in
  '(h, feats) <- encode self h ;;
  '(_, feats) <- pop feats ;;
  '(h, _) <- decode self h feats ;;
  call_layer (out self) h.

(** The decoder pass as the specification words it: stage [i] reads
    the stored feature map number [encoder-stages - 1 - i], and the
    first stage reads none. *)
Definition decode_by_index_step (stored : list T) (n : Z) (h : T)
           (item : Z * Stage) : result T :=
  let '(i, decoder) := item in
  h <- (if i =? 0 then Ok h
        else match nth_error stored (Z.to_nat (n - 1 - i)) with
             | Some f => cat h f
             | None => Raise (IndexError "no such feature map")
             end) ;;
  call_stage decoder h.

Definition forward_by_index (self : t) (x : T) : result T :=
  '(h, stored) <- encode self (to_float32 x) ;;
  h <- for_loop (decode_by_index_step stored (len (encoders self)))
                (enumerate 0 (decoders self)) h ;;
  call_layer (out self) h.

End Forward.

End ResUnet.

(** ** ResUnetGAN *)

Module ResUnetGAN.

Section WithDiscriminator.

(** The discriminator class and the [GAN] base class live outside the
    files modelled here: the discriminator's constructor is a parameter,
    and of the base class only the storing of its arguments is followed. *)
Variable Disc : Type.
Variable Discriminator : Z -> result Disc.

Record t : Type := mk {
  generator : ResUnet.t;
  discriminator : Disc;
  l1_lambda : Q;
  example_input_array : Shape
}.

(** The default of the [channel_mults] argument. *)
Definition default_channel_mults : list Z := [1; 2; 4; 8; 8; 8; 8; 8].

Definition init (in_channels out_channels : Z) (channel_mults : list Z)
           (dropout l1_lambda : Q) : result t :=
  generator <- ResUnet.init in_channels out_channels channel_mults dropout ;;
  discriminator <- Discriminator in_channels ;;
  Ok {| generator := generator;
        discriminator := discriminator;
        l1_lambda := l1_lambda;
        example_input_array := mkShape 2 in_channels 256 256 |}.

End WithDiscriminator.

End ResUnetGAN.

(** ** main.py *)

Module Main.

Record hparams : Type := mkHparams {
  name : string;
  input_dir : option string;
  target_dir : option string;
  l1_lambda : Z;
  epochs : Z;
  batch_size : Z;
  precision : string;
  model : string
}.

(** How a run of [main] ends: it returns, it raises an exception of its
    own, or an exception raised inside a callee passes through it. *)
Inductive outcome (A : Type) : Type :=
| Returns (a : A)
| Raises (e : exn)
| Propagates (e : exn).
Arguments Returns {A} a.
Arguments Raises {A} e.
Arguments Propagates {A} e.

(** Whether a run ended in a [raise] statement of [main] itself. *)
Definition raised_here {A : Type} (o : outcome A) : bool :=
  match o with
  | Raises _ => true
  | _ => false
  end.

Section WithCollaborators.

(** Objects built by the collaborators of [main]: the model classes,
    the data module, the logger, the callback and the trainer live
    outside the files modelled here. *)
Variable Obj : Type.

(** The calls [main] makes to them, with the arguments that vary; the
    constant keyword arguments of [Palette], [ImageDataModule] and
    [Trainer] are left out. *)
Inductive Call : Type :=
| seed_everything (seed : Z)
| Pix2Pix (l1_lambda : Z)
| Palette
| TransGAN (l1_lambda : Z)
| ImageDataModule (input_dir target_dir : option string) (batch_size : Z)
| CSVLogger (save_dir name : string)
| EMACallback
| Trainer (max_epochs : Z) (precision : string) (logger callback : Obj)
| fit (trainer model data_module : Obj).

(** What each call does: it returns an object or raises. *)
Variable run : Call -> result Obj.

(** Computations that log the calls made so far. *)
Definition M (A : Type) : Type := list Call -> list Call * outcome A.

Definition ret {A : Type} (a : A) : M A := fun log => (log, Returns a).

Definition raise {A : Type} (e : exn) : M A := fun log => (log, Raises e).

Definition bindM {A B : Type} (c : M A) (k : A -> M B) : M B :=
  fun log =>
    match c log with
    | (log', Returns a) => k a log'
    | (log', Raises e) => (log', Raises e)
    | (log', Propagates e) => (log', Propagates e)
    end.

Definition call (c : Call) : M Obj :=
  fun log =>
    (log ++ [c],
     match run c with
     | Ok o => Returns o
     | Raise e => Propagates e
     end).

(** The [match hparams.model] statement, from [model = None] on. *)
Definition select_model (hp : hparams) : M (option Obj) :=
  if String.eqb (model hp) "pix2pix" then
    bindM (call (Pix2Pix (l1_lambda hp))) (fun m => ret (Some m))
  else if String.eqb (model hp) "palette" then
    bindM (call Palette) (fun m => ret (Some m))
  else if String.eqb (model hp) "transgan" then
    bindM (call (TransGAN (l1_lambda hp))) (fun m => ret (Some m))
  else ret None.

Definition main (hp : hparams) : M unit :=
  bindM (call (seed_everything 42)) (fun _ =>
  bindM (select_model hp) (fun model_opt =>
  match model_opt with
  | None =>
      raise (ValueError ("Incorrect model name (" ++ model hp ++ ")")%string)
  | Some the_model =>
      bindM (call (ImageDataModule (input_dir hp) (target_dir hp)
                                   (batch_size hp))) (fun data_module =>
      bindM (call (CSVLogger "logs" (name hp))) (fun logger =>
      bindM (call EMACallback) (fun ema =>
      bindM (call (Trainer (epochs hp) (precision hp) logger ema))
            (fun trainer =>
      bindM (call (fit trainer the_model data_module)) (fun _ =>
      ret tt)))))
  end)).

(** *** The command line *)

(** The words of a command line, by the argument they belong to; an
    absent optional argument is [None].  The numbers are those the
    parser's [type=int] has read: the record stands for the command lines
    whose options are all known, whose integers are well formed and which
    do not ask for help; on the others the parser exits before [main] is
    called. *)
Record cmdline : Type := mkCmdline {
  cl_name : option string;
  cl_input_dir : option string;
  cl_target_dir : option string;
  cl_l1_lambda : option Z;
  cl_epochs : option Z;
  cl_batch_size : option Z;
  cl_precision : option string;
  cl_model : option string
}.

Definition model_choices : list string := ["pix2pix"; "palette"; "transgan"].

(** An optional argument with [default] and [choices]: a value outside
    the choices ends the program with status 2. *)
Definition parse_choice (choices : list string) (default : string)
           (given : option string) : result string :=
  match given with
  | None => Ok default
  | Some v =>
      if existsb (String.eqb v) choices then Ok v
      else Raise (SystemExit 2)
  end.

Definition with_default {A : Type} (default : A) (given : option A) : A :=
  match given with
  | None => default
  | Some v => v
  end.

Definition parse_args (c : cmdline) : result hparams :=
  match cl_name c with
  | None => Raise (SystemExit 2)
  | Some the_name =>
      the_model <- parse_choice model_choices "pix2pix" (cl_model c) ;;
      Ok {| name := the_name;
            input_dir := cl_input_dir c;
            target_dir := cl_target_dir c;
            l1_lambda := with_default 50 (cl_l1_lambda c);
            epochs := with_default 200 (cl_epochs c);
            batch_size := with_default 2 (cl_batch_size c);
            precision := with_default "32" (cl_precision c);
            model := the_model |}
  end.

(** The [if __name__ == "__main__"] block. *)
Definition script (c : cmdline) : M unit :=
  match parse_args c with
  | Raise e => fun log => (log, Propagates e)
  | Ok args => main args
  end.

End WithCollaborators.

End Main.

(** Collaborators that all return, except the constructor of TransGAN,
    which raises. *)
Definition transgan_fails (c : Main.Call unit) : result unit :=
  match c with
  | Main.TransGAN _ _ => Raise (RuntimeError "CUDA out of memory")
  | _ => Ok tt
  end.

(** ** The constructed network in closed form

    What the two constructor loops of [ResUnet] build, written by
    recursion on the lists they walk; the properties below relate them to
    the loops. *)

Module Built.

(** The block [EncoderBlock.init] returns when its layers can be
    created. *)
Definition encoder_block (in_channels out_channels : Z) (norm : bool)
  : EncoderBlock.t :=
  {| EncoderBlock.conv_block :=
       [ LeakyReLU (2 # 10);
         Conv2d in_channels out_channels 4 2 1;
         BatchNorm2d out_channels true;
         LeakyReLU (2 # 10);
         Conv2d out_channels out_channels 3 1 1;
         if norm then BatchNorm2d out_channels true else Identity ];
     EncoderBlock.conv_skip := Conv2d in_channels out_channels 1 2 0 |}.

(** The block [DecoderBlock.init] returns when its layers can be
    created. *)
Definition decoder_block (in_channels out_channels : Z) (dropout : Q)
  : DecoderBlock.t :=
  {| DecoderBlock.conv_block :=
       [ ReLU;
         ConvTranspose2d in_channels out_channels 4 2 1;
         BatchNorm2d out_channels true;
         ReLU;
         Conv2d out_channels out_channels 3 1 1;
         BatchNorm2d out_channels true;
         if Qlt_le_dec 0 dropout then Dropout2d dropout true else Identity ];
     DecoderBlock.conv_skip := ConvTranspose2d in_channels out_channels 2 2 0 |}.

(** Encoder blocks for the multipliers [ms], the first of them at
    [level], for a sequence of length [n]. *)
Fixpoint enc_blocks (n level cin : Z) (ms : list Z) : list Stage :=
  match ms with
  | [] => []
  | m :: rest =>
      Enc (encoder_block cin (m * 64) (negb (level =? n - 1)))
      :: enc_blocks n (level + 1) (m * 64) rest
  end.

(** Channel count after the encoder blocks for [ms]. *)
Fixpoint enc_channels (cin : Z) (ms : list Z) : Z :=
  match ms with
  | [] => cin
  | m :: rest => enc_channels (m * 64) rest
  end.

(** The dropout rate the constructor passes at [level]. *)
Definition rate (channel_mults : list Z) (dropout : Q) (level mult : Z) : Q :=
  if (mult =? fold_left Z.max (tl channel_mults) (hd 0 channel_mults))
     && (level >? len channel_mults - 5)
  then dropout else 0%Q.

(** Decoder blocks for the (level, multiplier) pairs [items]. *)
Fixpoint dec_blocks (r : Z -> Z -> Q) (cin : Z) (items : list (Z * Z))
  : list Stage :=
  match items with
  | [] => []
  | (level, mult) :: rest =>
      Dec (decoder_block cin (mult * 64) (r level mult))
      :: dec_blocks r (mult * 64 * 2) rest
  end.

(** Channel count entering the stage after the decoder blocks. *)
Fixpoint dec_channels (cin : Z) (items : list (Z * Z)) : Z :=
  match items with
  | [] => cin
  | (_, mult) :: rest => dec_channels (mult * 64 * 2) rest
  end.

(** Shapes recorded by the encoder stages for [ms], whose last output
    has spatial size [a] x [b]. *)
Fixpoint enc_feats (N : Z) (ms : list Z) (a b : Z) : list Shape :=
  match ms with
  | [] => []
  | m :: rest =>
      mkShape N (m * 64) (2 ^ len rest * a) (2 ^ len rest * b)
      :: enc_feats N rest a b
  end.

(** The same shapes in the order the decoder pops them, for a decoder
    input of spatial size [a] x [b]. *)
Fixpoint dec_feats (N : Z) (items : list (Z * Z)) (a b : Z) : list Shape :=
  match items with
  | [] => []
  | (_, mult) :: rest =>
      mkShape N (mult * 64) (2 * a) (2 * b)
      :: dec_feats N rest (2 * a) (2 * b)
  end.

End Built.

(** The (level, multiplier) pairs the decoder loop walks. *)
Definition decoder_items (mults : list Z) : list (Z * Z) :=
  rev (enumerate 0 (removelast mults)).

(** What the decoder loop needs of a (level, multiplier) pair for its
    block to be created: a multiplier that is not negative and a dropout
    rate of at most 1. *)
Definition dec_item_ok (r : Z -> Z -> Q) (item : Z * Z) : Prop :=
  0 <= snd item /\ (r (fst item) (snd item) <= 1)%Q.

(** The network [ResUnet.init] returns when its layers can be created. *)
Definition built (cin cout : Z) (mults : list Z) (dropout : Q) : ResUnet.t :=
  let c0 := hd 0 mults * 64 in
  let cb := Built.enc_channels c0 (tl mults) in
  {| ResUnet.encoders :=
       Plain (Conv2d cin c0 4 2 1)
       :: Built.enc_blocks (len mults) 1 c0 (tl mults);
     ResUnet.decoders :=
       Built.dec_blocks (Built.rate mults dropout) cb (decoder_items mults)
       ++ [Plain (ConvTranspose2d
                    (Built.dec_channels cb (decoder_items mults)) cout 4 2 1)];
     ResUnet.out := Tanh |}.

(** * Properties *)

(** ** Layer arithmetic on shapes *)

Section LayerShapes.

Import ShapeOps.

Lemma conv_out_halve (size : Z) :
  0 < size -> conv_out (2 * size) 4 2 1 = Ok size.
Proof.
  intros Hs. unfold conv_out.
  destruct (Z.ltb_spec (2 * size + 2 * 1) 4); [lia|].
  f_equal. replace (2 * size + 2 * 1 - (4 - 1) - 1) with ((size - 1) * 2) by lia.
  rewrite Z.div_mul by lia. lia.
Qed.

Lemma conv_out_skip (size : Z) :
  0 < size -> conv_out (2 * size) 1 2 0 = Ok size.
Proof.
  intros Hs. unfold conv_out.
  destruct (Z.ltb_spec (2 * size + 2 * 0) 1); [lia|].
  f_equal.
  replace (2 * size + 2 * 0 - (1 - 1) - 1) with (1 + (size - 1) * 2) by lia.
  rewrite Z.div_add by lia. change (1 / 2) with 0. lia.
Qed.

Lemma conv_out_same (size : Z) :
  0 < size -> conv_out size 3 1 1 = Ok size.
Proof.
  intros Hs. unfold conv_out.
  destruct (Z.ltb_spec (size + 2 * 1) 3); [lia|].
  f_equal. rewrite Z.div_1_r. lia.
Qed.

Lemma conv_transpose_out_double (size : Z) :
  0 < size -> conv_transpose_out size 4 2 1 = Ok (2 * size).
Proof.
  intros Hs. unfold conv_transpose_out.
  destruct (Z.leb_spec ((size - 1) * 2 - 2 * 1 + (4 - 1) + 1) 0); [lia|].
  f_equal. lia.
Qed.

Lemma conv_transpose_out_skip (size : Z) :
  0 < size -> conv_transpose_out size 2 2 0 = Ok (2 * size).
Proof.
  intros Hs. unfold conv_transpose_out.
  destruct (Z.leb_spec ((size - 1) * 2 - 2 * 0 + (2 - 1) + 1) 0); [lia|].
  f_equal. lia.
Qed.

Lemma check_weight_ok (c : Z) : 0 < c -> check_weight c = Ok tt.
Proof.
  intros Hc. unfold check_weight.
  destruct (Z.ltb_spec c 1); [lia|reflexivity].
Qed.

Lemma check_weight_empty (c : Z) :
  c <= 0 ->
  check_weight c
  = Raise (RuntimeError "expected weight to be at least 1 at dimension 0").
Proof.
  intros Hc. unfold check_weight.
  destruct (Z.ltb_spec c 1); [reflexivity|lia].
Qed.

Lemma conv_channels_pos (n c h w cout : Z) :
  0 < c -> conv_channels (mkShape n c h w) cout = cout.
Proof.
  intros Hc. unfold conv_channels. cbn [dimC].
  destruct (Z.eqb_spec c 0); [lia|reflexivity].
Qed.

Lemma check_channels_ok (c n h w : Z) :
  check_channels c (mkShape n c h w) = Ok tt.
Proof. unfold check_channels. simpl. now rewrite Z.eqb_refl. Qed.

Lemma broadcast_same (a : Z) : broadcast a a = Ok a.
Proof. unfold broadcast. now rewrite Z.eqb_refl. Qed.

Lemma add_same (x : Shape) : add x x = Ok x.
Proof.
  destruct x as [n c h w]. unfold add. simpl.
  now rewrite !broadcast_same.
Qed.

(** A strided 4x4 convolution with padding 1 halves even lengths. *)
Lemma call_Conv2d_halve (cin cout n h w : Z) :
  0 < cin -> 0 < cout -> 0 < h -> 0 < w ->
  call_layer (Conv2d cin cout 4 2 1) (mkShape n cin (2 * h) (2 * w))
  = Ok (mkShape n cout h w).
Proof.
  intros Hi Hc Hh Hw. unfold call_layer.
  rewrite conv_channels_pos by assumption. cbn [dimN dimC dimH dimW].
  rewrite check_weight_ok by assumption.
  now rewrite check_channels_ok, !conv_out_halve by assumption.
Qed.

Lemma call_Conv2d_skip (cin cout n h w : Z) :
  0 < cin -> 0 < cout -> 0 < h -> 0 < w ->
  call_layer (Conv2d cin cout 1 2 0) (mkShape n cin (2 * h) (2 * w))
  = Ok (mkShape n cout h w).
Proof.
  intros Hi Hc Hh Hw. unfold call_layer.
  rewrite conv_channels_pos by assumption. cbn [dimN dimC dimH dimW].
  rewrite check_weight_ok by assumption.
  now rewrite check_channels_ok, !conv_out_skip by assumption.
Qed.

Lemma call_Conv2d_same (cin cout n h w : Z) :
  0 < cin -> 0 < cout -> 0 < h -> 0 < w ->
  call_layer (Conv2d cin cout 3 1 1) (mkShape n cin h w)
  = Ok (mkShape n cout h w).
Proof.
  intros Hi Hc Hh Hw. unfold call_layer.
  rewrite conv_channels_pos by assumption. cbn [dimN dimC dimH dimW].
  rewrite check_weight_ok by assumption.
  now rewrite check_channels_ok, !conv_out_same by assumption.
Qed.

Lemma call_ConvTranspose2d_double (cin cout n h w : Z) :
  0 < cin -> 0 < h -> 0 < w ->
  call_layer (ConvTranspose2d cin cout 4 2 1) (mkShape n cin h w)
  = Ok (mkShape n cout (2 * h) (2 * w)).
Proof.
  intros Hc Hh Hw. unfold call_layer. cbn [dimN dimC dimH dimW].
  rewrite check_weight_ok by assumption.
  now rewrite check_channels_ok, !conv_transpose_out_double by assumption.
Qed.

Lemma call_ConvTranspose2d_skip (cin cout n h w : Z) :
  0 < cin -> 0 < h -> 0 < w ->
  call_layer (ConvTranspose2d cin cout 2 2 0) (mkShape n cin h w)
  = Ok (mkShape n cout (2 * h) (2 * w)).
Proof.
  intros Hc Hh Hw. unfold call_layer. cbn [dimN dimC dimH dimW].
  rewrite check_weight_ok by assumption.
  now rewrite check_channels_ok, !conv_transpose_out_skip by assumption.
Qed.

(** Batch normalisation keeps the shape; in training mode it needs more
    than one value per channel. *)
Lemma call_BatchNorm2d (c n h w : Z) (training : bool) :
  training = false \/ n * h * w <> 1 ->
  call_layer (BatchNorm2d c training) (mkShape n c h w)
  = Ok (mkShape n c h w).
Proof.
  intros Hm. simpl. rewrite check_channels_ok.
  destruct training; [|reflexivity].
  unfold verify_batch_size. simpl.
  destruct (Z.eqb_spec (n * h * w) 1); [|reflexivity].
  destruct Hm; [discriminate | contradiction].
Qed.

Lemma call_BatchNorm2d_single (c n h w : Z) :
  n * h * w = 1 ->
  call_layer (BatchNorm2d c true) (mkShape n c h w)
  = Raise (ValueError "Expected more than 1 value per channel when training").
Proof.
  intros Hm. unfold call_layer, verify_batch_size. cbn [dimN dimH dimW].
  now rewrite Hm.
Qed.

End LayerShapes.

(** ** The blocks on shapes *)

Ltac shape_ops :=
  change (@call_layer Shape Shape_Tensor) with ShapeOps.call_layer in *;
  change (@add Shape Shape_Tensor) with ShapeOps.add in *;
  change (@cat Shape Shape_Tensor) with ShapeOps.cat in *;
  change (@to_float32 Shape Shape_Tensor) with ShapeOps.to_float32 in *.

Lemma bind_Ok {A B : Type} (a : A) (k : A -> result B) :
  Py.bind (Ok a) k = k a.
Proof. reflexivity. Qed.

Lemma EncoderBlock_train_true (cin cout : Z) (norm : bool) :
  EncoderBlock.train true (Built.encoder_block cin cout norm)
  = Built.encoder_block cin cout norm.
Proof. destruct norm; reflexivity. Qed.

Lemma DecoderBlock_train_true (cin cout : Z) (dropout : Q) :
  DecoderBlock.train true (Built.decoder_block cin cout dropout)
  = Built.decoder_block cin cout dropout.
Proof.
  unfold DecoderBlock.train, Built.decoder_block. simpl.
  destruct (Qlt_le_dec 0 dropout); reflexivity.
Qed.

(** An encoder block halves even spatial lengths, when its normalisation
    layers accept the halved tensor. *)
Lemma EncoderBlock_forward_ok (cin cout : Z) (norm mode : bool) (n h w : Z) :
  0 < cin -> 0 < cout -> 0 < h -> 0 < w ->
  mode = false \/ n * h * w <> 1 ->
  EncoderBlock.forward
    (EncoderBlock.train mode (Built.encoder_block cin cout norm))
    (mkShape n cin (2 * h) (2 * w))
  = Ok (mkShape n cout h w).
Proof.
  intros Hi Hc Hh Hw Hm.
  unfold EncoderBlock.forward, EncoderBlock.train, Built.encoder_block, Sequential.
  cbn [EncoderBlock.conv_block EncoderBlock.conv_skip map Layer_train for_loop].
  shape_ops.
  change (ShapeOps.call_layer (LeakyReLU (2 # 10)) ?x) with (Ok x).
  rewrite !bind_Ok.
  rewrite call_Conv2d_halve, bind_Ok by assumption.
  rewrite call_BatchNorm2d, bind_Ok by assumption.
  change (ShapeOps.call_layer (LeakyReLU (2 # 10)) ?x) with (Ok x).
  rewrite bind_Ok.
  rewrite call_Conv2d_same, bind_Ok by assumption.
  assert (Hlast : ShapeOps.call_layer
                    (Layer_train mode
                       (if norm then BatchNorm2d cout true else Identity))
                    (mkShape n cout h w) = Ok (mkShape n cout h w)).
  { destruct norm; [|reflexivity].
    cbn [Layer_train]. now apply call_BatchNorm2d. }
  cbn [Layer_train] in Hlast. rewrite Hlast, bind_Ok.
  rewrite call_Conv2d_skip, bind_Ok by assumption.
  apply add_same.
Qed.

(** A decoder block doubles the positive spatial lengths of a tensor,
    also of one with batch size 0. *)
Lemma DecoderBlock_forward_ok (cin cout : Z) (dropout : Q) (mode : bool)
      (n h w : Z) :
  0 < cin -> 0 < cout -> 0 <= n -> 0 < h -> 0 < w ->
  DecoderBlock.forward
    (DecoderBlock.train mode (Built.decoder_block cin cout dropout))
    (mkShape n cin h w)
  = Ok (mkShape n cout (2 * h) (2 * w)).
Proof.
  intros Hci Hco Hn Hh Hw.
  assert (Hbn : mode = false \/ n * (2 * h) * (2 * w) <> 1) by (right; nia).
  unfold DecoderBlock.forward, DecoderBlock.train, Built.decoder_block, Sequential.
  cbn [DecoderBlock.conv_block DecoderBlock.conv_skip map Layer_train for_loop].
  shape_ops.
  change (ShapeOps.call_layer ReLU ?x) with (Ok x).
  rewrite !bind_Ok.
  rewrite call_ConvTranspose2d_double, bind_Ok by assumption.
  rewrite call_BatchNorm2d, bind_Ok by assumption.
  change (ShapeOps.call_layer ReLU ?x) with (Ok x).
  rewrite bind_Ok.
  rewrite call_Conv2d_same, bind_Ok by lia.
  rewrite call_BatchNorm2d, bind_Ok by assumption.
  assert (Hlast : ShapeOps.call_layer
                    (Layer_train mode
                       (if Qlt_le_dec 0 dropout
                        then Dropout2d dropout true else Identity))
                    (mkShape n cout (2 * h) (2 * w))
                  = Ok (mkShape n cout (2 * h) (2 * w))).
  { destruct (Qlt_le_dec 0 dropout); reflexivity. }
  rewrite Hlast, bind_Ok.
  rewrite call_ConvTranspose2d_skip, bind_Ok by assumption.
  apply add_same.
Qed.

(** ** The constructors *)

Lemma EncoderBlock_init_eq (cin cout : Z) (norm : bool) :
  EncoderBlock.init cin cout norm
  = if (cin <? 0) || (cout <? 0)
    then Raise (RuntimeError "Trying to create tensor with negative dimension")
    else Ok (Built.encoder_block cin cout norm).
Proof.
  unfold EncoderBlock.init, nn.Conv2d, nn.BatchNorm2d, Built.encoder_block.
  destruct (cin <? 0), (cout <? 0); cbn [orb Py.bind]; try reflexivity.
  destruct norm; reflexivity.
Qed.

Lemma EncoderBlock_init_ok (cin cout : Z) (norm : bool) :
  0 <= cin -> 0 <= cout ->
  EncoderBlock.init cin cout norm = Ok (Built.encoder_block cin cout norm).
Proof.
  intros Hi Ho. rewrite EncoderBlock_init_eq.
  destruct (Z.ltb_spec cin 0); [lia|].
  destruct (Z.ltb_spec cout 0); [lia|reflexivity].
Qed.

Lemma EncoderBlock_init_inv (cin cout : Z) (norm : bool) (b : EncoderBlock.t) :
  EncoderBlock.init cin cout norm = Ok b ->
  b = Built.encoder_block cin cout norm /\ 0 <= cin /\ 0 <= cout.
Proof.
  rewrite EncoderBlock_init_eq.
  destruct (Z.ltb_spec cin 0); [discriminate|].
  destruct (Z.ltb_spec cout 0); [discriminate|].
  cbn [orb]. intros [= <-]. auto.
Qed.

Lemma DecoderBlock_init_eq (cin cout : Z) (dropout : Q) :
  DecoderBlock.init cin cout dropout
  = if (cin <? 0) || (cout <? 0)
    then Raise (RuntimeError "Trying to create tensor with negative dimension")
    else if Qlt_le_dec 1 dropout
    then Raise (ValueError "dropout probability has to be between 0 and 1")
    else Ok (Built.decoder_block cin cout dropout).
Proof.
  unfold DecoderBlock.init, nn.ConvTranspose2d, nn.Conv2d, nn.BatchNorm2d,
    nn.Dropout2d, Built.decoder_block.
  destruct (cin <? 0), (cout <? 0); cbn [orb Py.bind]; try reflexivity.
  destruct (Qlt_le_dec 0 dropout) as [Hpos|Hle].
  - destruct (Qlt_le_dec dropout 0) as [Hneg|_].
    + exfalso. exact (Qlt_irrefl 0 (Qlt_trans _ _ _ Hpos Hneg)).
    + destruct (Qlt_le_dec 1 dropout); reflexivity.
  - destruct (Qlt_le_dec 1 dropout) as [Hbig|_]; [|reflexivity].
    exfalso. apply (Qlt_irrefl 1).
    apply (Qlt_le_trans _ _ _ Hbig). apply (Qle_trans _ 0 _ Hle). discriminate.
Qed.

Lemma DecoderBlock_init_ok (cin cout : Z) (dropout : Q) :
  0 <= cin -> 0 <= cout -> (dropout <= 1)%Q ->
  DecoderBlock.init cin cout dropout = Ok (Built.decoder_block cin cout dropout).
Proof.
  intros Hi Ho Hd. rewrite DecoderBlock_init_eq.
  destruct (Z.ltb_spec cin 0); [lia|].
  destruct (Z.ltb_spec cout 0); [lia|]. cbn [orb].
  destruct (Qlt_le_dec 1 dropout) as [Hbig|_]; [|reflexivity].
  exfalso. exact (Qlt_not_le _ _ Hbig Hd).
Qed.

Lemma DecoderBlock_init_inv (cin cout : Z) (dropout : Q) (b : DecoderBlock.t) :
  DecoderBlock.init cin cout dropout = Ok b ->
  b = Built.decoder_block cin cout dropout
  /\ 0 <= cin /\ 0 <= cout /\ (dropout <= 1)%Q.
Proof.
  rewrite DecoderBlock_init_eq.
  destruct (Z.ltb_spec cin 0); [discriminate|].
  destruct (Z.ltb_spec cout 0); [discriminate|]. cbn [orb].
  destruct (Qlt_le_dec 1 dropout) as [|Hd]; [discriminate|].
  intros [= <-]. auto.
Qed.

(** ** The constructor loops *)

Lemma encoder_loop_built (mults ms : list Z) :
  Forall (fun m => 0 <= m) ms ->
  forall (level : Z) (acc : list Stage) (cin : Z),
    0 <= cin ->
    for_loop (ResUnet.encoder_step mults) (enumerate level ms) (acc, cin)
    = Ok (acc ++ Built.enc_blocks (len mults) level cin ms,
          Built.enc_channels cin ms).
Proof.
  induction 1 as [|m rest Hm Hrest IH]; intros level acc cin Hcin.
  - simpl. now rewrite app_nil_r.
  - cbn [enumerate for_loop ResUnet.encoder_step].
    rewrite EncoderBlock_init_ok by lia. cbn [Py.bind].
    rewrite IH by lia. cbn [Built.enc_blocks Built.enc_channels].
    now rewrite <- app_assoc.
Qed.

Lemma encoder_loop_inv (mults ms : list Z) :
  forall (level : Z) (acc : list Stage) (cin : Z) (r : list Stage * Z),
    for_loop (ResUnet.encoder_step mults) (enumerate level ms) (acc, cin)
    = Ok r ->
    r = (acc ++ Built.enc_blocks (len mults) level cin ms,
         Built.enc_channels cin ms)
    /\ Forall (fun m => 0 <= m) ms.
Proof.
  induction ms as [|m rest IH]; intros level acc cin r Hrun.
  - cbn [enumerate for_loop] in Hrun. injection Hrun as <-.
    cbn [Built.enc_blocks Built.enc_channels]. rewrite app_nil_r.
    split; [reflexivity|constructor].
  - cbn [enumerate for_loop ResUnet.encoder_step] in Hrun.
    destruct (EncoderBlock.init cin (m * 64) _) as [b|e] eqn:Hb;
      [|discriminate].
    apply EncoderBlock_init_inv in Hb. destruct Hb as (-> & _ & Hm).
    cbn [Py.bind] in Hrun. destruct (IH _ _ _ _ Hrun) as [-> Hrest].
    cbn [Built.enc_blocks Built.enc_channels]. rewrite <- app_assoc.
    split; [reflexivity|]. constructor; [lia|exact Hrest].
Qed.

Lemma decoder_dropout_built (mults : list Z) (dropout : Q) (level mult : Z) :
  mults <> [] ->
  ResUnet.decoder_dropout mults dropout level mult
  = Ok (Built.rate mults dropout level mult).
Proof.
  intros Hne. destruct mults as [|m0 rest]; [contradiction|reflexivity].
Qed.

Lemma decoder_loop_built (mults : list Z) (dropout : Q) (items : list (Z * Z)) :
  mults <> [] ->
  Forall (dec_item_ok (Built.rate mults dropout)) items ->
  forall (acc : list Stage) (cin : Z),
    0 <= cin ->
    for_loop (ResUnet.decoder_step mults dropout) items (acc, cin)
    = Ok (acc ++ Built.dec_blocks (Built.rate mults dropout) cin items,
          Built.dec_channels cin items).
Proof.
  intros Hne.
  induction 1 as [|[level mult] rest [Hm Hr] Hrest IH]; intros acc cin Hcin.
  - simpl. now rewrite app_nil_r.
  - cbn [fst snd] in Hm, Hr. cbn [for_loop ResUnet.decoder_step].
    rewrite decoder_dropout_built by assumption. cbn [Py.bind].
    rewrite DecoderBlock_init_ok by (assumption || lia). cbn [Py.bind].
    rewrite IH by lia. cbn [Built.dec_blocks Built.dec_channels].
    now rewrite <- app_assoc.
Qed.

Lemma decoder_loop_inv (mults : list Z) (dropout : Q) (items : list (Z * Z)) :
  mults <> [] ->
  forall (acc : list Stage) (cin : Z) (r : list Stage * Z),
    for_loop (ResUnet.decoder_step mults dropout) items (acc, cin) = Ok r ->
    r = (acc ++ Built.dec_blocks (Built.rate mults dropout) cin items,
         Built.dec_channels cin items)
    /\ Forall (dec_item_ok (Built.rate mults dropout)) items.
Proof.
  intros Hne.
  induction items as [|[level mult] rest IH]; intros acc cin r Hrun.
  - cbn [for_loop] in Hrun. injection Hrun as <-.
    cbn [Built.dec_blocks Built.dec_channels]. rewrite app_nil_r.
    split; [reflexivity|constructor].
  - cbn [for_loop ResUnet.decoder_step] in Hrun.
    rewrite decoder_dropout_built in Hrun by assumption.
    cbn [Py.bind] in Hrun.
    destruct (DecoderBlock.init cin (mult * 64) _) as [b|e] eqn:Hb;
      [|discriminate].
    apply DecoderBlock_init_inv in Hb. destruct Hb as (-> & _ & Hm & Hr).
    cbn [Py.bind] in Hrun. destruct (IH _ _ _ Hrun) as [-> Hrest].
    cbn [Built.dec_blocks Built.dec_channels]. rewrite <- app_assoc.
    split; [reflexivity|].
    constructor; [split; cbn [fst snd]; [lia|exact Hr] | exact Hrest].
Qed.


Lemma enc_channels_nonneg (ms : list Z) :
  Forall (fun m => 0 <= m) ms ->
  forall cin : Z, 0 <= cin -> 0 <= Built.enc_channels cin ms.
Proof.
  induction 1 as [|m rest Hm Hrest IH]; intros cin Hcin; [exact Hcin|].
  cbn [Built.enc_channels]. apply IH. lia.
Qed.

Lemma dec_channels_nonneg (r : Z -> Z -> Q) (items : list (Z * Z)) :
  Forall (dec_item_ok r) items ->
  forall cin : Z, 0 <= cin -> 0 <= Built.dec_channels cin items.
Proof.
  induction 1 as [|[level mult] rest [Hm _] Hrest IH]; intros cin Hcin;
    [exact Hcin|].
  cbn [Built.dec_channels]. apply IH. cbn [snd] in Hm. lia.
Qed.

Lemma Forall_removelast {A : Type} (P : A -> Prop) (l : list A) :
  Forall P l -> Forall P (removelast l).
Proof.
  intros Hl. destruct l as [|a l']; [constructor|].
  assert (Hne : a :: l' <> []) by discriminate.
  rewrite (app_removelast_last a Hne) in Hl.
  now apply Forall_app in Hl.
Qed.

Lemma Forall_enumerate {A : Type} (P : A -> Prop) (l : list A) :
  Forall P l ->
  forall s : Z, Forall (fun item => P (snd item)) (enumerate s l).
Proof.
  induction 1 as [|a rest Ha Hrest IH]; intros s; [constructor|].
  cbn [enumerate]. constructor; [exact Ha|apply IH].
Qed.


(** The constructor succeeds when no channel count is negative and no
    block is given a dropout rate above 1, and returns the network in
    closed form. *)
Lemma init_built_items (cin cout : Z) (mults : list Z) (dropout : Q) :
  mults <> [] -> 0 <= cin -> 0 <= cout ->
  Forall (fun m => 0 <= m) mults ->
  Forall (dec_item_ok (Built.rate mults dropout)) (decoder_items mults) ->
  ResUnet.init cin cout mults dropout = Ok (built cin cout mults dropout).
Proof.
  intros Hne Hi Ho Hm Hitems.
  destruct mults as [|m0 rest]; [contradiction|].
  inversion Hm as [|? ? Hm0 Hrest]; subst.
  unfold ResUnet.init, nn.Conv2d. cbn [getitem0 Py.bind tl].
  destruct (Z.ltb_spec cin 0); [lia|].
  destruct (Z.ltb_spec (m0 * 64) 0); [lia|]. cbn [orb Py.bind].
  rewrite encoder_loop_built by (assumption || lia). cbn [Py.bind].
  fold (decoder_items (m0 :: rest)).
  rewrite decoder_loop_built
    by (assumption || discriminate
        || (apply enc_channels_nonneg; [assumption|lia])).
  cbn [Py.bind]. unfold nn.ConvTranspose2d.
  assert (Hc : 0 <= Built.dec_channels (Built.enc_channels (m0 * 64) rest)
                       (decoder_items (m0 :: rest))).
  { eapply dec_channels_nonneg; [exact Hitems|].
    apply enc_channels_nonneg; [assumption|lia]. }
  destruct (Z.ltb_spec (Built.dec_channels (Built.enc_channels (m0 * 64) rest)
                          (decoder_items (m0 :: rest))) 0); [lia|].
  destruct (Z.ltb_spec cout 0); [lia|]. reflexivity.
Qed.


Lemma forallb_pos (l : list Z) :
  forallb (fun k => 0 <? k) l = true -> Forall (fun m => 0 < m) l.
Proof.
  intros Hl. apply Forall_forall. intros m Hm.
  rewrite forallb_forall in Hl. specialize (Hl m Hm). lia.
Qed.


(** Whatever the constructor returns is the network in closed form, and
    then no channel count was negative and no block was given a dropout
    rate above 1. *)
Lemma init_inv (cin cout : Z) (mults : list Z) (dropout : Q)
      (self : ResUnet.t) :
  ResUnet.init cin cout mults dropout = Ok self ->
  self = built cin cout mults dropout
  /\ mults <> [] /\ 0 <= cin /\ 0 <= cout
  /\ Forall (fun m => 0 <= m) mults
  /\ Forall (dec_item_ok (Built.rate mults dropout)) (decoder_items mults).
Proof.
  intros Hinit. destruct mults as [|m0 rest]; [discriminate|].
  unfold ResUnet.init, nn.Conv2d in Hinit. cbn [getitem0 Py.bind tl] in Hinit.
  destruct (Z.ltb_spec cin 0); [discriminate|].
  destruct (Z.ltb_spec (m0 * 64) 0); [discriminate|].
  cbn [orb Py.bind] in Hinit.
  destruct (for_loop (ResUnet.encoder_step _) _ _) as [r1|e] eqn:Henc;
    [|discriminate].
  apply encoder_loop_inv in Henc. destruct Henc as [-> Hrest].
  cbn [Py.bind] in Hinit. fold (decoder_items (m0 :: rest)) in Hinit.
  destruct (for_loop (ResUnet.decoder_step _ _) _ _) as [r2|e] eqn:Hdec;
    [|discriminate].
  apply decoder_loop_inv in Hdec; [|discriminate].
  destruct Hdec as [-> Hitems]. cbn [Py.bind] in Hinit.
  unfold nn.ConvTranspose2d in Hinit.
  destruct (Z.ltb_spec (Built.dec_channels (Built.enc_channels (m0 * 64) rest)
                          (decoder_items (m0 :: rest))) 0); [discriminate|].
  destruct (Z.ltb_spec cout 0); [discriminate|].
  cbn [orb Py.bind] in Hinit. injection Hinit as <-.
  split; [reflexivity|]. split; [discriminate|].
  split; [assumption|]. split; [assumption|].
  split; [constructor; [lia|assumption]|assumption].
Qed.

Lemma init_empty (cin cout : Z) (dropout : Q) :
  ResUnet.init cin cout [] dropout
  = Raise (IndexError "tuple index out of range").
Proof. reflexivity. Qed.

(** ** The encoder pass on shapes *)

Lemma len_cons {A : Type} (a : A) (l : list A) : len (a :: l) = len l + 1.
Proof. unfold len. cbn [List.length]. lia. Qed.

Lemma len_nonneg {A : Type} (l : list A) : 0 <= len l.
Proof. unfold len. lia. Qed.

Lemma len_app {A : Type} (l1 l2 : list A) : len (l1 ++ l2) = len l1 + len l2.
Proof. unfold len. rewrite length_app. lia. Qed.

Lemma pow2_len_cons {A : Type} (a : A) (l : list A) (x : Z) :
  2 ^ len (a :: l) * x = 2 * (2 ^ len l * x).
Proof.
  rewrite len_cons, Z.pow_add_r by (pose proof (len_nonneg l); lia).
  change (2 ^ 1) with 2. lia.
Qed.

Lemma pow2_len_pos {A : Type} (l : list A) (x : Z) : 0 < x -> 0 < 2 ^ len l * x.
Proof.
  intros Hx. pose proof (len_nonneg l).
  assert (0 < 2 ^ len l) by (apply Z.pow_pos_nonneg; lia). nia.
Qed.

Lemma pow2_len_ge2 {A : Type} (l : list A) (x : Z) :
  l <> [] -> 0 < x -> 2 <= 2 ^ len l * x.
Proof.
  intros Hne Hx. destruct l as [|a rest]; [contradiction|].
  rewrite pow2_len_cons. pose proof (pow2_len_pos rest x Hx). lia.
Qed.

Lemma batch_not_single (N x y : Z) :
  0 <= N -> 2 <= x -> 2 <= y -> N * x * y <> 1.
Proof.
  intros HN Hx Hy. destruct (Z.eq_dec N 0) as [->|Hpos]; [lia|]. nia.
Qed.

Section EncoderPass.

Variables (mode : bool) (N a b : Z).
Hypotheses (HN : 0 <= N) (Ha : 0 < a) (Hb : 0 < b).

Lemma encode_blocks_shape (n : Z) (ms : list Z) :
  Forall (fun m => 0 < m) ms ->
  ms = [] \/ mode = false \/ N * a * b <> 1 ->
  forall (level cin : Z) (feats : list Shape),
    0 < cin ->
    for_loop ResUnet.encode_step
             (map (Stage_train mode) (Built.enc_blocks n level cin ms))
             (mkShape N cin (2 ^ len ms * a) (2 ^ len ms * b), feats)
    = Ok (mkShape N (Built.enc_channels cin ms) a b,
          feats ++ Built.enc_feats N ms a b).
Proof.
  induction ms as [|m rest IH]; intros Hpos Hbn level cin feats Hcin.
  - cbn [Built.enc_blocks map for_loop Built.enc_channels Built.enc_feats].
    change (len (@nil Z)) with 0. rewrite app_nil_r.
    now replace (2 ^ 0 * a) with a by lia; replace (2 ^ 0 * b) with b by lia.
  - inversion Hpos as [|? ? Hm Hrest]; subst.
    cbn [Built.enc_blocks map Stage_train for_loop ResUnet.encode_step
         call_stage].
    rewrite !pow2_len_cons.
    rewrite EncoderBlock_forward_ok;
      try (now apply pow2_len_pos); [| assumption | lia |].
    + cbn [Py.bind]. rewrite IH.
      * cbn [Built.enc_channels Built.enc_feats].
        now rewrite <- app_assoc.
      * assumption.
      * destruct Hbn as [Hnil|Hbn]; [discriminate|]. now right.
      * lia.
    + destruct rest as [|m' rest'].
      * change (len (@nil Z)) with 0.
        replace (2 ^ 0 * a) with a by lia. replace (2 ^ 0 * b) with b by lia.
        destruct Hbn as [Hnil|Hbn]; [discriminate|exact Hbn].
      * right.
        apply batch_not_single;
          [assumption
          |apply pow2_len_ge2; [discriminate|assumption]
          |apply pow2_len_ge2; [discriminate|assumption]].
Qed.

(** The encoder pass of a built network on an input whose sides are
    [2 ^ len mults] times [a] and [b]. *)
Lemma encode_shape (cin cout : Z) (mults : list Z) (dropout : Q) :
  0 < cin -> mults <> [] -> Forall (fun m => 0 < m) mults ->
  tl mults = [] \/ mode = false \/ N * a * b <> 1 ->
  ResUnet.encode
    (ResUnet.train mode (built cin cout mults dropout))
    (mkShape N cin (2 ^ len mults * a) (2 ^ len mults * b))
  = Ok (mkShape N (Built.enc_channels (hd 0 mults * 64) (tl mults)) a b,
        Built.enc_feats N mults a b).
Proof.
  intros Hcin Hne Hpos Hbn. destruct mults as [|m0 rest]; [contradiction|].
  inversion Hpos as [|? ? Hm0 Hrest]; subst.
  unfold ResUnet.encode, ResUnet.train, built.
  cbn [ResUnet.encoders map Stage_train Layer_train hd tl for_loop
       ResUnet.encode_step call_stage] in *.
  rewrite !pow2_len_cons. shape_ops.
  rewrite call_Conv2d_halve by (lia || now apply pow2_len_pos).
  cbn [Py.bind app].
  rewrite encode_blocks_shape by (assumption || lia).
  reflexivity.
Qed.

End EncoderPass.

(** ** The decoder pass on shapes *)

Lemma pop_snoc {A : Type} (l : list A) (x : A) : pop (l ++ [x]) = Ok (x, l).
Proof. unfold pop. now rewrite rev_unit, rev_involutive. Qed.

Lemma pop_nil {A : Type} : @pop A [] = Raise (IndexError "pop from empty list").
Proof. reflexivity. Qed.

Lemma cat_same_size (N c1 c2 a b : Z) :
  ShapeOps.cat (mkShape N c1 a b) (mkShape N c2 a b)
  = Ok (mkShape N (c1 + c2) a b).
Proof. unfold ShapeOps.cat. simpl. now rewrite !Z.eqb_refl. Qed.

Lemma pow2_succ_len {A : Type} (l : list A) (x : Z) :
  2 ^ (len l + 1 + 1) * x = 2 ^ (len l + 1) * (2 * x).
Proof.
  pose proof (len_nonneg l).
  rewrite (Z.pow_add_r 2 (len l + 1) 1) by lia. change (2 ^ 1) with 2. lia.
Qed.

Section DecoderPass.

Variables (mode : bool) (N cout : Z) (r : Z -> Z -> Q).
Hypothesis HN : 0 <= N.

(** Stages after the first: each pops the feature map of its level. *)
Lemma decode_tail_shape (rest : list (Z * Z)) :
  Forall (fun item => 0 < snd item) rest ->
  forall (c a b idx : Z),
    0 < c -> 0 < idx -> 0 < a -> 0 < b ->
    for_loop ResUnet.decode_step
      (enumerate idx
         (map (Stage_train mode)
            (Built.dec_blocks r (c * 2) rest
             ++ [Plain (ConvTranspose2d
                          (Built.dec_channels (c * 2) rest) cout 4 2 1)])))
      (mkShape N c a b, rev (Built.dec_feats N rest a b) ++ [mkShape N c a b])
    = Ok (mkShape N cout (2 ^ (len rest + 1) * a) (2 ^ (len rest + 1) * b),
          []).
Proof.
  induction 1 as [|[level mult] rest' Hm Hrest IH];
    intros c a b idx Hc Hidx Ha Hb.
  - cbn [Built.dec_blocks Built.dec_channels Built.dec_feats rev app map
         Stage_train Layer_train enumerate for_loop ResUnet.decode_step].
    destruct (Z.eqb_spec idx 0) as [|_]; [lia|].
    cbn [negb]. change [mkShape N c a b] with ([] ++ [mkShape N c a b]).
    rewrite pop_snoc. cbn [Py.bind]. shape_ops.
    rewrite cat_same_size. cbn [Py.bind call_stage]. shape_ops.
    replace (c + c) with (c * 2) by lia.
    rewrite call_ConvTranspose2d_double by (assumption || lia).
    cbn [Py.bind]. change (len (@nil (Z * Z))) with 0.
    change (2 ^ (0 + 1)) with 2. reflexivity.
  - cbn [snd] in Hm.
    cbn [Built.dec_blocks Built.dec_channels Built.dec_feats rev app map
         Stage_train enumerate for_loop ResUnet.decode_step].
    destruct (Z.eqb_spec idx 0) as [|_]; [lia|].
    cbn [negb]. rewrite pop_snoc. cbn [Py.bind]. shape_ops.
    rewrite cat_same_size. cbn [Py.bind call_stage].
    replace (c + c) with (c * 2) by lia.
    rewrite DecoderBlock_forward_ok by lia.
    cbn [Py.bind]. rewrite IH by lia.
    rewrite len_cons. now rewrite !pow2_succ_len.
Qed.

(** The whole decoder list, from the bottleneck. *)
Lemma decode_items_shape (items : list (Z * Z)) (cin a b : Z) :
  Forall (fun item => 0 < snd item) items ->
  0 < cin -> 0 < a -> 0 < b ->
  for_loop ResUnet.decode_step
    (enumerate 0
       (map (Stage_train mode)
          (Built.dec_blocks r cin items
           ++ [Plain (ConvTranspose2d
                        (Built.dec_channels cin items) cout 4 2 1)])))
    (mkShape N cin a b, rev (Built.dec_feats N items a b))
  = Ok (mkShape N cout (2 ^ (len items + 1) * a) (2 ^ (len items + 1) * b),
        []).
Proof.
  intros Hpos Hc Ha Hb. destruct items as [|[level mult] rest].
  - cbn [Built.dec_blocks Built.dec_channels Built.dec_feats rev app map
         Stage_train Layer_train enumerate for_loop ResUnet.decode_step].
    cbn [Z.eqb negb Py.bind call_stage]. shape_ops.
    rewrite call_ConvTranspose2d_double by assumption.
    cbn [Py.bind]. change (len (@nil (Z * Z))) with 0.
    change (2 ^ (0 + 1)) with 2. reflexivity.
  - inversion Hpos as [|? ? Hm Hrest]; subst. cbn [snd] in Hm.
    cbn [Built.dec_blocks Built.dec_channels Built.dec_feats rev app map
         Stage_train enumerate for_loop ResUnet.decode_step].
    cbn [Z.eqb negb Py.bind call_stage].
    rewrite DecoderBlock_forward_ok by lia.
    cbn [Py.bind]. rewrite decode_tail_shape by (assumption || lia).
    rewrite len_cons. now rewrite !pow2_succ_len.
Qed.

End DecoderPass.

(** ** The recorded feature maps, as the decoder meets them *)

Lemma enumerate_app {A : Type} (l1 l2 : list A) :
  forall s : Z,
    enumerate s (l1 ++ l2) = enumerate s l1 ++ enumerate (s + len l1) l2.
Proof.
  induction l1 as [|x l1 IH]; intros s.
  - cbn [app enumerate]. change (len (@nil A)) with 0. now rewrite Z.add_0_r.
  - cbn [app enumerate]. rewrite IH, len_cons.
    now replace (s + 1 + len l1) with (s + (len l1 + 1)) by lia.
Qed.

Lemma len_enumerate {A : Type} (l : list A) :
  forall s : Z, len (enumerate s l) = len l.
Proof.
  induction l as [|x l IH]; intros s; [reflexivity|].
  cbn [enumerate]. now rewrite !len_cons, IH.
Qed.

Lemma len_rev {A : Type} (l : list A) : len (rev l) = len l.
Proof. unfold len. now rewrite length_rev. Qed.

Lemma enc_feats_snoc (N : Z) (pre : list Z) (m : Z) :
  forall a b : Z,
    Built.enc_feats N (pre ++ [m]) a b
    = Built.enc_feats N pre (2 * a) (2 * b) ++ [mkShape N (m * 64) a b].
Proof.
  induction pre as [|x pre IH]; intros a b.
  - cbn [app Built.enc_feats]. change (len (@nil Z)) with 0.
    now replace (2 ^ 0 * a) with a by lia; replace (2 ^ 0 * b) with b by lia.
  - cbn [app Built.enc_feats]. rewrite IH. f_equal.
    rewrite len_app. change (len [m]) with 1.
    pose proof (len_nonneg pre).
    rewrite Z.pow_add_r by lia. change (2 ^ 1) with 2.
    f_equal; lia.
Qed.

Lemma enc_feats_rev (N : Z) (pre : list Z) :
  forall s a b : Z,
    Built.enc_feats N pre (2 * a) (2 * b)
    = rev (Built.dec_feats N (rev (enumerate s pre)) a b).
Proof.
  induction pre as [|m pre IH] using rev_ind; intros s a b; [reflexivity|].
  rewrite enc_feats_snoc, enumerate_app, rev_app_distr.
  cbn [enumerate rev app Built.dec_feats].
  now rewrite <- IH.
Qed.

Lemma enc_channels_snoc (pre : list Z) (m : Z) :
  forall c : Z, Built.enc_channels c (pre ++ [m]) = m * 64.
Proof.
  induction pre as [|x pre IH]; intros c; [reflexivity|].
  cbn [app Built.enc_channels]. apply IH.
Qed.

Lemma bottleneck_channels (mults : list Z) :
  mults <> [] ->
  Built.enc_channels (hd 0 mults * 64) (tl mults) = last mults 0 * 64.
Proof.
  intros Hne.
  assert (Hc : Built.enc_channels (hd 0 mults * 64) (tl mults)
               = Built.enc_channels 0 mults)
    by (destruct mults; [contradiction|reflexivity]).
  rewrite Hc.
  rewrite (app_removelast_last 0 Hne) at 1.
  apply enc_channels_snoc.
Qed.

(** The encoder's record is the decoder's stack with the bottleneck on
    top. *)
Lemma enc_feats_stack (N : Z) (mults : list Z) (a b : Z) :
  mults <> [] ->
  Built.enc_feats N mults a b
  = rev (Built.dec_feats N (decoder_items mults) a b)
    ++ [mkShape N (Built.enc_channels (hd 0 mults * 64) (tl mults)) a b].
Proof.
  intros Hne. rewrite bottleneck_channels by assumption.
  rewrite (app_removelast_last 0 Hne) at 1.
  rewrite enc_feats_snoc. unfold decoder_items.
  now rewrite <- enc_feats_rev.
Qed.

Lemma len_decoder_items (mults : list Z) :
  mults <> [] -> len (decoder_items mults) + 1 = len mults.
Proof.
  intros Hne. unfold decoder_items. rewrite len_rev, len_enumerate.
  rewrite (app_removelast_last 0 Hne) at 2.
  rewrite len_app. reflexivity.
Qed.

(** ** The forward pass of a built network on shapes *)

Lemma decoder_items_pos (mults : list Z) :
  Forall (fun m => 0 < m) mults ->
  Forall (fun item => 0 < snd item) (decoder_items mults).
Proof.
  intros Hm. unfold decoder_items. apply Forall_rev.
  apply Forall_removelast in Hm. exact (Forall_enumerate _ _ Hm 0).
Qed.

Lemma enc_channels_pos (ms : list Z) :
  Forall (fun m => 0 < m) ms ->
  forall cin : Z, 0 < cin -> 0 < Built.enc_channels cin ms.
Proof.
  induction 1 as [|m rest Hm Hrest IH]; intros cin Hcin; [exact Hcin|].
  cbn [Built.enc_channels]. apply IH. lia.
Qed.

Lemma bottleneck_pos (mults : list Z) :
  mults <> [] -> Forall (fun m => 0 < m) mults ->
  0 < Built.enc_channels (hd 0 mults * 64) (tl mults).
Proof.
  intros Hne Hpos. destruct mults as [|m0 rest]; [contradiction|].
  inversion Hpos as [|? ? Hm0 Hrest]; subst. cbn [hd tl].
  apply enc_channels_pos; [assumption|lia].
Qed.

Lemma forward_shape (mode : bool) (cin cout : Z) (mults : list Z)
      (dropout : Q) (N a b : Z) :
  0 < cin -> mults <> [] -> Forall (fun m => 0 < m) mults ->
  0 <= N -> 0 < a -> 0 < b ->
  tl mults = [] \/ mode = false \/ N * a * b <> 1 ->
  ResUnet.forward
    (ResUnet.train mode (built cin cout mults dropout))
    (mkShape N cin (2 ^ len mults * a) (2 ^ len mults * b))
  = Ok (mkShape N cout (2 ^ len mults * a) (2 ^ len mults * b)).
Proof.
  intros Hcin Hne Hpos HN Ha Hb Hbn. unfold ResUnet.forward. shape_ops.
  unfold ShapeOps.to_float32.
  rewrite encode_shape by assumption. cbn [Py.bind].
  rewrite enc_feats_stack, pop_snoc by assumption. cbn [Py.bind].
  unfold ResUnet.decode, ResUnet.train, built.
  cbn [ResUnet.decoders ResUnet.out Layer_train].
  rewrite decode_items_shape
    by (assumption || now apply decoder_items_pos || now apply bottleneck_pos).
  cbn [Py.bind].
  rewrite len_decoder_items by assumption. reflexivity.
Qed.

(** A freshly built network is in training mode. *)
Lemma enc_blocks_train_true (n : Z) (ms : list Z) :
  forall level cin : Z,
    map (Stage_train true) (Built.enc_blocks n level cin ms)
    = Built.enc_blocks n level cin ms.
Proof.
  induction ms as [|m rest IH]; intros level cin; [reflexivity|].
  cbn [Built.enc_blocks map Stage_train].
  now rewrite EncoderBlock_train_true, IH.
Qed.

Lemma dec_blocks_train_true (r : Z -> Z -> Q) (items : list (Z * Z)) :
  forall cin : Z,
    map (Stage_train true) (Built.dec_blocks r cin items)
    = Built.dec_blocks r cin items.
Proof.
  induction items as [|[level mult] rest IH]; intros cin; [reflexivity|].
  cbn [Built.dec_blocks map Stage_train].
  now rewrite DecoderBlock_train_true, IH.
Qed.

Lemma built_train_true (cin cout : Z) (mults : list Z) (dropout : Q) :
  ResUnet.train true (built cin cout mults dropout)
  = built cin cout mults dropout.
Proof.
  unfold ResUnet.train, built.
  cbn [ResUnet.encoders ResUnet.decoders ResUnet.out map Stage_train
       Layer_train].
  rewrite enc_blocks_train_true, map_app, dec_blocks_train_true.
  reflexivity.
Qed.

(** A side divisible by [2 ^ n] is [2 ^ n] times its quotient. *)
Lemma side_split (H n : Z) :
  0 <= n -> 0 < H -> H mod 2 ^ n = 0 ->
  H = 2 ^ n * (H / 2 ^ n) /\ 0 < H / 2 ^ n.
Proof.
  intros Hn HH Hmod.
  assert (Hp : 0 < 2 ^ n) by (apply Z.pow_pos_nonneg; lia).
  pose proof (Z.div_mod H (2 ^ n) ltac:(lia)) as Hdm.
  rewrite Hmod, Z.add_0_r in Hdm. split; [exact Hdm|].
  destruct (Z.lt_trichotomy 0 (H / 2 ^ n)) as [Hq|[Hq|Hq]]; [exact Hq|nia|nia].
Qed.

(** * The blocks: spatial sizes *)

(** C6 (as amended).  For positive channel counts the constructor returns
    a block which, on an input [N, in_channels, H, W] with [H] and [W]
    even and positive (and any batch size, 0 included), returns
    [N, out_channels, H/2, W/2]: in evaluation mode always, and in
    training mode (as constructed) unless the halved tensor holds exactly
    one value per channel. *)
Theorem EncoderBlock_forward_halves
        (in_channels out_channels : Z) (norm : bool) (N H W : Z) :
  0 < in_channels -> 0 < out_channels ->
  0 <= N -> 0 < H -> 0 < W -> H mod 2 = 0 -> W mod 2 = 0 ->
  let x := mkShape N in_channels H W in
  let y := mkShape N out_channels (H / 2) (W / 2) in
  exists self,
    EncoderBlock.init in_channels out_channels norm = Ok self
    /\ (N * (H / 2) * (W / 2) <> 1 -> EncoderBlock.forward self x = Ok y)
    /\ EncoderBlock.forward (EncoderBlock.train false self) x = Ok y.
Proof.
  intros Hci Hco HN HH HW HmH HmW x y. subst x y.
  destruct (side_split H 1 ltac:(lia) HH HmH) as [EH Hh].
  destruct (side_split W 1 ltac:(lia) HW HmW) as [EW Hw].
  change (2 ^ 1) with 2 in *.
  exists (Built.encoder_block in_channels out_channels norm).
  split; [apply EncoderBlock_init_ok; lia|]. split.
  - intros Hbn. rewrite <- EncoderBlock_train_true.
    rewrite EH at 1. rewrite EW at 1.
    apply EncoderBlock_forward_ok; auto.
  - rewrite EH at 1. rewrite EW at 1.
    apply EncoderBlock_forward_ok; auto.
Qed.

Lemma EncoderBlock_forward_halves_witness :
  exists self,
    EncoderBlock.init 64 128 true = Ok self
    /\ (2 * (8 / 2) * (8 / 2) <> 1 ->
        EncoderBlock.forward self (mkShape 2 64 8 8)
        = Ok (mkShape 2 128 (8 / 2) (8 / 2)))
    /\ EncoderBlock.forward (EncoderBlock.train false self) (mkShape 2 64 8 8)
       = Ok (mkShape 2 128 (8 / 2) (8 / 2)).
Proof.
  apply (EncoderBlock_forward_halves 64 128 true 2 8 8);
    [lia | lia | lia | lia | lia | reflexivity | reflexivity].
Defined.

(** C6 as stated fails: a freshly constructed block (training mode) on one
    2x2 image with the right channel count raises in its first batch
    normalisation instead of returning a 1x1 map. *)
Lemma EncoderBlock_forward_single_value_raises :
  2 mod 2 = 0
  /\ exists self,
      EncoderBlock.init 3 64 true = Ok self
      /\ EncoderBlock.forward self (mkShape 1 3 2 2)
         = Raise (ValueError
                    "Expected more than 1 value per channel when training")
      /\ EncoderBlock.forward self (mkShape 1 3 2 2)
         <> Ok (mkShape 1 64 (2 / 2) (2 / 2)).
Proof.
  split; [reflexivity|]. eexists.
  split; [reflexivity|]. split; [reflexivity|discriminate].
Qed.

(** C7 (as amended).  For positive channel counts and a dropout rate of at
    most 1 the constructor returns a block which, on an input
    [N, in_channels, H, W] with positive [H] and [W] (and any batch size,
    0 included), returns [N, out_channels, 2*H, 2*W], in training mode (as
    constructed) and in evaluation mode. *)
Theorem DecoderBlock_forward_doubles
        (in_channels out_channels : Z) (dropout : Q) (N H W : Z) :
  0 < in_channels -> 0 < out_channels -> (dropout <= 1)%Q ->
  0 <= N -> 0 < H -> 0 < W ->
  let x := mkShape N in_channels H W in
  let y := mkShape N out_channels (2 * H) (2 * W) in
  exists self,
    DecoderBlock.init in_channels out_channels dropout = Ok self
    /\ DecoderBlock.forward self x = Ok y
    /\ forall mode, DecoderBlock.forward (DecoderBlock.train mode self) x = Ok y.
Proof.
  intros Hci Hco Hd HN HH HW x y. subst x y.
  exists (Built.decoder_block in_channels out_channels dropout).
  split; [apply DecoderBlock_init_ok; (assumption || lia)|]. split.
  - rewrite <- DecoderBlock_train_true. now apply DecoderBlock_forward_ok.
  - intros mode. now apply DecoderBlock_forward_ok.
Qed.

Lemma DecoderBlock_forward_doubles_witness :
  exists self,
    DecoderBlock.init 512 256 (1 # 2) = Ok self
    /\ DecoderBlock.forward self (mkShape 1 512 1 1)
       = Ok (mkShape 1 256 (2 * 1) (2 * 1))
    /\ forall mode,
        DecoderBlock.forward (DecoderBlock.train mode self) (mkShape 1 512 1 1)
        = Ok (mkShape 1 256 (2 * 1) (2 * 1)).
Proof.
  apply (DecoderBlock_forward_doubles 512 256 (1 # 2) 1 1 1);
    [lia | lia | discriminate | lia | lia | lia].
Defined.

(** C7 as stated fails: a block constructed with 0 output channels raises
    RuntimeError on a 2x2 input with the right channel count, instead of
    returning a 4x4 map with 0 channels: a convolution whose weight has no
    output channels is refused. *)
Lemma DecoderBlock_forward_no_channels_raises :
  exists self,
    DecoderBlock.init 8 0 0 = Ok self
    /\ dimC (mkShape 1 8 2 2) = 8
    /\ is_RuntimeError (DecoderBlock.forward self (mkShape 1 8 2 2)) = true
    /\ DecoderBlock.forward self (mkShape 1 8 2 2)
       <> Ok (mkShape 1 0 (2 * 2) (2 * 2)).
Proof.
  eexists. split; [reflexivity|]. split; [reflexivity|].
  split; [reflexivity|discriminate].
Qed.

(** * ResUnet: shape of the output *)

Lemma length_ne_nil {A : Type} (l : list A) : (1 <= List.length l)%nat -> l <> [].
Proof. destruct l; simpl; [lia|discriminate]. Qed.




(** * ResUnet: sequences shorter than 2 *)

(** C3 (as amended).  For a sequence of length 1 (a positive multiplier,
    positive channel counts) the constructor returns a network of one
    convolution and one transposed convolution; its forward pass
    concatenates nothing and returns [N, out_channels, H, W] on an input
    [N, in_channels, H, W] with even positive sides.  For the empty
    sequence the constructor itself raises IndexError, reading
    [channel_mults[0]]. *)
Theorem ResUnet_short_sequences
        (in_channels out_channels m0 : Z) (dropout : Q) (N H W : Z) :
  0 < in_channels -> 0 < out_channels ->
  0 < m0 -> 0 < N -> 0 < H -> 0 < W -> H mod 2 = 0 -> W mod 2 = 0 ->
  (exists self,
      ResUnet.init in_channels out_channels [m0] dropout = Ok self
      /\ ResUnet.forward self (mkShape N in_channels H W)
         = Ok (mkShape N out_channels H W)
      /\ ResUnet.forward self FInput
         = Ok (FLayer Tanh
                 (FLayer (ConvTranspose2d (m0 * 64) out_channels 4 2 1)
                    (FLayer (Conv2d in_channels (m0 * 64) 4 2 1)
                       (FCast FInput)))))
  /\ ResUnet.init in_channels out_channels [] dropout
     = Raise (IndexError "tuple index out of range").
Proof.
  intros Hci Hco Hm0 HN HH HW HmH HmW. split; [|reflexivity].
  destruct (side_split H 1 ltac:(lia) HH HmH) as [EH Ha].
  destruct (side_split W 1 ltac:(lia) HW HmW) as [EW Hb].
  exists (built in_channels out_channels [m0] dropout).
  split; [|split; [|reflexivity]].
  - apply init_built_items; try lia; try discriminate.
    + repeat constructor. lia.
    + constructor.
  - rewrite <- built_train_true.
    rewrite EH, EW. change (2 ^ 1) with (2 ^ len [m0]).
    apply forward_shape; auto; (lia || discriminate).
Qed.

Lemma ResUnet_short_sequences_witness :
  (exists self,
      ResUnet.init 3 3 [1] (1 # 2) = Ok self
      /\ ResUnet.forward self (mkShape 1 3 2 2) = Ok (mkShape 1 3 2 2)
      /\ ResUnet.forward self FInput
         = Ok (FLayer Tanh
                 (FLayer (ConvTranspose2d (1 * 64) 3 4 2 1)
                    (FLayer (Conv2d 3 (1 * 64) 4 2 1) (FCast FInput)))))
  /\ ResUnet.init 3 3 [] (1 # 2) = Raise (IndexError "tuple index out of range").
Proof.
  apply (ResUnet_short_sequences 3 3 1 (1 # 2) 1 2 2);
    [lia | lia | lia | lia | lia | lia | reflexivity | reflexivity].
Defined.

(** C3 as stated fails: with the one-element sequence (1) the network is
    constructed and its forward pass returns, with no failure at any
    concatenation. *)
Lemma ResUnet_length_one_succeeds :
  (List.length [1] < 2)%nat
  /\ exists self,
      ResUnet.init 3 3 [1] (1 # 2) = Ok self
      /\ ResUnet.forward self (mkShape 1 3 2 2) = Ok (mkShape 1 3 2 2).
Proof.
  split; [simpl; lia|]. eexists. split; reflexivity.
Qed.

(** * ResUnet: where dropout is placed *)

Lemma fold_max_spec (rest : list Z) :
  forall a : Z,
    let w := fold_left Z.max rest a in
    (w = a \/ In w rest) /\ a <= w /\ Forall (fun m => m <= w) rest.
Proof.
  induction rest as [|x rest IH]; intros a; cbn [fold_left].
  - repeat split; [now left | lia | constructor].
  - destruct (IH (Z.max a x)) as (Hin & Hle & Hall).
    repeat split.
    + destruct Hin as [Hw|Hin]; [|right; now right].
      rewrite Hw. destruct (Z.max_spec a x) as [[_ ->]|[_ ->]];
        [right; now left | now left].
    + lia.
    + constructor; [lia | exact Hall].
Qed.

(** [max(l)] is an element of [l] that bounds every element. *)
Lemma max_spec (l : list Z) (w : Z) :
  Py.max l = Ok w -> In w l /\ Forall (fun m => m <= w) l.
Proof.
  destruct l as [|a rest]; [discriminate|].
  cbn [Py.max]. intros [= <-].
  destruct (fold_max_spec rest a) as (Hin & Hle & Hall).
  split; [destruct Hin as [->|Hin]; [now left | now right]|].
  constructor; assumption.
Qed.

Lemma length_enumerate {A : Type} (l : list A) :
  forall s : Z, List.length (enumerate s l) = List.length l.
Proof.
  induction l as [|x l IH]; intros s; [reflexivity|].
  cbn [enumerate List.length]. now rewrite IH.
Qed.

Lemma nth_error_enumerate {A : Type} (l : list A) :
  forall (s : Z) (k : nat),
    nth_error (enumerate s l) k
    = option_map (fun x => (s + Z.of_nat k, x)) (nth_error l k).
Proof.
  induction l as [|x l IH]; intros s k.
  - destruct k; reflexivity.
  - destruct k as [|k]; cbn [enumerate nth_error option_map].
    + now rewrite Z.add_0_r.
    + rewrite IH. destruct (nth_error l k); cbn [option_map]; [|reflexivity].
      do 2 f_equal. lia.
Qed.

Lemma length_removelast_pred {A : Type} (l : list A) :
  List.length (removelast l) = pred (List.length l).
Proof.
  destruct l as [|a l]; [reflexivity|].
  assert (Hne : a :: l <> []) by discriminate.
  pose proof (f_equal (@List.length A) (app_removelast_last a Hne)) as E.
  rewrite length_app in E. cbn [List.length] in *. lia.
Qed.

Lemma nth_error_removelast {A : Type} (l : list A) (k : nat) :
  (k + 1 < List.length l)%nat ->
  nth_error (removelast l) k = nth_error l k.
Proof.
  intros Hk. destruct l as [|a l]; [simpl in Hk; lia|].
  assert (Hne : a :: l <> []) by discriminate.
  rewrite (app_removelast_last a Hne) at 2.
  rewrite nth_error_app1; [reflexivity|].
  rewrite length_removelast_pred. lia.
Qed.

(** The decoder block at position [i] from the bottleneck is the one of
    level [len mults - 2 - i]. *)
Lemma decoder_items_nth (mults : list Z) (i : nat) (mult : Z) :
  (i + 1 < List.length mults)%nat ->
  nth_error mults (List.length mults - 2 - i) = Some mult ->
  nth_error (decoder_items mults) i
  = Some (len mults - 2 - Z.of_nat i, mult).
Proof.
  intros Hi Hm. unfold decoder_items.
  rewrite nth_error_rev, length_enumerate, length_removelast_pred.
  destruct (Nat.ltb_spec i (pred (List.length mults))) as [_|Hge]; [|lia].
  rewrite nth_error_enumerate.
  replace (pred (List.length mults) - S i)%nat
    with (List.length mults - 2 - i)%nat by lia.
  rewrite nth_error_removelast by lia.
  rewrite Hm. cbn [option_map]. unfold len. do 2 f_equal. lia.
Qed.

Lemma bottleneck_nonneg (mults : list Z) :
  Forall (fun m => 0 <= m) mults ->
  0 <= Built.enc_channels (hd 0 mults * 64) (tl mults).
Proof.
  intros Hm. destruct mults as [|m0 rest]; [cbn; lia|].
  inversion Hm as [|? ? Hm0 Hrest]; subst. cbn [hd tl].
  apply enc_channels_nonneg; [assumption|lia].
Qed.

(** The decoder blocks of a constructed network are what
    [DecoderBlock.init] returned for them. *)
Lemma dec_blocks_nth_init (r : Z -> Z -> Q) (items : list (Z * Z)) :
  Forall (dec_item_ok r) items ->
  forall (cin : Z) (i : nat) (level mult : Z),
    0 <= cin ->
    nth_error items i = Some (level, mult) ->
    exists cin_i,
      nth_error (Built.dec_blocks r cin items) i
      = Some (Dec (Built.decoder_block cin_i (mult * 64) (r level mult)))
      /\ DecoderBlock.init cin_i (mult * 64) (r level mult)
         = Ok (Built.decoder_block cin_i (mult * 64) (r level mult)).
Proof.
  induction 1 as [|[l0 m0] rest [Hm Hr] Hrest IH];
    intros cin i level mult Hcin Hi.
  - destruct i; discriminate.
  - cbn [fst snd] in Hm, Hr.
    destruct i as [|i]; cbn [nth_error Built.dec_blocks] in *.
    + injection Hi as -> ->. exists cin. split; [reflexivity|].
      apply DecoderBlock_init_ok; (assumption || lia).
    + apply IH; [lia|assumption].
Qed.

(** C2 (as amended).  In the constructed network the decoder block at
    position [i] from the bottleneck (level [len(channel_mults) - 2 - i],
    multiplier [mult]) is built with the dropout rate [dropout] when
    [mult] is the maximum multiplier and [level > len(channel_mults) - 5],
    and with rate 0 otherwise; the levels that pass the comparison are
    those of the three blocks closest to the bottleneck ([i < 3]).  So for
    a nonzero [dropout] the block receives a nonzero rate exactly when it
    works at the maximum multiplier and is among these three. *)
Theorem ResUnet_dropout_placement
        (in_channels out_channels : Z) (channel_mults : list Z) (dropout : Q)
        (self : ResUnet.t) (i : nat) (mult : Z) :
  ResUnet.init in_channels out_channels channel_mults dropout = Ok self ->
  (i + 1 < List.length channel_mults)%nat ->
  nth_error channel_mults (List.length channel_mults - 2 - i) = Some mult ->
  let level := len channel_mults - 2 - Z.of_nat i in
  exists widest cin_i block,
    Py.max channel_mults = Ok widest
    /\ let rate := if (mult =? widest) && (level >? len channel_mults - 5)
                   then dropout else 0%Q in
       DecoderBlock.init cin_i (mult * 64) rate = Ok block
       /\ nth_error (ResUnet.decoders self) i = Some (Dec block)
       /\ ((level >? len channel_mults - 5) = true <-> (i < 3)%nat)
       /\ (~ (dropout == 0)%Q ->
           (~ (rate == 0)%Q <-> mult = widest /\ (i < 3)%nat)).
Proof.
  intros Hinit Hi Hm level.
  apply init_inv in Hinit.
  destruct Hinit as (-> & Hne & _ & _ & Hnn & Hitems).
  pose proof (decoder_items_nth channel_mults i mult Hi Hm) as Hitem.
  fold level in Hitem.
  destruct (dec_blocks_nth_init _ _ Hitems
              (Built.enc_channels (hd 0 channel_mults * 64) (tl channel_mults))
              _ _ _ (bottleneck_nonneg _ Hnn) Hitem)
    as (cin_i & Hblock & Hmade).
  exists (fold_left Z.max (tl channel_mults) (hd 0 channel_mults)), cin_i,
    (Built.decoder_block cin_i (mult * 64)
       (Built.rate channel_mults dropout level mult)).
  split; [destruct channel_mults; [contradiction|reflexivity]|].
  assert (Hlevel : (level >? len channel_mults - 5) = true <-> (i < 3)%nat).
  { rewrite Z.gtb_ltb, Z.ltb_lt. subst level. lia. }
  split; [exact Hmade|]. split; [|split; [exact Hlevel|]].
  - unfold built. cbn [ResUnet.decoders].
    rewrite nth_error_app1; [exact Hblock|].
    apply nth_error_Some. rewrite Hblock. discriminate.
  - intros Hd.
    destruct (Z.eqb_spec mult
                (fold_left Z.max (tl channel_mults) (hd 0 channel_mults)))
      as [Hw|Hw]; cbn [andb].
    + destruct (level >? len channel_mults - 5) eqn:Hl.
      * split; [intros _; split; [exact Hw | now apply Hlevel] | now intros _].
      * split; [intros Hr; now destruct Hr|].
        intros [_ Hi3]. apply Hlevel in Hi3. discriminate.
    + split; [intros Hr; now destruct Hr | intros [Hc _]; contradiction].
Qed.

Lemma ResUnet_dropout_placement_witness :
  exists self,
    ResUnet.init 3 3 [1; 2; 4; 8; 8; 8; 8; 8] (1 # 2) = Ok self
    /\ exists widest cin_i block,
        Py.max [1; 2; 4; 8; 8; 8; 8; 8] = Ok widest
        /\ let level := len [1; 2; 4; 8; 8; 8; 8; 8] - 2 - Z.of_nat 2 in
           let rate :=
             if (8 =? widest) && (level >? len [1; 2; 4; 8; 8; 8; 8; 8] - 5)
             then 1 # 2 else 0%Q in
           DecoderBlock.init cin_i (8 * 64) rate = Ok block
           /\ nth_error (ResUnet.decoders self) 2 = Some (Dec block)
           /\ ((level >? len [1; 2; 4; 8; 8; 8; 8; 8] - 5) = true
               <-> (2 < 3)%nat)
           /\ (~ (1 # 2 == 0)%Q ->
               (~ (rate == 0)%Q <-> 8 = widest /\ (2 < 3)%nat)).
Proof.
  eexists. split; [reflexivity|].
  apply (ResUnet_dropout_placement 3 3 [1; 2; 4; 8; 8; 8; 8; 8] (1 # 2) _ 2 8);
    [reflexivity | simpl; lia | reflexivity].
Defined.

(** C2 as stated fails: with the default multipliers the decoder block
    fourth from the bottleneck (level 3) works at the maximum multiplier 8
    and is among the four blocks closest to the bottleneck, yet it is
    built with dropout rate 0. *)
Lemma ResUnet_fourth_decoder_without_dropout :
  exists self block,
    ResUnet.init 3 3 [1; 2; 4; 8; 8; 8; 8; 8] (1 # 2) = Ok self
    /\ Py.max [1; 2; 4; 8; 8; 8; 8; 8] = Ok 8
    /\ nth_error (decoder_items [1; 2; 4; 8; 8; 8; 8; 8]) 3 = Some (3, 8)
    /\ (3 < 4)%nat
    /\ DecoderBlock.init (8 * 64 * 2) (8 * 64) 0 = Ok block
    /\ nth_error (ResUnet.decoders self) 3 = Some (Dec block)
    /\ last (DecoderBlock.conv_block block) ReLU = Identity.
Proof.
  do 2 eexists. split; [reflexivity|].
  split; [reflexivity|]. split; [reflexivity|]. split; [lia|].
  split; [reflexivity|]. split; reflexivity.
Qed.

(** * ResUnet: the stack of feature maps *)

Section FeatureStack.

Context {T : Type} `{Tensor T}.

(** The encoder loop records one feature map per stage, the last of them
    being its final activation. *)
Lemma encode_loop_stored (encs : list Stage) :
  forall (h : T) (feats : list T) (h' : T) (stored : list T),
    for_loop ResUnet.encode_step encs (h, feats) = Ok (h', stored) ->
    List.length stored = (List.length feats + List.length encs)%nat
    /\ (encs <> [] -> exists pre, stored = pre ++ [h']).
Proof.
  induction encs as [|e encs IH]; intros h feats h' stored Hrun.
  - cbn [for_loop] in Hrun. injection Hrun as <- <-.
    split; [cbn [List.length]; lia | intros Hne; contradiction].
  - cbn [for_loop ResUnet.encode_step] in Hrun.
    destruct (call_stage e h) as [h1|err]; [|discriminate].
    cbn [Py.bind] in Hrun.
    destruct (IH _ _ _ _ Hrun) as [Hlen Hlast].
    rewrite length_app in Hlen. cbn [List.length] in *.
    split; [lia|]. intros _.
    destruct encs as [|e' encs'].
    + cbn [for_loop] in Hrun. injection Hrun as <- <-. now exists feats.
    + apply Hlast. discriminate.
Qed.

Lemma firstn_snoc (l : list T) :
  forall (j : nat) (x : T),
    nth_error l j = Some x -> firstn (S j) l = firstn j l ++ [x].
Proof.
  induction l as [|a l IH]; intros j x Hj.
  - destruct j; discriminate.
  - destruct j as [|j]; cbn [nth_error firstn app] in *.
    + now injection Hj as ->.
    + f_equal. now apply IH.
Qed.

(** From the second stage on, popping the stack reads the stored feature
    map number [encoder-stages - 1 - index]; when the decoders run out the
    stack is empty. *)
Lemma decode_tail_by_index (stored : list T) (ds : list Stage) :
  forall (k : nat) (h : T),
    (1 <= k)%nat ->
    (k + List.length ds = List.length stored)%nat ->
    for_loop ResUnet.decode_step (enumerate (Z.of_nat k) ds)
             (h, firstn (List.length stored - k) stored)
    = (h' <- for_loop (ResUnet.decode_by_index_step stored (len stored))
                      (enumerate (Z.of_nat k) ds) h ;;
       Ok (h', [])).
Proof.
  induction ds as [|d ds IH]; intros k h Hk Hlen.
  - cbn [List.length] in Hlen. cbn [enumerate for_loop Py.bind].
    now replace (List.length stored - k)%nat with 0%nat by lia.
  - cbn [List.length] in Hlen.
    cbn [enumerate for_loop ResUnet.decode_step ResUnet.decode_by_index_step].
    destruct (Z.eqb_spec (Z.of_nat k) 0) as [|_]; [lia|]. cbn [negb].
    replace (Z.to_nat (len stored - 1 - Z.of_nat k))
      with (List.length stored - S k)%nat by (unfold len; lia).
    destruct (nth_error stored (List.length stored - S k)) as [f|] eqn:Hf.
    + replace (List.length stored - k)%nat
        with (S (List.length stored - S k)) by lia.
      rewrite (firstn_snoc _ _ _ Hf), pop_snoc. cbn [Py.bind].
      destruct (cat h f) as [h1|err]; [|reflexivity]. cbn [Py.bind].
      destruct (call_stage d h1) as [h2|err]; [|reflexivity]. cbn [Py.bind].
      replace (Z.of_nat k + 1) with (Z.of_nat (S k)) by lia.
      apply IH; lia.
    + apply nth_error_None in Hf. lia.
Qed.

(** The whole decoder pass, started on the stack without its top. *)
Lemma decode_by_index (stored : list T) (ds : list Stage) (h : T) :
  List.length ds = List.length stored ->
  for_loop ResUnet.decode_step (enumerate 0 ds) (h, removelast stored)
  = (h' <- for_loop (ResUnet.decode_by_index_step stored (len stored))
                    (enumerate 0 ds) h ;;
     Ok (h', [])).
Proof.
  intros Hlen. destruct ds as [|d ds].
  - destruct stored; [reflexivity|discriminate].
  - cbn [List.length] in Hlen.
    cbn [enumerate for_loop ResUnet.decode_step ResUnet.decode_by_index_step].
    cbn [Z.eqb negb Py.bind].
    destruct (call_stage d h) as [h1|err]; [|reflexivity]. cbn [Py.bind].
    rewrite removelast_firstn_len.
    replace (pred (List.length stored)) with (List.length stored - 1)%nat
      by lia.
    change (0 + 1) with (Z.of_nat 1).
    apply decode_tail_by_index; lia.
Qed.

End FeatureStack.

Lemma length_enc_blocks (n : Z) (ms : list Z) :
  forall level cin : Z,
    List.length (Built.enc_blocks n level cin ms) = List.length ms.
Proof.
  induction ms as [|m rest IH]; intros level cin; [reflexivity|].
  cbn [Built.enc_blocks List.length]. now rewrite IH.
Qed.

Lemma length_dec_blocks (r : Z -> Z -> Q) (items : list (Z * Z)) :
  forall cin : Z,
    List.length (Built.dec_blocks r cin items) = List.length items.
Proof.
  induction items as [|[level mult] rest IH]; intros cin; [reflexivity|].
  cbn [Built.dec_blocks List.length]. now rewrite IH.
Qed.

Lemma length_decoder_items (mults : list Z) :
  List.length (decoder_items mults) = pred (List.length mults).
Proof.
  unfold decoder_items.
  now rewrite length_rev, length_enumerate, length_removelast_pred.
Qed.

(** A constructed network has one encoder stage and one decoder stage per
    multiplier. *)
Lemma built_stage_counts (mode : bool) (cin cout : Z) (mults : list Z)
      (dropout : Q) :
  mults <> [] ->
  let net := ResUnet.train mode (built cin cout mults dropout) in
  List.length (ResUnet.encoders net) = List.length mults
  /\ List.length (ResUnet.decoders net) = List.length mults.
Proof.
  intros Hne net. subst net. unfold ResUnet.train, built.
  cbn [ResUnet.encoders ResUnet.decoders].
  rewrite !length_map, length_app. cbn [List.length].
  rewrite length_enc_blocks, length_dec_blocks, length_decoder_items.
  destruct mults as [|m0 rest]; [contradiction|]. cbn [tl List.length]. lia.
Qed.

(** C5.  In a constructed network the decoder stages are as many as the
    encoder stages.  A forward pass stores one feature map per encoder
    stage; the pop before decoding removes exactly the last one, which is
    the bottleneck activation the first decoder stage consumes; the
    decoder pass leaves the stack empty; and the pass computes what the
    indexed reading computes, where stage [i > 0] concatenates its input
    with the stored feature map number [encoder-stages - 1 - i] and stage
    0 concatenates nothing. *)
Theorem ResUnet_skip_connections
        {T : Type} `{Tensor T}
        (in_channels out_channels : Z) (channel_mults : list Z) (dropout : Q)
        (self : ResUnet.t) (mode : bool) (x : T) :
  ResUnet.init in_channels out_channels channel_mults dropout = Ok self ->
  let net := ResUnet.train mode self in
  ResUnet.train true self = self
  /\ List.length (ResUnet.decoders net) = List.length (ResUnet.encoders net)
  /\ (forall (h : T) (stored : list T),
         ResUnet.encode net (to_float32 x) = Ok (h, stored) ->
         List.length stored = List.length (ResUnet.encoders net)
         /\ pop stored = Ok (h, removelast stored)
         /\ (List.length (removelast stored) + 1 = List.length stored)%nat
         /\ forall (h' : T) (rest : list T),
             ResUnet.decode net h (removelast stored) = Ok (h', rest) ->
             rest = [])
  /\ ResUnet.forward net x = ResUnet.forward_by_index net x.
Proof.
  intros Hinit net.
  apply init_inv in Hinit.
  destruct Hinit as (-> & Hne & Hci & Hco & Hnn & Hitems).
  destruct (built_stage_counts mode in_channels out_channels channel_mults
              dropout Hne) as [Henc Hdec].
  fold net in Henc, Hdec.
  assert (Hencs : ResUnet.encoders net <> [])
    by (apply length_ne_nil; rewrite Henc;
        destruct channel_mults; [contradiction|cbn [List.length]; lia]).
  assert (Hstored : forall (h : T) (stored : list T),
             ResUnet.encode net (to_float32 x) = Ok (h, stored) ->
             List.length stored = List.length (ResUnet.encoders net)
             /\ pop stored = Ok (h, removelast stored)
             /\ (List.length (removelast stored) + 1
                 = List.length stored)%nat).
  { intros h stored Hrun.
    destruct (encode_loop_stored _ _ _ _ _ Hrun) as [Hlen Hlast].
    destruct (Hlast Hencs) as [pre ->].
    rewrite removelast_last, pop_snoc.
    rewrite length_app in *. cbn [List.length] in *.
    split; [lia|]. split; [reflexivity|lia]. }
  split; [apply built_train_true|].
  split; [congruence|]. split.
  - intros h stored Hrun.
    destruct (Hstored h stored Hrun) as (Hlen & Hpop & Hrem).
    repeat split; try assumption.
    intros h' rest Hdecode. unfold ResUnet.decode in Hdecode.
    rewrite decode_by_index in Hdecode by congruence.
    destruct (for_loop _ _ h) as [h1|err]; [|discriminate].
    cbn [Py.bind] in Hdecode. now injection Hdecode as _ <-.
  - unfold ResUnet.forward, ResUnet.forward_by_index.
    pose proof (Hstored) as Hs.
    destruct (ResUnet.encode net (to_float32 x)) as [[h stored]|err];
      [|reflexivity].
    destruct (Hs h stored eq_refl) as (Hlen & Hpop & _).
    cbn [Py.bind]. rewrite Hpop. cbn [Py.bind].
    unfold ResUnet.decode. rewrite decode_by_index by congruence.
    replace (len (ResUnet.encoders net)) with (len stored)
      by (unfold len; now rewrite Hlen).
    destruct (for_loop _ _ h) as [h1|err]; reflexivity.
Qed.

Lemma ResUnet_skip_connections_witness :
  let self := built 3 3 [1; 2; 4] (1 # 2) in
  let net := ResUnet.train true self in
  ResUnet.train true self = self
  /\ List.length (ResUnet.decoders net) = List.length (ResUnet.encoders net)
  /\ (forall (h : Flow) (stored : list Flow),
         ResUnet.encode net (to_float32 FInput) = Ok (h, stored) ->
         List.length stored = List.length (ResUnet.encoders net)
         /\ pop stored = Ok (h, removelast stored)
         /\ (List.length (removelast stored) + 1 = List.length stored)%nat
         /\ forall (h' : Flow) (rest : list Flow),
             ResUnet.decode net h (removelast stored) = Ok (h', rest) ->
             rest = [])
  /\ ResUnet.forward net FInput = ResUnet.forward_by_index net FInput.
Proof.
  apply (@ResUnet_skip_connections Flow Flow_Tensor 3 3 [1; 2; 4] (1 # 2)
           (built 3 3 [1; 2; 4] (1 # 2)) true FInput).
  reflexivity.
Defined.

(** On data-flow terms every operation returns, so the pass runs to its
    end: with the multipliers (1, 2) the output is the final transposed
    convolution of the first decoder block's output concatenated with the
    first stored feature map. *)
Example forward_flow_two_levels :
  exists enc0 bottleneck dec0,
    ResUnet.encode (built 3 3 [1; 2] (1 # 2)) (FCast FInput)
    = Ok (bottleneck, [enc0; bottleneck])
    /\ enc0 = FLayer (Conv2d 3 64 4 2 1) (FCast FInput)
    /\ call_stage (Dec (Built.decoder_block 128 64 0)) bottleneck = Ok dec0
    /\ ResUnet.forward (built 3 3 [1; 2] (1 # 2)) FInput
       = Ok (FLayer Tanh
               (FLayer (ConvTranspose2d 128 3 4 2 1) (FCat dec0 enc0))).
Proof.
  do 3 eexists. split; [reflexivity|]. split; [reflexivity|].
  split; reflexivity.
Qed.

(** * main: model selection *)

Section ModelSelection.

Variable Obj : Type.
Variable run : Main.Call Obj -> result Obj.

Lemma eqb_choice (s : string) :
  In s Main.model_choices ->
  s = "pix2pix" \/ s = "palette" \/ s = "transgan".
Proof.
  unfold Main.model_choices. cbn [In]. intros [H|[H|[H|[]]]]; auto.
Qed.

Lemma not_choice (s : string) :
  ~ In s Main.model_choices ->
  String.eqb s "pix2pix" = false
  /\ String.eqb s "palette" = false
  /\ String.eqb s "transgan" = false.
Proof.
  unfold Main.model_choices. cbn [In]. intros Hn.
  repeat split; apply String.eqb_neq; intros ->; apply Hn; auto.
Qed.

(** With a name outside the three cases the [match] leaves [model] at
    [None], calling nothing. *)
Lemma select_model_unknown (hp : Main.hparams) (log : list (Main.Call Obj)) :
  ~ In (Main.model hp) Main.model_choices ->
  Main.select_model Obj run hp log = (log, Main.Returns None).
Proof.
  intros Hn. destruct (not_choice _ Hn) as (H1 & H2 & H3).
  unfold Main.select_model. now rewrite H1, H2, H3.
Qed.

(** With one of the three names the [match] either binds an object or
    lets the exception of the model's constructor through. *)
Lemma select_model_known (hp : Main.hparams) (log : list (Main.Call Obj)) :
  In (Main.model hp) Main.model_choices ->
  exists c,
    fst (Main.select_model Obj run hp log) = log ++ [c]
    /\ (c = Main.Pix2Pix Obj (Main.l1_lambda hp) \/ c = Main.Palette Obj
        \/ c = Main.TransGAN Obj (Main.l1_lambda hp))
    /\ snd (Main.select_model Obj run hp log)
       = match run c with
         | Ok o => Main.Returns (Some o)
         | Raise e => Main.Propagates e
         end.
Proof.
  intros Hin. unfold Main.select_model.
  destruct (eqb_choice _ Hin) as [E|[E|E]]; rewrite E;
    cbn [String.eqb Ascii.eqb Bool.eqb];
    unfold Main.bindM, Main.call, Main.ret;
    eexists; (split; [|split]);
    try (destruct (run _); reflexivity); auto.
Qed.

End ModelSelection.

(** C8.  With a model name that is none of "pix2pix", "palette" and
    "transgan", [main] seeds the random generators and then raises
    ValueError with the message "Incorrect model name (<name>)"; the only
    call it has made by then is [seed_everything(42)], so no model, data
    module, logger, callback or trainer has been constructed. *)
Theorem main_unknown_model_raises
        (Obj : Type) (run : Main.Call Obj -> result Obj) (hp : Main.hparams) :
  ~ In (Main.model hp) Main.model_choices ->
  Main.main Obj run hp []
  = ([Main.seed_everything Obj 42],
     match run (Main.seed_everything Obj 42) with
     | Ok _ =>
         Main.Raises
           (ValueError ("Incorrect model name (" ++ Main.model hp ++ ")")%string)
     | Raise e => Main.Propagates e
     end)
  /\ forall c, In c (fst (Main.main Obj run hp [])) ->
               c = Main.seed_everything Obj 42.
Proof.
  intros Hn.
  assert (E : Main.main Obj run hp []
              = ([Main.seed_everything Obj 42],
                 match run (Main.seed_everything Obj 42) with
                 | Ok _ =>
                     Main.Raises
                       (ValueError
                          ("Incorrect model name (" ++ Main.model hp ++ ")")%string)
                 | Raise e => Main.Propagates e
                 end)).
  { unfold Main.main, Main.bindM at 1, Main.call at 1. cbn [app].
    destruct (run (Main.seed_everything Obj 42)) as [o|e]; [|reflexivity].
    unfold Main.bindM. rewrite select_model_unknown by assumption.
    reflexivity. }
  split; [exact E|].
  rewrite E. cbn [fst In]. intros c [<-|[]]. reflexivity.
Qed.

Lemma main_unknown_model_raises_witness :
  Main.main unit (fun _ => Ok tt)
            (Main.mkHparams "run" None None 50 200 2 "32" "foo") []
  = ([Main.seed_everything unit 42],
     Main.Raises (ValueError "Incorrect model name (foo)"))
  /\ forall c,
      In c (fst (Main.main unit (fun _ => Ok tt)
                           (Main.mkHparams "run" None None 50 200 2 "32" "foo")
                           [])) ->
      c = Main.seed_everything unit 42.
Proof.
  apply (main_unknown_model_raises unit (fun _ => Ok tt)
           (Main.mkHparams "run" None None 50 200 2 "32" "foo")).
  cbn [Main.model Main.model_choices In].
  intros [H|[H|[H|[]]]]; discriminate H.
Defined.

(** The parser lets only the three names through. *)
Lemma parse_args_model (c : Main.cmdline) (args : Main.hparams) :
  Main.parse_args c = Ok args -> In (Main.model args) Main.model_choices.
Proof.
  unfold Main.parse_args.
  destruct (Main.cl_name c) as [the_name|]; [|discriminate].
  unfold Main.parse_choice.
  destruct (Main.cl_model c) as [v|]; cbn [Py.bind].
  - destruct (existsb (String.eqb v) Main.model_choices) eqn:Hv;
      [|discriminate].
    cbn [Py.bind]. intros [= <-]. cbn [Main.model].
    apply existsb_exists in Hv. destruct Hv as (s & Hs & Heq).
    apply String.eqb_eq in Heq. now subst v.
  - intros [= <-]. cbn [Main.model Main.model_choices In]. now left.
Qed.

Lemma main_known_model_no_raise
      (Obj : Type) (run : Main.Call Obj -> result Obj) (hp : Main.hparams)
      (log : list (Main.Call Obj)) :
  In (Main.model hp) Main.model_choices ->
  Main.raised_here (snd (Main.main Obj run hp log)) = false.
Proof.
  intros Hin. unfold Main.main, Main.bindM at 1, Main.call at 1.
  destruct (run (Main.seed_everything Obj 42)) as [o|e]; [|reflexivity].
  unfold Main.bindM at 1.
  destruct (select_model_known Obj run hp
              (log ++ [Main.seed_everything Obj 42]) Hin)
    as (c & Hlog & _ & Hout).
  destruct (Main.select_model Obj run hp _) as [log1 out1].
  cbn [fst snd] in Hlog, Hout. subst out1.
  destruct (run c) as [m|e]; [|reflexivity].
  unfold Main.bindM, Main.call, Main.ret.
  repeat (destruct (run _); [|reflexivity]).
  reflexivity.
Qed.

(** C10.  With one of the names "pix2pix", "palette" and "transgan" the
    [match] statement calls that model's constructor and binds the object
    it returns (or the constructor's exception passes through), so [main]
    never reaches its own [raise]; the parser accepts no other model name,
    so a run from the command line never reaches it either. *)
Theorem main_known_model_never_raises
        (Obj : Type) (run : Main.Call Obj -> result Obj) :
  (forall (hp : Main.hparams) (log : list (Main.Call Obj)),
      In (Main.model hp) Main.model_choices ->
      (exists c,
          fst (Main.select_model Obj run hp log) = log ++ [c]
          /\ snd (Main.select_model Obj run hp log)
             = match run c with
               | Ok o => Main.Returns (Some o)
               | Raise e => Main.Propagates e
               end)
      /\ Main.raised_here (snd (Main.main Obj run hp log)) = false)
  /\ (forall (c : Main.cmdline) (args : Main.hparams),
         Main.parse_args c = Ok args ->
         In (Main.model args) Main.model_choices)
  /\ (forall (c : Main.cmdline) (log : list (Main.Call Obj)),
         Main.raised_here (snd (Main.script Obj run c log)) = false).
Proof.
  split; [|split].
  - intros hp log Hin. split.
    + destruct (select_model_known Obj run hp log Hin) as (c & Hlog & _ & Hout).
      now exists c.
    + now apply main_known_model_no_raise.
  - apply parse_args_model.
  - intros c log. unfold Main.script.
    destruct (Main.parse_args c) as [args|e] eqn:Hparse; [|reflexivity].
    apply main_known_model_no_raise. now apply (parse_args_model c).
Qed.

Lemma main_known_model_never_raises_witness :
  (exists c,
      fst (Main.select_model unit (fun _ => Ok tt)
             (Main.mkHparams "run" None None 50 200 2 "32" "palette") [])
      = [] ++ [c]
      /\ snd (Main.select_model unit (fun _ => Ok tt)
                (Main.mkHparams "run" None None 50 200 2 "32" "palette") [])
         = Main.Returns (Some tt))
  /\ Main.raised_here
       (snd (Main.main unit (fun _ => Ok tt)
               (Main.mkHparams "run" None None 50 200 2 "32" "palette") []))
     = false.
Proof.
  apply (proj1 (main_known_model_never_raises unit (fun _ => Ok tt))
           (Main.mkHparams "run" None None 50 200 2 "32" "palette") []).
  cbn [Main.model Main.model_choices In]. right. left. reflexivity.
Defined.

(** * Training mode at the bottleneck *)

(** The condition of the amended shape properties cannot be dropped: a
    block in training mode whose halved tensor holds a single value per
    channel raises in its first batch normalisation. *)
Lemma EncoderBlock_forward_single_value
      (cin cout : Z) (norm : bool) (n h w : Z) :
  0 < cin -> 0 < cout -> 0 < h -> 0 < w -> n * h * w = 1 ->
  EncoderBlock.forward (Built.encoder_block cin cout norm)
                       (mkShape n cin (2 * h) (2 * w))
  = Raise (ValueError "Expected more than 1 value per channel when training").
Proof.
  intros Hi Hc Hh Hw Hone.
  unfold EncoderBlock.forward, Built.encoder_block, Sequential.
  cbn [EncoderBlock.conv_block EncoderBlock.conv_skip for_loop].
  shape_ops.
  change (ShapeOps.call_layer (LeakyReLU (2 # 10)) ?x) with (Ok x).
  rewrite !bind_Ok.
  rewrite call_Conv2d_halve, bind_Ok by assumption.
  now rewrite call_BatchNorm2d_single.
Qed.

Lemma encode_blocks_single_value (N a b n : Z) (ms : list Z) :
  0 < N -> 0 < a -> 0 < b -> N * a * b = 1 ->
  Forall (fun m => 0 < m) ms -> ms <> [] ->
  forall (level cin : Z) (feats : list Shape),
    0 < cin ->
    for_loop ResUnet.encode_step (Built.enc_blocks n level cin ms)
             (mkShape N cin (2 ^ len ms * a) (2 ^ len ms * b), feats)
    = Raise (ValueError "Expected more than 1 value per channel when training").
Proof.
  intros HN Ha Hb Hone.
  induction ms as [|m rest IH]; intros Hpos Hne level cin feats Hcin;
    [contradiction|].
  inversion Hpos as [|? ? Hm Hrest]; subst.
  cbn [Built.enc_blocks for_loop ResUnet.encode_step call_stage].
  rewrite !pow2_len_cons.
  destruct rest as [|m' rest'].
  - change (len (@nil Z)) with 0.
    replace (2 ^ 0 * a) with a by lia. replace (2 ^ 0 * b) with b by lia.
    now rewrite EncoderBlock_forward_single_value by (assumption || lia).
  - rewrite <- EncoderBlock_train_true.
    rewrite EncoderBlock_forward_ok;
      try (now apply pow2_len_pos); [| assumption | lia |].
    + cbn [Py.bind]. apply IH; [assumption|discriminate|lia].
    + right.
      assert (2 <= 2 ^ len (m' :: rest') * a)
        by (apply pow2_len_ge2; [discriminate|assumption]).
      assert (2 <= 2 ^ len (m' :: rest') * b)
        by (apply pow2_len_ge2; [discriminate|assumption]).
      nia.
Qed.

(** A freshly constructed network of two or more levels raises on an
    input whose bottleneck holds a single value per channel. *)
Lemma forward_single_value
      (cin cout : Z) (mults : list Z) (dropout : Q) (N a b : Z) :
  0 < cin ->
  (2 <= List.length mults)%nat -> Forall (fun m => 0 < m) mults ->
  0 < N -> 0 < a -> 0 < b -> N * a * b = 1 ->
  ResUnet.forward (built cin cout mults dropout)
                  (mkShape N cin (2 ^ len mults * a) (2 ^ len mults * b))
  = Raise (ValueError "Expected more than 1 value per channel when training").
Proof.
  intros Hcin Hlen Hpos HN Ha Hb Hone.
  destruct mults as [|m0 [|m1 rest]]; try (cbn [List.length] in Hlen; lia).
  inversion Hpos as [|? ? Hm0 Hrest]; subst.
  unfold ResUnet.forward, ResUnet.encode, built.
  cbn [ResUnet.encoders hd tl for_loop ResUnet.encode_step call_stage].
  shape_ops. unfold ShapeOps.to_float32.
  rewrite !(pow2_len_cons m0).
  rewrite call_Conv2d_halve by (lia || now apply pow2_len_pos).
  cbn [Py.bind app].
  rewrite encode_blocks_single_value by (assumption || discriminate || lia).
  reflexivity.
Qed.

(** * The final nonlinearity *)

(** Whatever the tensors are, the value a constructed network returns is
    the output of its [Tanh] layer. *)
Lemma forward_ends_in_tanh
      (cin cout : Z) (mults : list Z) (dropout : Q) (mode : bool)
      (x y : Flow) :
  ResUnet.forward (ResUnet.train mode (built cin cout mults dropout)) x = Ok y ->
  exists h, y = FLayer Tanh h.
Proof.
  unfold ResUnet.forward.
  destruct (ResUnet.encode _ _) as [[h feats]|e]; [|discriminate].
  cbn [Py.bind]. destruct (pop feats) as [[f feats']|e]; [|discriminate].
  cbn [Py.bind]. destruct (ResUnet.decode _ h feats') as [[h' rest]|e];
    [|discriminate].
  cbn [Py.bind]. intros [= <-]. now exists h'.
Qed.

(** * EncoderBlock on sizes that are not even *)

Section EncoderBlockSizes.

Import ShapeOps.

(** The strided 4x4 convolution rounds half the length down. *)
Lemma conv_out_floor (size : Z) :
  2 <= size -> conv_out size 4 2 1 = Ok (size / 2).
Proof.
  intros Hs. unfold conv_out.
  destruct (Z.ltb_spec (size + 2 * 1) 4); [lia|].
  f_equal. replace (size + 2 * 1 - (4 - 1) - 1) with (size + (-1) * 2) by lia.
  rewrite Z.div_add by lia. lia.
Qed.

(** The strided 1x1 shortcut rounds half the length up. *)
Lemma conv_out_ceil (size : Z) :
  1 <= size -> conv_out size 1 2 0 = Ok ((size + 1) / 2).
Proof.
  intros Hs. unfold conv_out.
  destruct (Z.ltb_spec (size + 2 * 0) 1); [lia|].
  f_equal. replace (size + 2 * 0 - (1 - 1) - 1) with (size + 1 + (-1) * 2) by lia.
  rewrite Z.div_add by lia. lia.
Qed.

Lemma conv_out_too_small (size : Z) :
  size < 2 ->
  conv_out size 4 2 1
  = Raise (RuntimeError "Kernel size can't be greater than actual input size").
Proof.
  intros Hs. unfold conv_out.
  destruct (Z.ltb_spec (size + 2 * 1) 4); [reflexivity|lia].
Qed.

Lemma half_pos (size : Z) : 2 <= size -> 0 < size / 2.
Proof. intros Hs. apply Z.div_str_pos. lia. Qed.

End EncoderBlockSizes.

(** On sides of length at least 2 the two paths of an encoder block give
    the halves rounded down and rounded up, and the block returns their
    broadcast sum. *)
Lemma EncoderBlock_forward_paths (cin cout : Z) (norm mode : bool) (n h w : Z) :
  0 < cin -> 0 < cout -> 2 <= h -> 2 <= w ->
  mode = false \/ n * (h / 2) * (w / 2) <> 1 ->
  EncoderBlock.forward
    (EncoderBlock.train mode (Built.encoder_block cin cout norm))
    (mkShape n cin h w)
  = ShapeOps.add (mkShape n cout (h / 2) (w / 2))
                 (mkShape n cout ((h + 1) / 2) ((w + 1) / 2)).
Proof.
  intros Hi Hc Hh Hw Hm.
  pose proof (half_pos h Hh) as Hh2. pose proof (half_pos w Hw) as Hw2.
  unfold EncoderBlock.forward, EncoderBlock.train, Built.encoder_block, Sequential.
  cbn [EncoderBlock.conv_block EncoderBlock.conv_skip map Layer_train for_loop].
  shape_ops.
  change (ShapeOps.call_layer (LeakyReLU (2 # 10)) ?x) with (Ok x).
  rewrite !bind_Ok.
  assert (Hconv : ShapeOps.call_layer (Conv2d cin cout 4 2 1) (mkShape n cin h w)
                  = Ok (mkShape n cout (h / 2) (w / 2))).
  { unfold ShapeOps.call_layer.
    rewrite conv_channels_pos by assumption. cbn [dimN dimC dimH dimW].
    rewrite check_weight_ok by assumption.
    now rewrite check_channels_ok, !conv_out_floor by assumption. }
  rewrite Hconv, bind_Ok.
  rewrite call_BatchNorm2d, bind_Ok by assumption.
  change (ShapeOps.call_layer (LeakyReLU (2 # 10)) ?x) with (Ok x).
  rewrite bind_Ok.
  rewrite call_Conv2d_same, bind_Ok by assumption.
  assert (Hlast : ShapeOps.call_layer
                    (Layer_train mode
                       (if norm then BatchNorm2d cout true else Identity))
                    (mkShape n cout (h / 2) (w / 2))
                  = Ok (mkShape n cout (h / 2) (w / 2))).
  { destruct norm; [|reflexivity].
    cbn [Layer_train]. now apply call_BatchNorm2d. }
  cbn [Layer_train] in Hlast. rewrite Hlast, bind_Ok.
  assert (Hskip : ShapeOps.call_layer (Conv2d cin cout 1 2 0) (mkShape n cin h w)
                  = Ok (mkShape n cout ((h + 1) / 2) ((w + 1) / 2))).
  { unfold ShapeOps.call_layer.
    rewrite conv_channels_pos by assumption. cbn [dimN dimC dimH dimW].
    rewrite check_weight_ok by assumption.
    now rewrite check_channels_ok, !conv_out_ceil by lia. }
  now rewrite Hskip, bind_Ok.
Qed.

Lemma half_up (h : Z) : (h + 1) / 2 = h / 2 + h mod 2.
Proof.
  pose proof (Z.div_mod h 2 ltac:(lia)) as Hdm.
  pose proof (Z.mod_pos_bound h 2 ltac:(lia)) as Hb.
  assert (Hr : h mod 2 = 0 \/ h mod 2 = 1) by lia.
  destruct Hr as [Hr|Hr]; rewrite Hr in *.
  - replace (h + 1) with (1 + (h / 2) * 2) by lia.
    rewrite Z.div_add by lia. change (1 / 2) with 0. lia.
  - replace (h + 1) with (0 + (h / 2 + 1) * 2) by lia.
    rewrite Z.div_add by lia. change (0 / 2) with 0. lia.
Qed.

(** How the two halves of one side broadcast: equal for an even side,
    1 against 2 for a side of 3, a mismatch for any other odd side. *)
Lemma broadcast_halves (h : Z) :
  2 <= h ->
  ShapeOps.broadcast (h / 2) ((h + 1) / 2)
  = if h mod 2 =? 0 then Ok (h / 2)
    else if h =? 3 then Ok 2
    else Raise (RuntimeError
                  "The size of tensor a must match the size of tensor b").
Proof.
  intros Hh. rewrite half_up.
  pose proof (Z.div_mod h 2 ltac:(lia)) as Hdm.
  pose proof (Z.mod_pos_bound h 2 ltac:(lia)) as Hb.
  unfold ShapeOps.broadcast.
  destruct (Z.eqb_spec (h mod 2) 0) as [Hr|Hr].
  - rewrite Hr, Z.add_0_r. now rewrite Z.eqb_refl.
  - assert (Hr1 : h mod 2 = 1) by lia. rewrite Hr1.
    destruct (Z.eqb_spec (h / 2) (h / 2 + 1)) as [|_]; [lia|].
    destruct (Z.eqb_spec h 3) as [H3|H3].
    + subst h. reflexivity.
    + destruct (Z.eqb_spec (h / 2) 1) as [|_]; [lia|].
      destruct (Z.eqb_spec (h / 2 + 1) 1) as [|_]; [lia|reflexivity].
Qed.

(** A block without output channels refuses every input: the weight of
    its first convolution is checked before the input is looked at. *)
Lemma EncoderBlock_forward_no_channels
      (cin cout : Z) (norm mode : bool) (x : Shape) :
  cout <= 0 ->
  EncoderBlock.forward
    (EncoderBlock.train mode (Built.encoder_block cin cout norm)) x
  = Raise (RuntimeError "expected weight to be at least 1 at dimension 0").
Proof.
  intros Hc.
  unfold EncoderBlock.forward, EncoderBlock.train, Built.encoder_block, Sequential.
  cbn [EncoderBlock.conv_block map Layer_train for_loop]. shape_ops.
  change (ShapeOps.call_layer (LeakyReLU (2 # 10)) ?x) with (Ok x).
  rewrite bind_Ok. unfold ShapeOps.call_layer at 1.
  now rewrite check_weight_empty.
Qed.

(** A block without input channels, on an input without channels: the
    first convolution returns a tensor without channels, which the layers
    after it, made for [out_channels] channels, refuse. *)
Lemma EncoderBlock_forward_no_input_channels
      (cout : Z) (norm mode : bool) (n h w : Z) :
  0 < cout -> 2 <= h -> 2 <= w ->
  mode = false \/ n * (h / 2) * (w / 2) <> 1 ->
  EncoderBlock.forward
    (EncoderBlock.train mode (Built.encoder_block 0 cout norm))
    (mkShape n 0 h w)
  = Raise (RuntimeError "channel count does not match the layer").
Proof.
  intros Hc Hh Hw Hm.
  unfold EncoderBlock.forward, EncoderBlock.train, Built.encoder_block, Sequential.
  cbn [EncoderBlock.conv_block EncoderBlock.conv_skip map Layer_train for_loop].
  shape_ops.
  change (ShapeOps.call_layer (LeakyReLU (2 # 10)) ?x) with (Ok x).
  rewrite !bind_Ok.
  assert (Hconv : ShapeOps.call_layer (Conv2d 0 cout 4 2 1) (mkShape n 0 h w)
                  = Ok (mkShape n 0 (h / 2) (w / 2))).
  { unfold ShapeOps.call_layer, ShapeOps.conv_channels.
    cbn [dimN dimC dimH dimW Z.eqb].
    rewrite check_weight_ok by assumption.
    now rewrite check_channels_ok, !conv_out_floor by assumption. }
  rewrite Hconv, bind_Ok.
  unfold ShapeOps.call_layer at 1.
  assert (Hbn : (if mode then ShapeOps.verify_batch_size
                                (mkShape n 0 (h / 2) (w / 2))
                 else Ok tt) = Ok tt).
  { destruct mode; [|reflexivity].
    unfold ShapeOps.verify_batch_size. cbn [dimN dimH dimW].
    destruct (Z.eqb_spec (n * (h / 2) * (w / 2)) 1); [|reflexivity].
    destruct Hm; [discriminate|contradiction]. }
  rewrite Hbn. cbn [Py.bind].
  unfold ShapeOps.check_channels. cbn [dimC].
  destruct (Z.eqb_spec 0 cout); [lia|reflexivity].
Qed.

Lemma odd_sides_not_single (N H W : Z) :
  0 < N -> 2 <= H -> 2 <= W ->
  (5 <= H /\ H mod 2 = 1) \/ (5 <= W /\ W mod 2 = 1) ->
  N * (H / 2) * (W / 2) <> 1.
Proof.
  intros HN HH HW Hodd.
  pose proof (half_pos H HH) as Hh2. pose proof (half_pos W HW) as Hw2.
  assert (2 <= H / 2 \/ 2 <= W / 2) as [Hq|Hq]
    by (destruct Hodd as [[H5 _]|[W5 _]];
        [left|right]; apply Z.div_le_lower_bound; lia).
  - nia.
  - nia.
Qed.

Lemma EncoderBlock_forward_odd
      (cin cout : Z) (norm mode : bool) (N H W : Z) :
  0 < cin -> 0 < cout -> 0 < N -> 2 <= H -> 2 <= W ->
  (5 <= H /\ H mod 2 = 1) \/ (5 <= W /\ W mod 2 = 1) ->
  EncoderBlock.forward
    (EncoderBlock.train mode (Built.encoder_block cin cout norm))
    (mkShape N cin H W)
  = Raise (RuntimeError "The size of tensor a must match the size of tensor b").
Proof.
  intros Hi Hc HN HH HW Hodd.
  pose proof (half_pos H HH) as Hh2. pose proof (half_pos W HW) as Hw2.
  rewrite EncoderBlock_forward_paths; try assumption.
  - unfold ShapeOps.add. cbn [dimN dimC dimH dimW].
    rewrite !broadcast_same. cbn [Py.bind].
    rewrite (broadcast_halves H HH), (broadcast_halves W HW).
    destruct Hodd as [[H5 Hr]|[W5 Hr]].
    + rewrite Hr. cbn [Z.eqb].
      destruct (Z.eqb_spec H 3) as [|_]; [lia|reflexivity].
    + rewrite Hr. cbn [Z.eqb].
      destruct (Z.eqb_spec W 3) as [|_]; [lia|].
      destruct (H mod 2 =? 0); [reflexivity|].
      destruct (H =? 3); reflexivity.
  - right. now apply odd_sides_not_single.
Qed.

(** X1.  An encoder block rejects an input with an odd side of length 5
    or more (the other side being at least 2) with RuntimeError.  For
    positive channel counts the error is that of the residual sum, whose
    two paths round the half differently; a block without output channels
    raises in its first convolution, and one without input channels when
    the output of that convolution, which has no channels, reaches the
    next layer. *)
Theorem EncoderBlock_forward_odd_raises
        (in_channels out_channels : Z) (norm mode : bool) (N H W : Z)
        (self : EncoderBlock.t) :
  EncoderBlock.init in_channels out_channels norm = Ok self ->
  0 < N -> 2 <= H -> 2 <= W ->
  (5 <= H /\ H mod 2 = 1) \/ (5 <= W /\ W mod 2 = 1) ->
  let r := EncoderBlock.forward (EncoderBlock.train mode self)
                                (mkShape N in_channels H W) in
  is_RuntimeError r = true
  /\ (0 < in_channels -> 0 < out_channels ->
      r = Raise (RuntimeError
                   "The size of tensor a must match the size of tensor b")).
Proof.
  intros Hinit HN HH HW Hodd r. subst r.
  apply EncoderBlock_init_inv in Hinit. destruct Hinit as (-> & Hci & _).
  destruct (Z_lt_le_dec 0 out_channels) as [Hc|Hc].
  - destruct (Z.eq_dec in_channels 0) as [->|Hne].
    + rewrite EncoderBlock_forward_no_input_channels; try assumption.
      * split; [reflexivity|]. intros Hpos. lia.
      * right. now apply odd_sides_not_single.
    + rewrite EncoderBlock_forward_odd by (assumption || lia). now split.
  - rewrite EncoderBlock_forward_no_channels by assumption.
    split; [reflexivity|]. intros _ Hpos. lia.
Qed.

Lemma EncoderBlock_forward_odd_raises_witness :
  is_RuntimeError
    (EncoderBlock.forward
       (EncoderBlock.train true (Built.encoder_block 64 128 true))
       (mkShape 2 64 7 8)) = true
  /\ EncoderBlock.forward
       (EncoderBlock.train true (Built.encoder_block 64 128 true))
       (mkShape 2 64 7 8)
     = Raise (RuntimeError
                "The size of tensor a must match the size of tensor b").
Proof.
  destruct (EncoderBlock_forward_odd_raises 64 128 true true 2 7 8
              (Built.encoder_block 64 128 true)) as [Hclass Hexact];
    [reflexivity | lia | lia | lia | left; split; [lia | reflexivity] |].
  split; [exact Hclass | apply Hexact; lia].
Defined.

Lemma EncoderBlock_forward_side_three
      (in_channels out_channels : Z) (norm mode : bool) (N W : Z) :
  0 < in_channels -> 0 < out_channels ->
  0 < N -> 2 <= W -> W = 3 \/ W mod 2 = 0 ->
  mode = false \/ N * (W / 2) <> 1 ->
  EncoderBlock.forward
    (EncoderBlock.train mode (Built.encoder_block in_channels out_channels norm))
    (mkShape N in_channels 3 W)
  = Ok (mkShape N out_channels 2 ((W + 1) / 2)).
Proof.
  intros Hi Hc HN HW Hcase Hm.
  rewrite EncoderBlock_forward_paths; try assumption; try lia.
  - unfold ShapeOps.add. cbn [dimN dimC dimH dimW].
    rewrite !broadcast_same. cbn [Py.bind].
    rewrite (broadcast_halves 3 ltac:(lia)), (broadcast_halves W HW).
    change (3 mod 2 =? 0) with false. change (3 =? 3) with true.
    cbn [Py.bind]. destruct Hcase as [->|Hr].
    + reflexivity.
    + rewrite Hr. cbn [Z.eqb Py.bind].
      now rewrite half_up, Hr, Z.add_0_r.
  - change (3 / 2) with 1. destruct Hm as [Hm|Hm]; [now left|right; lia].
Qed.

(** X2.  A block with positive channel counts does not reject a side of
    length 3: the convolution path gives length 1, the shortcut gives
    length 2, and the sum broadcasts to 2.  With the other side 3 or
    even, the block returns [N, out_channels, 2, ceil(W/2)]. *)
Theorem EncoderBlock_forward_three_broadcasts
        (in_channels out_channels : Z) (norm mode : bool) (N W : Z)
        (self : EncoderBlock.t) :
  EncoderBlock.init in_channels out_channels norm = Ok self ->
  0 < in_channels -> 0 < out_channels ->
  0 < N -> 2 <= W -> W = 3 \/ W mod 2 = 0 ->
  mode = false \/ N * (W / 2) <> 1 ->
  EncoderBlock.forward (EncoderBlock.train mode self)
                       (mkShape N in_channels 3 W)
  = Ok (mkShape N out_channels 2 ((W + 1) / 2)).
Proof.
  intros Hinit Hci Hco. apply EncoderBlock_init_inv in Hinit.
  destruct Hinit as (-> & _ & _). now apply EncoderBlock_forward_side_three.
Qed.

Lemma EncoderBlock_forward_three_broadcasts_witness :
  EncoderBlock.forward
    (EncoderBlock.train true (Built.encoder_block 64 128 true))
    (mkShape 2 64 3 3)
  = Ok (mkShape 2 128 2 ((3 + 1) / 2)).
Proof.
  apply (EncoderBlock_forward_three_broadcasts 64 128 true true 2 3
           (Built.encoder_block 64 128 true));
    [reflexivity | lia | lia | lia | lia | left; reflexivity
     | right; simpl; lia].
Defined.

Lemma EncoderBlock_forward_side_one
      (in_channels out_channels : Z) (norm mode : bool) (N H W : Z) :
  0 < out_channels ->
  0 < H -> 0 < W -> H = 1 \/ W = 1 ->
  EncoderBlock.forward
    (EncoderBlock.train mode (Built.encoder_block in_channels out_channels norm))
    (mkShape N in_channels H W)
  = Raise (RuntimeError "Kernel size can't be greater than actual input size").
Proof.
  intros Hc HH HW Hone.
  unfold EncoderBlock.forward, EncoderBlock.train, Built.encoder_block, Sequential.
  cbn [EncoderBlock.conv_block EncoderBlock.conv_skip map Layer_train for_loop].
  shape_ops.
  change (ShapeOps.call_layer (LeakyReLU (2 # 10)) ?x) with (Ok x).
  rewrite !bind_Ok.
  unfold ShapeOps.call_layer at 1. cbn [dimN dimC dimH dimW].
  rewrite check_weight_ok by assumption.
  rewrite check_channels_ok. cbn [Py.bind].
  destruct (Z.lt_ge_cases H 2) as [Hlt|Hge].
  - now rewrite (conv_out_too_small H Hlt).
  - rewrite conv_out_floor by lia. cbn [Py.bind].
    now rewrite (conv_out_too_small W) by lia.
Qed.

(** X3.  An encoder block rejects an input with a side of length 1 with
    RuntimeError.  For positive channel counts the error is that of the
    4x4 kernel of its first convolution, which the padded side is shorter
    than; a block without output channels raises in the same convolution
    for its weight. *)
Theorem EncoderBlock_forward_too_small
        (in_channels out_channels : Z) (norm mode : bool) (N H W : Z)
        (self : EncoderBlock.t) :
  EncoderBlock.init in_channels out_channels norm = Ok self ->
  0 < H -> 0 < W -> H = 1 \/ W = 1 ->
  let r := EncoderBlock.forward (EncoderBlock.train mode self)
                                (mkShape N in_channels H W) in
  is_RuntimeError r = true
  /\ (0 < in_channels -> 0 < out_channels ->
      r = Raise (RuntimeError
                   "Kernel size can't be greater than actual input size")).
Proof.
  intros Hinit HH HW Hone r. subst r.
  apply EncoderBlock_init_inv in Hinit. destruct Hinit as (-> & _ & _).
  destruct (Z_lt_le_dec 0 out_channels) as [Hc|Hc].
  - rewrite EncoderBlock_forward_side_one by assumption. now split.
  - rewrite EncoderBlock_forward_no_channels by assumption.
    split; [reflexivity|]. intros _ Hpos. lia.
Qed.

Lemma EncoderBlock_forward_too_small_witness :
  is_RuntimeError
    (EncoderBlock.forward
       (EncoderBlock.train true (Built.encoder_block 512 512 false))
       (mkShape 2 512 1 1)) = true
  /\ EncoderBlock.forward
       (EncoderBlock.train true (Built.encoder_block 512 512 false))
       (mkShape 2 512 1 1)
     = Raise (RuntimeError
                "Kernel size can't be greater than actual input size").
Proof.
  destruct (EncoderBlock_forward_too_small 512 512 false true 2 1 1
              (Built.encoder_block 512 512 false)) as [Hclass Hexact];
    [reflexivity | lia | lia | left; reflexivity |].
  split; [exact Hclass | apply Hexact; lia].
Defined.

(** * Inputs with the wrong number of channels *)

Lemma check_channels_mismatch (c : Z) (x : Shape) :
  dimC x <> c ->
  ShapeOps.check_channels c x
  = Raise (RuntimeError "channel count does not match the layer").
Proof.
  intros Hc. unfold ShapeOps.check_channels.
  destruct (Z.eqb_spec (dimC x) c); [contradiction|reflexivity].
Qed.

(** The first convolution of a block, or of the network, on an input with
    the wrong number of channels: the weight is checked first, then the
    channels. *)
Lemma call_Conv2d_mismatch (cin cout k s p : Z) (x : Shape) :
  dimC x <> cin ->
  ShapeOps.call_layer (Conv2d cin cout k s p) x
  = Raise (RuntimeError
             (if 0 <? cout then "channel count does not match the layer"
              else "expected weight to be at least 1 at dimension 0")).
Proof.
  intros Hc. unfold ShapeOps.call_layer.
  destruct (Z.ltb_spec 0 cout).
  - rewrite check_weight_ok by assumption. cbn [Py.bind].
    now rewrite check_channels_mismatch.
  - now rewrite check_weight_empty.
Qed.

Lemma call_ConvTranspose2d_mismatch (cin cout k s p : Z) (x : Shape) :
  dimC x <> cin ->
  ShapeOps.call_layer (ConvTranspose2d cin cout k s p) x
  = Raise (RuntimeError
             (if 0 <? cin then "channel count does not match the layer"
              else "expected weight to be at least 1 at dimension 0")).
Proof.
  intros Hc. unfold ShapeOps.call_layer.
  destruct (Z.ltb_spec 0 cin).
  - rewrite check_weight_ok by assumption. cbn [Py.bind].
    now rewrite check_channels_mismatch.
  - now rewrite check_weight_empty.
Qed.

Lemma EncoderBlock_forward_mismatch
      (cin cout : Z) (norm mode : bool) (x : Shape) :
  dimC x <> cin ->
  EncoderBlock.forward
    (EncoderBlock.train mode (Built.encoder_block cin cout norm)) x
  = Raise (RuntimeError
             (if 0 <? cout then "channel count does not match the layer"
              else "expected weight to be at least 1 at dimension 0")).
Proof.
  intros Hc.
  unfold EncoderBlock.forward, EncoderBlock.train, Built.encoder_block,
    Sequential.
  cbn [EncoderBlock.conv_block map Layer_train for_loop]. shape_ops.
  change (ShapeOps.call_layer (LeakyReLU (2 # 10)) ?x) with (Ok x).
  rewrite bind_Ok. now rewrite call_Conv2d_mismatch.
Qed.

Lemma DecoderBlock_forward_mismatch
      (cin cout : Z) (dropout : Q) (mode : bool) (x : Shape) :
  dimC x <> cin ->
  DecoderBlock.forward
    (DecoderBlock.train mode (Built.decoder_block cin cout dropout)) x
  = Raise (RuntimeError
             (if 0 <? cin then "channel count does not match the layer"
              else "expected weight to be at least 1 at dimension 0")).
Proof.
  intros Hc.
  unfold DecoderBlock.forward, DecoderBlock.train, Built.decoder_block,
    Sequential.
  cbn [DecoderBlock.conv_block map Layer_train for_loop]. shape_ops.
  change (ShapeOps.call_layer ReLU ?x) with (Ok x).
  rewrite bind_Ok. now rewrite call_ConvTranspose2d_mismatch.
Qed.

(** X4.  Both blocks reject an input whose channel count differs from
    their [in_channels] with RuntimeError, whatever its size.  For
    positive channel counts the error is the channel check of the first
    convolution of the main path; a convolution whose weight has no first
    axis raises for that before it looks at the input. *)
Theorem blocks_forward_channel_mismatch
        (in_channels out_channels : Z) (mode : bool) (x : Shape) :
  dimC x <> in_channels ->
  (forall (norm : bool) (self : EncoderBlock.t),
      EncoderBlock.init in_channels out_channels norm = Ok self ->
      let r := EncoderBlock.forward (EncoderBlock.train mode self) x in
      is_RuntimeError r = true
      /\ (0 < in_channels -> 0 < out_channels ->
          r = Raise (RuntimeError "channel count does not match the layer")))
  /\ (forall (dropout : Q) (self : DecoderBlock.t),
         DecoderBlock.init in_channels out_channels dropout = Ok self ->
         let r := DecoderBlock.forward (DecoderBlock.train mode self) x in
         is_RuntimeError r = true
         /\ (0 < in_channels -> 0 < out_channels ->
             r = Raise (RuntimeError
                          "channel count does not match the layer"))).
Proof.
  intros Hc. split.
  - intros norm self Hinit r. subst r.
    apply EncoderBlock_init_inv in Hinit. destruct Hinit as (-> & _ & _).
    rewrite EncoderBlock_forward_mismatch by assumption.
    split; [reflexivity|]. intros _ Hco.
    destruct (Z.ltb_spec 0 out_channels); [reflexivity|lia].
  - intros dropout self Hinit r. subst r.
    apply DecoderBlock_init_inv in Hinit. destruct Hinit as (-> & _ & _ & _).
    rewrite DecoderBlock_forward_mismatch by assumption.
    split; [reflexivity|]. intros Hci _.
    destruct (Z.ltb_spec 0 in_channels); [reflexivity|lia].
Qed.

Lemma blocks_forward_channel_mismatch_witness :
  EncoderBlock.forward
    (EncoderBlock.train true (Built.encoder_block 64 128 true))
    (mkShape 2 3 8 8)
  = Raise (RuntimeError "channel count does not match the layer")
  /\ DecoderBlock.forward
       (DecoderBlock.train true (Built.decoder_block 64 128 (1 # 2)))
       (mkShape 2 3 8 8)
     = Raise (RuntimeError "channel count does not match the layer").
Proof.
  destruct (blocks_forward_channel_mismatch 64 128 true (mkShape 2 3 8 8))
    as [Henc Hdec]; [simpl; lia|]. split.
  - apply (Henc true (Built.encoder_block 64 128 true) eq_refl); lia.
  - apply (Hdec (1 # 2) (Built.decoder_block 64 128 (1 # 2)) eq_refl); lia.
Defined.

Lemma encode_mismatch
      (mode : bool) (cin cout : Z) (mults : list Z) (dropout : Q) (x : Shape) :
  dimC x <> cin ->
  ResUnet.encode (ResUnet.train mode (built cin cout mults dropout)) x
  = Raise (RuntimeError
             (if 0 <? hd 0 mults * 64
              then "channel count does not match the layer"
              else "expected weight to be at least 1 at dimension 0")).
Proof.
  intros Hc. unfold ResUnet.encode, ResUnet.train, built.
  cbn [ResUnet.encoders map Stage_train Layer_train for_loop
       ResUnet.encode_step call_stage].
  shape_ops. now rewrite call_Conv2d_mismatch.
Qed.

(** X5.  A constructed network rejects every input whose channel count
    differs from [in_channels] with RuntimeError, in both modes and
    whatever the size, in its first convolution and before anything is
    stored.  For positive multipliers the error is the channel check; with
    a first multiplier of 0 the convolution raises for its weight. *)
Theorem ResUnet_forward_channel_mismatch
        (in_channels out_channels : Z) (channel_mults : list Z) (dropout : Q)
        (self : ResUnet.t) (mode : bool) (x : Shape) :
  ResUnet.init in_channels out_channels channel_mults dropout = Ok self ->
  dimC x <> in_channels ->
  let r := ResUnet.forward (ResUnet.train mode self) x in
  let e := ResUnet.encode (ResUnet.train mode self) x in
  is_RuntimeError r = true
  /\ is_RuntimeError e = true
  /\ (0 < in_channels -> forallb (fun k => 0 <? k) channel_mults = true ->
      r = Raise (RuntimeError "channel count does not match the layer")
      /\ e = Raise (RuntimeError "channel count does not match the layer")).
Proof.
  intros Hinit Hc r e. subst r e.
  apply init_inv in Hinit.
  destruct Hinit as (-> & Hne & _).
  unfold ResUnet.forward. shape_ops. unfold ShapeOps.to_float32.
  rewrite encode_mismatch by assumption. cbn [Py.bind is_RuntimeError].
  split; [reflexivity|]. split; [reflexivity|].
  intros _ Hpos. apply forallb_pos in Hpos.
  destruct channel_mults as [|m0 rest]; [contradiction|].
  inversion Hpos as [|? ? Hm0 _]; subst. cbn [hd].
  destruct (Z.ltb_spec 0 (m0 * 64)); [now split|lia].
Qed.

Lemma ResUnet_forward_channel_mismatch_witness :
  ResUnet.forward
    (ResUnet.train true (built 3 3 [1; 2; 4; 8; 8; 8; 8; 8] (1 # 2)))
    (mkShape 2 1 256 256)
  = Raise (RuntimeError "channel count does not match the layer")
  /\ ResUnet.encode
       (ResUnet.train true (built 3 3 [1; 2; 4; 8; 8; 8; 8; 8] (1 # 2)))
       (mkShape 2 1 256 256)
     = Raise (RuntimeError "channel count does not match the layer").
Proof.
  destruct (ResUnet_forward_channel_mismatch
              3 3 [1; 2; 4; 8; 8; 8; 8; 8] (1 # 2)
              (built 3 3 [1; 2; 4; 8; 8; 8; 8; 8] (1 # 2))
              true (mkShape 2 1 256 256)) as (_ & _ & Hexact);
    [reflexivity | simpl; lia |].
  apply Hexact; [lia|reflexivity].
Defined.

(** * The constructor: how channels are chained *)

Lemma enc_blocks_nth (n : Z) (ms : list Z) :
  forall (level cin : Z) (k : nat) (m : Z),
    nth_error ms k = Some m ->
    nth_error (Built.enc_blocks n level cin ms) k
    = Some (Enc (Built.encoder_block
                   (match k with
                    | O => cin
                    | S j => nth j ms 0 * 64
                    end)
                   (m * 64)
                   (negb (level + Z.of_nat k =? n - 1)))).
Proof.
  induction ms as [|m0 rest IH]; intros level cin k m Hk.
  - destruct k; discriminate.
  - destruct k as [|j]; cbn [nth_error Built.enc_blocks] in *.
    + injection Hk as ->. now rewrite Z.add_0_r.
    + rewrite (IH _ _ _ _ Hk).
      replace (level + 1 + Z.of_nat j) with (level + Z.of_nat (S j)) by lia.
      destruct j; reflexivity.
Qed.

Lemma nth_error_Forall {A : Type} (P : A -> Prop) (l : list A) (k : nat)
      (x : A) :
  Forall P l -> nth_error l k = Some x -> P x.
Proof.
  intros Hl Hk. rewrite Forall_forall in Hl.
  apply Hl. now apply (nth_error_In l k).
Qed.

(** X6.  The encoder list of a constructed network starts with the plain
    strided convolution from [in_channels] to 64 times the first
    multiplier; stage [l >= 1] is the encoder block the constructor made
    from 64 times multiplier [l - 1] to 64 times multiplier [l], and its
    second batch normalisation is left out exactly at the last level. *)
Theorem ResUnet_encoder_chain
        (in_channels out_channels : Z) (channel_mults : list Z) (dropout : Q)
        (self : ResUnet.t) :
  ResUnet.init in_channels out_channels channel_mults dropout = Ok self ->
  (exists m0,
      nth_error channel_mults 0 = Some m0
      /\ nth_error (ResUnet.encoders self) 0
         = Some (Plain (Conv2d in_channels (m0 * 64) 4 2 1)))
  /\ forall (l : nat) (prev m : Z),
      nth_error channel_mults l = Some prev ->
      nth_error channel_mults (S l) = Some m ->
      let norm := negb (Nat.eqb (S (S l)) (List.length channel_mults)) in
      exists block,
        EncoderBlock.init (prev * 64) (m * 64) norm = Ok block
        /\ nth_error (ResUnet.encoders self) (S l) = Some (Enc block)
        /\ last (EncoderBlock.conv_block block) Identity
           = if norm then BatchNorm2d (m * 64) true else Identity.
Proof.
  intros Hinit.
  apply init_inv in Hinit.
  destruct Hinit as (-> & Hne & Hci & Hco & Hnn & Hitems).
  destruct channel_mults as [|m0 rest]; [contradiction|].
  split; [exists m0; split; reflexivity|].
  intros l prev m Hprev Hm norm.
  exists (Built.encoder_block (prev * 64) (m * 64) norm).
  pose proof (nth_error_Forall _ _ _ _ Hnn Hprev) as Hp0.
  pose proof (nth_error_Forall _ _ _ _ Hnn Hm) as Hm0.
  cbn beta in Hp0, Hm0.
  split; [apply EncoderBlock_init_ok; lia|].
  split; [|subst norm; destruct (negb _); reflexivity].
  unfold built. cbn [ResUnet.encoders hd tl nth_error] in *.
  rewrite (enc_blocks_nth _ _ _ _ _ _ Hm).
  assert (Hcin : match l with
                 | O => m0 * 64
                 | S j => nth j rest 0 * 64
                 end = prev * 64).
  { destruct l as [|j]; cbn [nth_error] in Hprev.
    - now injection Hprev as ->.
    - now rewrite (nth_error_nth _ _ 0 Hprev). }
  rewrite Hcin. subst norm. do 4 f_equal.
  rewrite len_cons. unfold len. cbn [List.length].
  destruct (Nat.eqb_spec (S (S l)) (S (List.length rest))) as [E|E];
    destruct (Z.eqb_spec (1 + Z.of_nat l)
                (Z.of_nat (List.length rest) + 1 - 1)); (reflexivity || lia).
Qed.

Lemma ResUnet_encoder_chain_witness :
  (exists m0,
      nth_error [1; 2; 4] 0 = Some m0
      /\ nth_error (ResUnet.encoders (built 3 3 [1; 2; 4] (1 # 2))) 0
         = Some (Plain (Conv2d 3 (m0 * 64) 4 2 1)))
  /\ forall (l : nat) (prev m : Z),
      nth_error [1; 2; 4] l = Some prev ->
      nth_error [1; 2; 4] (S l) = Some m ->
      let norm := negb (Nat.eqb (S (S l)) (List.length [1; 2; 4])) in
      exists block,
        EncoderBlock.init (prev * 64) (m * 64) norm = Ok block
        /\ nth_error (ResUnet.encoders (built 3 3 [1; 2; 4] (1 # 2))) (S l)
           = Some (Enc block)
        /\ last (EncoderBlock.conv_block block) Identity
           = if norm then BatchNorm2d (m * 64) true else Identity.
Proof.
  apply (ResUnet_encoder_chain 3 3 [1; 2; 4] (1 # 2)
           (built 3 3 [1; 2; 4] (1 # 2))).
  reflexivity.
Defined.

Lemma dec_blocks_nth_cin (r : Z -> Z -> Q) (items : list (Z * Z)) :
  forall (cin : Z) (i : nat) (level mult : Z),
    nth_error items i = Some (level, mult) ->
    nth_error (Built.dec_blocks r cin items) i
    = Some (Dec (Built.decoder_block
                   (match i with
                    | O => cin
                    | S j => snd (nth j items (0, 0)) * 64 * 2
                    end)
                   (mult * 64) (r level mult))).
Proof.
  induction items as [|[l0 m0] rest IH]; intros cin i level mult Hi.
  - destruct i; discriminate.
  - destruct i as [|j]; cbn [nth_error Built.dec_blocks] in *.
    + now injection Hi as -> ->.
    + rewrite (IH _ _ _ _ Hi). destruct j; reflexivity.
Qed.

Lemma dec_channels_last (items : list (Z * Z)) :
  forall cin : Z,
    items <> [] ->
    Built.dec_channels cin items = snd (last items (0, 0)) * 64 * 2.
Proof.
  induction items as [|[l0 m0] rest IH]; intros cin Hne; [contradiction|].
  cbn [Built.dec_channels]. destruct rest as [|p rest']; [reflexivity|].
  rewrite IH by discriminate. reflexivity.
Qed.

Lemma nth_error_last (l : list Z) (x : Z) :
  nth_error l (List.length l - 1) = Some x -> last l 0 = x.
Proof.
  intros Hx. destruct l as [|a l']; [discriminate|].
  assert (Hne : a :: l' <> []) by discriminate.
  rewrite (app_removelast_last 0 Hne) in Hx at 1.
  rewrite nth_error_app2 in Hx
    by (rewrite length_removelast_pred; cbn [List.length]; lia).
  rewrite length_removelast_pred in Hx.
  replace (List.length (a :: l') - 1 - pred (List.length (a :: l')))%nat
    with 0%nat in Hx by (cbn [List.length]; lia).
  cbn [nth_error] in Hx. now injection Hx.
Qed.

Lemma last_rev_hd {A : Type} (l : list A) (d : A) : last (rev l) d = hd d l.
Proof.
  destruct l as [|a l']; [reflexivity|].
  cbn [rev hd]. apply last_last.
Qed.

(** X7.  The decoder list of a constructed network chains its channels
    through the skip connections: the block at position [i] from the
    bottleneck is the one the constructor made to 64 times the multiplier
    of its level, from 64 times the multiplier one level deeper, doubled
    for every position but the first; the final transposed convolution
    reads 128 times the first multiplier (64 times when there is a single
    level) and writes [out_channels]. *)
Theorem ResUnet_decoder_chain
        (in_channels out_channels : Z) (channel_mults : list Z) (dropout : Q)
        (self : ResUnet.t) :
  ResUnet.init in_channels out_channels channel_mults dropout = Ok self ->
  (forall (i : nat) (mult prev : Z),
      (i + 1 < List.length channel_mults)%nat ->
      nth_error channel_mults (List.length channel_mults - 2 - i) = Some mult ->
      nth_error channel_mults (List.length channel_mults - 1 - i) = Some prev ->
      exists rate block,
        DecoderBlock.init (if Nat.eqb i 0 then prev * 64 else prev * 64 * 2)
                          (mult * 64) rate = Ok block
        /\ nth_error (ResUnet.decoders self) i = Some (Dec block))
  /\ exists m0,
      nth_error channel_mults 0 = Some m0
      /\ nth_error (ResUnet.decoders self) (List.length channel_mults - 1)
         = Some (Plain (ConvTranspose2d
                          (if Nat.eqb (List.length channel_mults) 1
                           then m0 * 64 else m0 * 64 * 2)
                          out_channels 4 2 1)).
Proof.
  intros Hinit.
  apply init_inv in Hinit.
  destruct Hinit as (-> & Hne & Hci & Hco & Hnn & Hitems).
  unfold built. cbn [ResUnet.decoders]. split.
  - intros i mult prev Hi Hm Hprev.
    pose proof (decoder_items_nth channel_mults i mult Hi Hm) as Hitem.
    pose proof (nth_error_Forall _ _ _ _ Hitems Hitem) as [Hm0 Hrate].
    pose proof (nth_error_Forall _ _ _ _ Hnn Hprev) as Hp0.
    cbn [fst snd] in Hm0, Hrate. cbn beta in Hp0.
    exists (Built.rate channel_mults dropout
              (len channel_mults - 2 - Z.of_nat i) mult).
    eexists. split.
    + apply DecoderBlock_init_ok; [destruct (Nat.eqb i 0); lia|lia|exact Hrate].
    + rewrite nth_error_app1
        by (rewrite length_dec_blocks, length_decoder_items; lia).
      rewrite (dec_blocks_nth_cin _ _ _ _ _ _ Hitem).
      do 3 f_equal. destruct i as [|j]; cbn [Nat.eqb].
      * rewrite bottleneck_channels by assumption.
        rewrite Nat.sub_0_r in Hprev. now rewrite (nth_error_last _ _ Hprev).
      * assert (Hj : nth_error (decoder_items channel_mults) j
                     = Some (len channel_mults - 2 - Z.of_nat j, prev)).
        { apply decoder_items_nth; [lia|].
          now replace (List.length channel_mults - 2 - j)%nat
            with (List.length channel_mults - 1 - S j)%nat by lia. }
        now rewrite (nth_error_nth _ _ (0, 0) Hj).
  - destruct channel_mults as [|m0 rest]; [contradiction|].
    exists m0. split; [reflexivity|].
    rewrite nth_error_app2
      by (rewrite length_dec_blocks, length_decoder_items;
          cbn [List.length]; lia).
    rewrite length_dec_blocks, length_decoder_items.
    replace (List.length (m0 :: rest) - 1 - pred (List.length (m0 :: rest)))%nat
      with 0%nat by (cbn [List.length]; lia).
    cbn [nth_error hd tl]. do 3 f_equal.
    destruct rest as [|m1 rest']; [reflexivity|].
    cbn [List.length Nat.eqb].
    rewrite dec_channels_last.
    + unfold decoder_items. rewrite last_rev_hd. reflexivity.
    + intros Hnil. apply (f_equal (@List.length (Z * Z))) in Hnil.
      rewrite length_decoder_items in Hnil. cbn [List.length] in Hnil. lia.
Qed.

Lemma ResUnet_decoder_chain_witness :
  (forall (i : nat) (mult prev : Z),
      (i + 1 < List.length [1; 2; 4])%nat ->
      nth_error [1; 2; 4] (List.length [1; 2; 4] - 2 - i) = Some mult ->
      nth_error [1; 2; 4] (List.length [1; 2; 4] - 1 - i) = Some prev ->
      exists rate block,
        DecoderBlock.init (if Nat.eqb i 0 then prev * 64 else prev * 64 * 2)
                          (mult * 64) rate = Ok block
        /\ nth_error (ResUnet.decoders (built 3 3 [1; 2; 4] (1 # 2))) i
           = Some (Dec block))
  /\ exists m0,
      nth_error [1; 2; 4] 0 = Some m0
      /\ nth_error (ResUnet.decoders (built 3 3 [1; 2; 4] (1 # 2)))
                   (List.length [1; 2; 4] - 1)
         = Some (Plain (ConvTranspose2d
                          (if Nat.eqb (List.length [1; 2; 4]) 1
                           then m0 * 64 else m0 * 64 * 2)
                          3 4 2 1)).
Proof.
  apply (ResUnet_decoder_chain 3 3 [1; 2; 4] (1 # 2)
           (built 3 3 [1; 2; 4] (1 # 2))).
  reflexivity.
Defined.

(** * The constructor: sequences that get no dropout *)

Lemma In_enumerate {A : Type} (l : list A) :
  forall (s k : Z) (a : A), In (k, a) (enumerate s l) -> In a l.
Proof.
  induction l as [|x l IH]; intros s k a Hin; [contradiction|].
  cbn [enumerate In] in *. destruct Hin as [E|Hin].
  - left. now injection E.
  - right. now apply (IH (s + 1) k).
Qed.

Lemma In_last (l : list Z) : l <> [] -> In (last l 0) l.
Proof.
  intros Hne. rewrite (app_removelast_last 0 Hne) at 2.
  apply in_or_app. right. now left.
Qed.

Lemma dec_blocks_without_rate (r : Z -> Z -> Q) (items : list (Z * Z)) :
  (forall level mult, In (level, mult) items -> r level mult = 0%Q) ->
  Forall (dec_item_ok r) items ->
  forall (cin : Z) (s : Stage),
    0 <= cin ->
    In s (Built.dec_blocks r cin items) ->
    exists c c',
      s = Dec (Built.decoder_block c c' 0)
      /\ DecoderBlock.init c c' 0 = Ok (Built.decoder_block c c' 0).
Proof.
  intros Hr Hok. revert Hr.
  induction Hok as [|[l0 m0] rest [Hm _] Hrest IH]; intros Hr cin s Hcin Hin;
    [contradiction|].
  cbn [snd] in Hm.
  cbn [Built.dec_blocks In] in Hin. destruct Hin as [<-|Hin].
  - rewrite (Hr l0 m0) by now left. exists cin, (m0 * 64).
    split; [reflexivity|]. apply DecoderBlock_init_ok; (lia || discriminate).
  - apply (IH (fun level mult H => Hr level mult (or_intror H))
              (m0 * 64 * 2) s); [lia|exact Hin].
Qed.

Lemma DecoderBlock_without_dropout (c c' : Z) (l : Layer) :
  In l (DecoderBlock.conv_block (Built.decoder_block c c' 0)) ->
  forall (p : Q) (training : bool), l <> Dropout2d p training.
Proof.
  unfold Built.decoder_block. cbn [DecoderBlock.conv_block].
  destruct (Qlt_le_dec 0 0) as [Hlt|_];
    [exfalso; exact (Qlt_irrefl 0 Hlt)|].
  cbn [In]. intros Hin p training.
  repeat (destruct Hin as [<-|Hin]; [discriminate|]). contradiction.
Qed.

(** X8.  When every multiplier before the last is smaller than the last
    one, as in (1, 2, 4, 8), the maximum is met only at the bottleneck,
    which is no decoder level: every decoder block is then built with
    dropout rate 0 and holds no [Dropout2d] layer, whatever the [dropout]
    argument. *)
Theorem ResUnet_no_dropout_when_widest_is_last
        (in_channels out_channels : Z) (channel_mults : list Z) (dropout : Q)
        (self : ResUnet.t) :
  ResUnet.init in_channels out_channels channel_mults dropout = Ok self ->
  Forall (fun m => m < last channel_mults 0) (removelast channel_mults) ->
  forall (i : nat) (b : DecoderBlock.t),
    nth_error (ResUnet.decoders self) i = Some (Dec b) ->
    (exists c c', DecoderBlock.init c c' 0 = Ok b)
    /\ forall (l : Layer) (p : Q) (training : bool),
        In l (DecoderBlock.conv_block b) -> l <> Dropout2d p training.
Proof.
  intros Hinit Hsmall i b Hb.
  apply init_inv in Hinit.
  destruct Hinit as (-> & Hne & Hci & Hco & Hnn & Hitems).
  unfold built in Hb. cbn [ResUnet.decoders] in Hb.
  apply nth_error_In in Hb. apply in_app_or in Hb.
  destruct Hb as [Hb|[Hb|[]]]; [|discriminate].
  assert (Hzero : forall level mult,
             In (level, mult) (decoder_items channel_mults) ->
             Built.rate channel_mults dropout level mult = 0%Q).
  { intros level mult Hin. unfold decoder_items in Hin.
    apply in_rev, In_enumerate in Hin.
    rewrite Forall_forall in Hsmall. specialize (Hsmall _ Hin).
    assert (Hmax : Py.max channel_mults
                   = Ok (fold_left Z.max (tl channel_mults)
                                   (hd 0 channel_mults)))
      by (destruct channel_mults; [contradiction|reflexivity]).
    destruct (max_spec _ _ Hmax) as [_ Hall].
    rewrite Forall_forall in Hall.
    specialize (Hall _ (In_last _ Hne)).
    unfold Built.rate.
    destruct (Z.eqb_spec mult
                (fold_left Z.max (tl channel_mults) (hd 0 channel_mults)));
      [lia|reflexivity]. }
  destruct (dec_blocks_without_rate _ _ Hzero Hitems _ _
              (bottleneck_nonneg _ Hnn) Hb) as (c & c' & E & Hmade).
  injection E as ->. split; [now exists c, c'|].
  intros l p training Hl. now apply (DecoderBlock_without_dropout c c').
Qed.

Lemma ResUnet_no_dropout_when_widest_is_last_witness :
  (exists c c', DecoderBlock.init c c' 0 = Ok (Built.decoder_block 512 256 0))
  /\ forall (l : Layer) (p : Q) (training : bool),
      In l (DecoderBlock.conv_block (Built.decoder_block 512 256 0)) ->
      l <> Dropout2d p training.
Proof.
  refine (ResUnet_no_dropout_when_widest_is_last 3 3 [1; 2; 4; 8] (1 # 2)
            (built 3 3 [1; 2; 4; 8] (1 # 2)) _ _
            0%nat (Built.decoder_block 512 256 0) _);
    [reflexivity | repeat constructor | reflexivity].
Defined.

(** * Networks without input channels *)

(** A convolution raises nothing but RuntimeError; when it returns, its
    weight has output channels and the input has the layer's channels. *)
Lemma call_Conv2d_cases (cin cout k s p : Z) (x : Shape) :
  (exists msg : string,
      ShapeOps.call_layer (Conv2d cin cout k s p) x = Raise (RuntimeError msg))
  \/ (exists h w : Z,
         0 < cout /\ dimC x = cin
         /\ ShapeOps.call_layer (Conv2d cin cout k s p) x
            = Ok (mkShape (dimN x) (ShapeOps.conv_channels x cout) h w)).
Proof.
  unfold ShapeOps.call_layer, ShapeOps.check_weight, ShapeOps.check_channels,
    ShapeOps.conv_out.
  destruct (Z.ltb_spec cout 1); [left; now eexists|]. cbn [Py.bind].
  destruct (Z.eqb_spec (dimC x) cin); [|left; now eexists]. cbn [Py.bind].
  destruct (dimH x + 2 * p <? k); [left; now eexists|]. cbn [Py.bind].
  destruct (dimW x + 2 * p <? k); [left; now eexists|]. cbn [Py.bind].
  right. do 2 eexists. split; [lia|]. split; [assumption|reflexivity].
Qed.

(** A network made for inputs without channels refuses them: its first
    convolution, when it does not raise itself, returns a tensor without
    channels, and the stage after it is made for [channel_mults[0] * 64]
    channels. *)
Lemma forward_no_input_channels
      (mode : bool) (cout : Z) (mults : list Z) (dropout : Q) (x : Shape) :
  dimC x = 0 ->
  is_RuntimeError
    (ResUnet.forward (ResUnet.train mode (built 0 cout mults dropout)) x)
  = true.
Proof.
  intros Hx. unfold ResUnet.forward. shape_ops. unfold ShapeOps.to_float32.
  unfold ResUnet.encode, ResUnet.train, built.
  cbn [ResUnet.encoders ResUnet.decoders ResUnet.out map Stage_train
       Layer_train for_loop ResUnet.encode_step call_stage].
  shape_ops.
  destruct (call_Conv2d_cases 0 (hd 0 mults * 64) 4 2 1 x)
    as [[msg ->]|(h & w & Hc0 & _ & ->)]; [reflexivity|].
  cbn [Py.bind app]. unfold ShapeOps.conv_channels. rewrite Hx. cbn [Z.eqb].
  destruct mults as [|m0 [|m1 rest]]; cbn [hd tl] in *.
  - lia.
  - cbn [Built.enc_blocks Built.enc_channels map for_loop Py.bind].
    change (decoder_items [m0]) with (@nil (Z * Z)).
    cbn [Built.dec_blocks Built.dec_channels app map Stage_train Layer_train
         enumerate for_loop ResUnet.decode ResUnet.decoders
         ResUnet.decode_step Py.pop Py.bind Z.eqb negb call_stage].
    unfold ResUnet.decode.
    cbn [Built.dec_blocks Built.dec_channels app map Stage_train Layer_train
         enumerate for_loop ResUnet.decode ResUnet.decoders
         ResUnet.decode_step Py.pop Py.bind Z.eqb negb call_stage].
    shape_ops.
    now rewrite call_ConvTranspose2d_mismatch by (cbn [dimC]; lia).
  - cbn [Built.enc_blocks map Stage_train for_loop ResUnet.encode_step
         call_stage].
    now rewrite EncoderBlock_forward_mismatch by (cbn [dimC]; lia).
Qed.

(** * Inputs too small for the depth *)

Lemma for_loop_app {A S : Type} (body : S -> A -> result S) (l1 l2 : list A) :
  forall s : S,
    for_loop body (l1 ++ l2) s
    = (s' <- for_loop body l1 s ;; for_loop body l2 s').
Proof.
  induction l1 as [|a l1 IH]; intros s; [reflexivity|].
  cbn [app for_loop]. destruct (body s a) as [s1|e]; [|reflexivity].
  cbn [Py.bind]. apply IH.
Qed.

Lemma enc_blocks_app (n : Z) (ms1 ms2 : list Z) :
  forall level cin : Z,
    Built.enc_blocks n level cin (ms1 ++ ms2)
    = Built.enc_blocks n level cin ms1
      ++ Built.enc_blocks n (level + len ms1) (Built.enc_channels cin ms1) ms2.
Proof.
  induction ms1 as [|m ms1 IH]; intros level cin.
  - cbn [app Built.enc_blocks Built.enc_channels].
    change (len (@nil Z)) with 0. now rewrite Z.add_0_r.
  - cbn [app Built.enc_blocks Built.enc_channels]. rewrite IH, len_cons.
    now replace (level + 1 + len ms1) with (level + (len ms1 + 1)) by lia.
Qed.

(** A multiplier that is not positive gives a convolution without output
    channels.  The encoder pass reaches it when the stages before it have
    positive multipliers and the input is large enough for them, and
    raises there. *)
Lemma split_first_nonpos (l : list Z) :
  Forall (fun m => 0 < m) l
  \/ exists (p : list Z) (z : Z) (q : list Z),
      l = p ++ z :: q /\ Forall (fun m => 0 < m) p /\ z <= 0.
Proof.
  induction l as [|m rest IH]; [left; constructor|].
  destruct (Z_lt_le_dec 0 m) as [Hm|Hm].
  - destruct IH as [Hrest|(p & z & q & -> & Hp & Hz)].
    + left. now constructor.
    + right. exists (m :: p), z, q. split; [reflexivity|].
      split; [now constructor|exact Hz].
  - right. exists [], m, rest. split; [reflexivity|].
    split; [constructor|exact Hm].
Qed.

Lemma encode_nonpositive
      (mode : bool) (cin cout : Z) (p q : list Z) (z : Z) (dropout : Q)
      (N a b : Z) :
  0 < cin -> Forall (fun m => 0 < m) p -> z <= 0 ->
  0 < N -> 0 < a -> 0 < b ->
  (List.length p <= 1)%nat \/ mode = false \/ N * a * b <> 1 ->
  ResUnet.encode
    (ResUnet.train mode (built cin cout (p ++ z :: q) dropout))
    (mkShape N cin (2 ^ len p * a) (2 ^ len p * b))
  = Raise (RuntimeError "expected weight to be at least 1 at dimension 0").
Proof.
  intros Hci Hp Hz HN Ha Hb Hbn.
  destruct p as [|m0 pre].
  - unfold ResUnet.encode, ResUnet.train, built.
    cbn [app hd tl ResUnet.encoders map Stage_train Layer_train for_loop
         ResUnet.encode_step call_stage].
    shape_ops. unfold ShapeOps.call_layer.
    now rewrite check_weight_empty by lia.
  - inversion Hp as [|? ? Hm0 Hpre]; subst.
    unfold ResUnet.encode, ResUnet.train, built.
    cbn [app hd tl ResUnet.encoders map Stage_train Layer_train for_loop
         ResUnet.encode_step call_stage].
    shape_ops. rewrite !(pow2_len_cons m0).
    rewrite call_Conv2d_halve by (lia || now apply pow2_len_pos).
    cbn [Py.bind app].
    rewrite enc_blocks_app, map_app, for_loop_app.
    rewrite (encode_blocks_shape mode N a b (Z.lt_le_incl _ _ HN) Ha Hb) by
        (assumption || lia
         || (destruct Hbn as [Hlen|Hbn]; [left|now right];
             destruct pre; [reflexivity|cbn [List.length] in Hlen; lia])).
    cbn [Py.bind Built.enc_blocks map Stage_train for_loop
         ResUnet.encode_step call_stage].
    now rewrite EncoderBlock_forward_no_channels by lia.
Qed.

Lemma forward_nonpositive
      (mode : bool) (cin cout : Z) (p q : list Z) (z : Z) (dropout : Q)
      (N a b : Z) :
  0 < cin -> Forall (fun m => 0 < m) p -> z <= 0 ->
  0 < N -> 0 < a -> 0 < b ->
  (List.length p <= 1)%nat \/ mode = false \/ N * a * b <> 1 ->
  ResUnet.forward
    (ResUnet.train mode (built cin cout (p ++ z :: q) dropout))
    (mkShape N cin (2 ^ len p * a) (2 ^ len p * b))
  = Raise (RuntimeError "expected weight to be at least 1 at dimension 0").
Proof.
  intros Hci Hp Hz HN Ha Hb Hbn.
  unfold ResUnet.forward. shape_ops. unfold ShapeOps.to_float32.
  now rewrite encode_nonpositive.
Qed.

(** The same when the input is larger than the stages before the
    multiplier need: its sides are still even where they reach it. *)
Lemma forward_nonpositive_inside
      (mode : bool) (cin cout : Z) (p q post : list Z) (z : Z) (dropout : Q)
      (N a b : Z) :
  0 < cin -> Forall (fun m => 0 < m) p -> z <= 0 ->
  0 < N -> 0 < a -> 0 < b ->
  ResUnet.forward
    (ResUnet.train mode (built cin cout ((p ++ z :: q) ++ post) dropout))
    (mkShape N cin (2 ^ len (p ++ z :: q) * a) (2 ^ len (p ++ z :: q) * b))
  = Raise (RuntimeError "expected weight to be at least 1 at dimension 0").
Proof.
  intros Hci Hp Hz HN Ha Hb.
  pose proof (len_nonneg p) as Hlp. pose proof (len_nonneg q) as Hlq.
  assert (Hpow : forall x : Z,
             2 ^ len (p ++ z :: q) * x = 2 ^ len p * (2 ^ (len q + 1) * x)).
  { intros x. rewrite len_app, len_cons, Z.pow_add_r by lia. lia. }
  assert (H2 : 2 <= 2 ^ (len q + 1)).
  { rewrite Z.pow_add_r by lia. change (2 ^ 1) with 2.
    assert (0 < 2 ^ len q) by (apply Z.pow_pos_nonneg; lia). lia. }
  rewrite !Hpow. rewrite <- app_assoc. cbn [app].
  apply forward_nonpositive; try assumption; nia.
Qed.

(** After as many halvings as the input allows, the next encoder block
    meets a side of length 1 and its first convolution raises. *)
Lemma forward_side_one
      (mode : bool) (cin cout : Z) (first post : list Z) (m : Z)
      (dropout : Q) (N a b : Z) :
  0 < cin -> Forall (fun k => 0 < k) first -> 0 < m ->
  first <> [] -> 0 < N -> 0 < a -> 0 < b -> a = 1 \/ b = 1 ->
  List.length first = 1%nat \/ mode = false \/ N * a * b <> 1 ->
  ResUnet.forward
    (ResUnet.train mode (built cin cout (first ++ m :: post) dropout))
    (mkShape N cin (2 ^ len first * a) (2 ^ len first * b))
  = Raise (RuntimeError "Kernel size can't be greater than actual input size").
Proof.
  intros Hci Hpos Hm Hne HN Ha Hb Hone Hbn.
  destruct first as [|m0 pre]; [contradiction|].
  inversion Hpos as [|? ? Hm0 Hpre]; subst.
  unfold ResUnet.forward, ResUnet.encode, ResUnet.train, built.
  cbn [app hd tl ResUnet.encoders map Stage_train Layer_train for_loop
       ResUnet.encode_step call_stage].
  shape_ops. unfold ShapeOps.to_float32.
  rewrite !(pow2_len_cons m0).
  rewrite call_Conv2d_halve by (lia || now apply pow2_len_pos).
  cbn [Py.bind app].
  rewrite enc_blocks_app, map_app, for_loop_app.
  rewrite (encode_blocks_shape mode N a b (Z.lt_le_incl _ _ HN) Ha Hb) by
      (assumption || lia
       || (destruct Hbn as [Hlen|Hbn]; [left|now right];
           destruct pre; [reflexivity|cbn [List.length] in Hlen; lia])).
  cbn [Py.bind Built.enc_blocks map Stage_train for_loop
       ResUnet.encode_step call_stage].
  now rewrite EncoderBlock_forward_side_one by (assumption || lia).
Qed.

Lemma is_RuntimeError_Raise {A : Type} (r : result A) (msg : string) :
  r = Raise (RuntimeError msg) -> is_RuntimeError r = true.
Proof. now intros ->. Qed.

(** Whatever the multipliers, such an input is refused with
    RuntimeError. *)
Lemma forward_side_one_class
      (mode : bool) (cin cout : Z) (first post : list Z) (m : Z)
      (dropout : Q) (N a b : Z) :
  0 <= cin ->
  first <> [] -> 0 < N -> 0 < a -> 0 < b -> a = 1 \/ b = 1 ->
  List.length first = 1%nat \/ mode = false \/ N * a * b <> 1 ->
  is_RuntimeError
    (ResUnet.forward
       (ResUnet.train mode (built cin cout (first ++ m :: post) dropout))
       (mkShape N cin (2 ^ len first * a) (2 ^ len first * b)))
  = true.
Proof.
  intros Hci Hne HN Ha Hb Hone Hbn.
  destruct (Z.eq_dec cin 0) as [->|Hnz];
    [now apply forward_no_input_channels|].
  assert (Hpc : 0 < cin) by lia.
  destruct (split_first_nonpos first) as [Hpos|(p & z & q & -> & Hp & Hz)].
  - destruct (Z_lt_le_dec 0 m) as [Hm|Hm].
    + eapply is_RuntimeError_Raise. now apply forward_side_one.
    + eapply is_RuntimeError_Raise. apply forward_nonpositive; try assumption.
      destruct Hbn as [Hlen|Hbn]; [left; lia|now right].
  - eapply is_RuntimeError_Raise.
    now apply (forward_nonpositive_inside mode cin cout p q (m :: post)).
Qed.

(** X9.  When the sides of the input are [2 ^ k] times [a] and [b], with
    [a] or [b] equal to 1 and [k] smaller than the number of multipliers,
    the forward pass raises RuntimeError.  For positive multipliers up to
    stage [k] it is raised in that encoder stage: the side has shrunk to
    1, below the 4x4 kernel; a multiplier of 0 before that gives a
    convolution that raises for its weight, and a network without input
    channels raises in its first two stages.  (In training mode with a
    single value per channel at that point and [k >= 2], batch
    normalisation raises earlier; that case is excluded.) *)
Theorem ResUnet_forward_too_small
        (in_channels out_channels : Z) (first post : list Z) (m : Z)
        (dropout : Q) (self : ResUnet.t) (mode : bool) (N a b : Z) :
  ResUnet.init in_channels out_channels (first ++ m :: post) dropout = Ok self ->
  first <> [] -> 0 < N -> 0 < a -> 0 < b -> a = 1 \/ b = 1 ->
  List.length first = 1%nat \/ mode = false \/ N * a * b <> 1 ->
  let r := ResUnet.forward
             (ResUnet.train mode self)
             (mkShape N in_channels (2 ^ len first * a) (2 ^ len first * b)) in
  is_RuntimeError r = true
  /\ (0 < in_channels -> forallb (fun k => 0 <? k) (first ++ [m]) = true ->
      r = Raise (RuntimeError
                   "Kernel size can't be greater than actual input size")).
Proof.
  intros Hinit Hne HN Ha Hb Hone Hbn r. subst r.
  apply init_inv in Hinit. destruct Hinit as (-> & _ & Hci & _).
  split; [now apply forward_side_one_class|].
  intros Hpc Hpos. apply forallb_pos, Forall_app in Hpos.
  destruct Hpos as [Hfirst Hm]. inversion Hm; subst.
  now apply forward_side_one.
Qed.

Lemma ResUnet_forward_too_small_witness :
  ResUnet.forward
    (ResUnet.train true (built 3 3 ([1; 2] ++ 4 :: [8]) (1 # 2)))
    (mkShape 2 3 (2 ^ len [1; 2] * 1) (2 ^ len [1; 2] * 1))
  = Raise (RuntimeError "Kernel size can't be greater than actual input size").
Proof.
  destruct (ResUnet_forward_too_small 3 3 [1; 2] [8] 4 (1 # 2)
              (built 3 3 ([1; 2] ++ 4 :: [8]) (1 # 2)) true 2 1 1)
    as [_ Hexact];
    [reflexivity | discriminate | lia | lia | lia | left; reflexivity
     | right; right; lia |].
  apply Hexact; [lia|reflexivity].
Defined.

(** * ResUnetGAN: the example input *)

Lemma init_generator
      (Disc : Type) (Discriminator : Z -> result Disc)
      (cin cout : Z) (mults : list Z) (dropout l1 : Q)
      (gan : ResUnetGAN.t Disc) :
  ResUnetGAN.init Disc Discriminator cin cout mults dropout l1 = Ok gan ->
  mults <> [] /\ 0 <= cin
  /\ ResUnetGAN.generator Disc gan = built cin cout mults dropout
  /\ ResUnetGAN.example_input_array Disc gan = mkShape 2 cin 256 256.
Proof.
  unfold ResUnetGAN.init. intros Hinit.
  destruct (ResUnet.init cin cout mults dropout) as [g|e] eqn:Hg;
    [|discriminate].
  apply init_inv in Hg. destruct Hg as (-> & Hne & Hci & _).
  cbn [Py.bind] in Hinit.
  destruct (Discriminator cin) as [d|e]; [|discriminate].
  cbn [Py.bind] in Hinit. injection Hinit as <-.
  repeat split; assumption.
Qed.

(** X10.  Whenever [ResUnetGAN] is constructed with positive channel
    counts and between one and eight positive channel multipliers (eight
    by default), its generator accepts the model's own example input
    [2, in_channels, 256, 256] as constructed, in training mode, and
    returns [2, out_channels, 256, 256]. *)
Theorem ResUnetGAN_example_input_accepted
        (Disc : Type) (Discriminator : Z -> result Disc)
        (in_channels out_channels : Z) (channel_mults : list Z)
        (dropout l1_lambda : Q) (gan : ResUnetGAN.t Disc) :
  ResUnetGAN.init Disc Discriminator in_channels out_channels channel_mults
                  dropout l1_lambda = Ok gan ->
  0 < in_channels -> 0 < out_channels ->
  forallb (fun k => 0 <? k) channel_mults = true ->
  (List.length channel_mults <= 8)%nat ->
  ResUnet.forward (ResUnetGAN.generator Disc gan)
                  (ResUnetGAN.example_input_array Disc gan)
  = Ok (mkShape 2 out_channels 256 256).
Proof.
  intros Hinit Hci Hco Hpos Hlen. apply forallb_pos in Hpos.
  destruct (init_generator _ _ _ _ _ _ _ _ Hinit) as (Hne & _ & -> & ->).
  assert (Hn : 0 <= len channel_mults <= 8) by (unfold len; lia).
  assert (E : 256 = 2 ^ len channel_mults * 2 ^ (8 - len channel_mults)).
  { rewrite <- Z.pow_add_r by lia.
    now replace (len channel_mults + (8 - len channel_mults)) with 8 by lia. }
  assert (Hp : 0 < 2 ^ (8 - len channel_mults))
    by (apply Z.pow_pos_nonneg; lia).
  rewrite <- built_train_true. rewrite E.
  apply forward_shape; try assumption; lia.
Qed.

Lemma ResUnetGAN_example_input_accepted_witness :
  ResUnet.forward
    (built 3 3 ResUnetGAN.default_channel_mults (1 # 2))
    (mkShape 2 3 256 256)
  = Ok (mkShape 2 3 256 256).
Proof.
  apply (ResUnetGAN_example_input_accepted unit (fun _ => Ok tt) 3 3
           ResUnetGAN.default_channel_mults (1 # 2) 50
           (ResUnetGAN.mk unit
              (built 3 3 ResUnetGAN.default_channel_mults (1 # 2)) tt 50
              (mkShape 2 3 256 256)));
    [reflexivity | lia | lia | reflexivity | simpl; lia].
Defined.

Lemma nine_or_more (l : list Z) :
  (9 <= List.length l)%nat ->
  exists (first : list Z) (m : Z) (post : list Z),
    l = first ++ m :: post /\ List.length first = 8%nat.
Proof.
  intros Hlen.
  assert (Hfirst : List.length (firstn 8 l) = 8%nat)
    by (rewrite length_firstn; lia).
  destruct (skipn 8 l) as [|m post] eqn:Hskip.
  - apply (f_equal (@List.length Z)) in Hskip.
    rewrite length_skipn in Hskip. cbn [List.length] in Hskip. lia.
  - exists (firstn 8 l), m, post. split; [|exact Hfirst].
    rewrite <- Hskip. symmetry. apply firstn_skipn.
Qed.

(** X11.  With nine or more channel multipliers the generator rejects the
    model's own example input with RuntimeError.  For positive multipliers
    it is raised by the ninth stage: after eight halvings the 256x256
    image is 1x1, below the 4x4 kernel; a multiplier of 0 before that
    gives a convolution that raises for its weight, and a network without
    input channels raises in its first two stages. *)
Theorem ResUnetGAN_example_input_rejected
        (Disc : Type) (Discriminator : Z -> result Disc)
        (in_channels out_channels : Z) (channel_mults : list Z)
        (dropout l1_lambda : Q) (gan : ResUnetGAN.t Disc) :
  ResUnetGAN.init Disc Discriminator in_channels out_channels channel_mults
                  dropout l1_lambda = Ok gan ->
  (9 <= List.length channel_mults)%nat ->
  let r := ResUnet.forward (ResUnetGAN.generator Disc gan)
                           (ResUnetGAN.example_input_array Disc gan) in
  is_RuntimeError r = true
  /\ (0 < in_channels -> forallb (fun k => 0 <? k) channel_mults = true ->
      r = Raise (RuntimeError
                   "Kernel size can't be greater than actual input size")).
Proof.
  intros Hinit Hlen r. subst r.
  destruct (init_generator _ _ _ _ _ _ _ _ Hinit) as (Hne & Hci & -> & ->).
  destruct (nine_or_more _ Hlen) as (first & m & post & -> & Hfirst).
  assert (Hnil : first <> [])
    by (intros Hnil; rewrite Hnil in Hfirst; discriminate).
  assert (E : 256 = 2 ^ len first * 1)
    by (unfold len; rewrite Hfirst; reflexivity).
  rewrite <- built_train_true. rewrite E. split.
  - apply forward_side_one_class; try lia; assumption.
  - intros Hpc Hpos. apply forallb_pos, Forall_app in Hpos.
    destruct Hpos as [Hpre Hm]. inversion Hm; subst.
    apply forward_side_one; try lia; assumption.
Qed.

Lemma ResUnetGAN_example_input_rejected_witness :
  ResUnet.forward
    (built 3 3 [1; 2; 4; 8; 8; 8; 8; 8; 8] (1 # 2))
    (mkShape 2 3 256 256)
  = Raise (RuntimeError "Kernel size can't be greater than actual input size").
Proof.
  destruct (ResUnetGAN_example_input_rejected unit (fun _ => Ok tt) 3 3
              [1; 2; 4; 8; 8; 8; 8; 8; 8] (1 # 2) 50
              (ResUnetGAN.mk unit
                 (built 3 3 [1; 2; 4; 8; 8; 8; 8; 8; 8] (1 # 2)) tt 50
                 (mkShape 2 3 256 256))) as [_ Hexact];
    [reflexivity | simpl; lia |].
  apply Hexact; [lia|reflexivity].
Defined.

(** * main: the training run *)

Section TrainingRun.

Variable Obj : Type.
Variable run : Main.Call Obj -> result Obj.

(** The constructor call that belongs to a model name. *)
Inductive model_call (hp : Main.hparams) : Main.Call Obj -> Prop :=
| call_pix2pix :
    Main.model hp = "pix2pix" ->
    model_call hp (Main.Pix2Pix Obj (Main.l1_lambda hp))
| call_palette :
    Main.model hp = "palette" -> model_call hp (Main.Palette Obj)
| call_transgan :
    Main.model hp = "transgan" ->
    model_call hp (Main.TransGAN Obj (Main.l1_lambda hp)).

Lemma select_model_call (hp : Main.hparams) (c : Main.Call Obj)
      (log : list (Main.Call Obj)) :
  model_call hp c ->
  Main.select_model Obj run hp log
  = (log ++ [c],
     match run c with
     | Ok o => Main.Returns (Some o)
     | Raise e => Main.Propagates e
     end).
Proof.
  intros Hc. unfold Main.select_model.
  destruct Hc as [E|E|E]; rewrite E; cbn [String.eqb Ascii.eqb Bool.eqb];
    unfold Main.bindM, Main.call, Main.ret; destruct (run _); reflexivity.
Qed.

Lemma main_success (hp : Main.hparams) (c : Main.Call Obj)
      (s m d lg ema tr r : Obj) :
  model_call hp c ->
  run (Main.seed_everything Obj 42) = Ok s ->
  run c = Ok m ->
  run (Main.ImageDataModule Obj (Main.input_dir hp) (Main.target_dir hp)
                            (Main.batch_size hp)) = Ok d ->
  run (Main.CSVLogger Obj "logs" (Main.name hp)) = Ok lg ->
  run (Main.EMACallback Obj) = Ok ema ->
  run (Main.Trainer Obj (Main.epochs hp) (Main.precision hp) lg ema) = Ok tr ->
  run (Main.fit Obj tr m d) = Ok r ->
  Main.main Obj run hp []
  = ([Main.seed_everything Obj 42; c;
      Main.ImageDataModule Obj (Main.input_dir hp) (Main.target_dir hp)
                           (Main.batch_size hp);
      Main.CSVLogger Obj "logs" (Main.name hp);
      Main.EMACallback Obj;
      Main.Trainer Obj (Main.epochs hp) (Main.precision hp) lg ema;
      Main.fit Obj tr m d],
     Main.Returns tt).
Proof.
  intros Hc Hs Hm Hd Hlg Hema Htr Hr.
  unfold Main.main, Main.bindM at 1, Main.call at 1. rewrite Hs.
  unfold Main.bindM at 1. rewrite (select_model_call hp c _ Hc), Hm.
  unfold Main.bindM, Main.call, Main.ret.
  rewrite Hd, Hlg, Hema, Htr, Hr. reflexivity.
Qed.

End TrainingRun.

(** X12.  With one of the three model names and collaborators that all
    return, [main] makes exactly seven calls in this order: it seeds the
    generators with 42, constructs the model of that name (with
    [l1_lambda] for pix2pix and transgan), the data module from the two
    directories and the batch size, the CSV logger under "logs" with the
    run name, the EMA callback, the trainer with the epochs, the precision
    and these two objects, and calls [fit] on the trainer with that model
    and that data module; then it returns. *)
Theorem main_runs_training
        (Obj : Type) (run : Main.Call Obj -> result Obj)
        (hp : Main.hparams) (c : Main.Call Obj) (s m d lg ema tr r : Obj) :
  model_call Obj hp c ->
  run (Main.seed_everything Obj 42) = Ok s ->
  run c = Ok m ->
  run (Main.ImageDataModule Obj (Main.input_dir hp) (Main.target_dir hp)
                            (Main.batch_size hp)) = Ok d ->
  run (Main.CSVLogger Obj "logs" (Main.name hp)) = Ok lg ->
  run (Main.EMACallback Obj) = Ok ema ->
  run (Main.Trainer Obj (Main.epochs hp) (Main.precision hp) lg ema) = Ok tr ->
  run (Main.fit Obj tr m d) = Ok r ->
  Main.main Obj run hp []
  = ([Main.seed_everything Obj 42; c;
      Main.ImageDataModule Obj (Main.input_dir hp) (Main.target_dir hp)
                           (Main.batch_size hp);
      Main.CSVLogger Obj "logs" (Main.name hp);
      Main.EMACallback Obj;
      Main.Trainer Obj (Main.epochs hp) (Main.precision hp) lg ema;
      Main.fit Obj tr m d],
     Main.Returns tt).
Proof. apply main_success. Qed.

Lemma main_runs_training_witness :
  Main.main unit (fun _ => Ok tt)
            (Main.mkHparams "run" None None 50 200 2 "32" "palette") []
  = ([Main.seed_everything unit 42; Main.Palette unit;
      Main.ImageDataModule unit None None 2;
      Main.CSVLogger unit "logs" "run";
      Main.EMACallback unit;
      Main.Trainer unit 200 "32" tt tt;
      Main.fit unit tt tt tt],
     Main.Returns tt).
Proof.
  apply (main_runs_training unit (fun _ => Ok tt)
           (Main.mkHparams "run" None None 50 200 2 "32" "palette")
           (Main.Palette unit) tt tt tt tt tt tt tt);
    try reflexivity.
  apply call_palette. reflexivity.
Defined.

Lemma model_call_exists (Obj : Type) (hp : Main.hparams) :
  In (Main.model hp) Main.model_choices ->
  exists c, model_call Obj hp c.
Proof.
  intros Hin. destruct (eqb_choice _ Hin) as [E|[E|E]].
  - eexists. now apply call_pix2pix.
  - eexists. now apply call_palette.
  - eexists. now apply call_transgan.
Qed.

(** X13.  [main] stops at the first call that raises: in every run, all
    calls before the last one returned; when an exception of a
    collaborator ends the run, it is the exception of the last call made;
    when [main] returns, the last call made is [fit], which returned; and
    [main] raises an exception of its own only for a model name outside
    the three choices. *)
Theorem main_stops_at_first_failure
        (Obj : Type) (run : Main.Call Obj -> result Obj)
        (hp : Main.hparams) (log : list (Main.Call Obj))
        (out : Main.outcome unit) :
  Main.main Obj run hp [] = (log, out) ->
  Forall (fun c => exists o, run c = Ok o) (removelast log)
  /\ (forall e, out = Main.Propagates e ->
                run (last log (Main.seed_everything Obj 42)) = Raise e)
  /\ (out = Main.Returns tt ->
      exists tr m d r,
        last log (Main.seed_everything Obj 42) = Main.fit Obj tr m d
        /\ run (Main.fit Obj tr m d) = Ok r)
  /\ (forall e, out = Main.Raises e ->
                ~ In (Main.model hp) Main.model_choices).
Proof.
  intros Hrun.
  destruct (in_dec string_dec (Main.model hp) Main.model_choices) as [Hin|Hn].
  - destruct (model_call_exists Obj hp Hin) as [c Hc].
    revert Hrun.
    unfold Main.main, Main.bindM at 1, Main.call at 1.
    destruct (run (Main.seed_everything Obj 42)) as [s|e] eqn:Hs.
    2:{ intros [= <- <-]. cbn [app removelast last].
        repeat split; try discriminate; [constructor|].
        now intros e0 [= <-]. }
    unfold Main.bindM at 1. rewrite (select_model_call Obj run hp c _ Hc).
    destruct (run c) as [m|e] eqn:Hm.
    2:{ intros [= <- <-]. cbn [app removelast last].
        repeat split; try discriminate;
          [repeat constructor; eauto | now intros e0 [= <-]]. }
    unfold Main.bindM, Main.call, Main.ret.
    destruct (run (Main.ImageDataModule Obj _ _ _)) as [d|e] eqn:Hd.
    2:{ intros [= <- <-]. cbn [app removelast last].
        repeat split; try discriminate;
          [repeat constructor; eauto | now intros e0 [= <-]]. }
    destruct (run (Main.CSVLogger Obj _ _)) as [lg|e] eqn:Hlg.
    2:{ intros [= <- <-]. cbn [app removelast last].
        repeat split; try discriminate;
          [repeat constructor; eauto | now intros e0 [= <-]]. }
    destruct (run (Main.EMACallback Obj)) as [ema|e] eqn:Hema.
    2:{ intros [= <- <-]. cbn [app removelast last].
        repeat split; try discriminate;
          [repeat constructor; eauto | now intros e0 [= <-]]. }
    destruct (run (Main.Trainer Obj _ _ _ _)) as [tr|e] eqn:Htr.
    2:{ intros [= <- <-]. cbn [app removelast last].
        repeat split; try discriminate;
          [repeat constructor; eauto | now intros e0 [= <-]]. }
    destruct (run (Main.fit Obj _ _ _)) as [r|e] eqn:Hr.
    2:{ intros [= <- <-]. cbn [app removelast last].
        repeat split; try discriminate;
          [repeat constructor; eauto | now intros e0 [= <-]]. }
    intros [= <- <-]. cbn [app removelast last].
    repeat split; try discriminate; [repeat constructor; eauto|].
    intros _. now exists tr, m, d, r.
  - revert Hrun.
    unfold Main.main, Main.bindM at 1, Main.call at 1.
    destruct (run (Main.seed_everything Obj 42)) as [s|e] eqn:Hs.
    + unfold Main.bindM. rewrite select_model_unknown by assumption.
      unfold Main.raise. intros [= <- <-]. cbn [app removelast last].
      repeat split; try discriminate; [constructor|].
      now intros e0 _.
    + intros [= <- <-]. cbn [app removelast last].
      repeat split; try discriminate; [constructor|].
      now intros e0 [= <-].
Qed.

Lemma main_stops_at_first_failure_witness :
  Main.main unit transgan_fails
            (Main.mkHparams "run" None None 50 200 2 "32" "transgan") []
  = ([Main.seed_everything unit 42; Main.TransGAN unit 50],
     Main.Propagates (RuntimeError "CUDA out of memory"))
  /\ Forall (fun c => exists o, transgan_fails c = Ok o)
            (removelast [Main.seed_everything unit 42; Main.TransGAN unit 50])
  /\ (forall e,
         @Main.Propagates unit (RuntimeError "CUDA out of memory")
         = Main.Propagates e ->
         transgan_fails
           (last [Main.seed_everything unit 42; Main.TransGAN unit 50]
                 (Main.seed_everything unit 42))
         = Raise e)
  /\ (@Main.Propagates unit (RuntimeError "CUDA out of memory")
      = Main.Returns tt ->
      exists tr m d r,
        last [Main.seed_everything unit 42; Main.TransGAN unit 50]
             (Main.seed_everything unit 42)
        = Main.fit unit tr m d
        /\ transgan_fails (Main.fit unit tr m d) = Ok r)
  /\ (forall e,
         @Main.Propagates unit (RuntimeError "CUDA out of memory")
         = Main.Raises e ->
         ~ In (Main.model
                 (Main.mkHparams "run" None None 50 200 2 "32" "transgan"))
              Main.model_choices).
Proof.
  split; [reflexivity|].
  apply (main_stops_at_first_failure unit transgan_fails
           (Main.mkHparams "run" None None 50 200 2 "32" "transgan")
           [Main.seed_everything unit 42; Main.TransGAN unit 50]
           (@Main.Propagates unit (RuntimeError "CUDA out of memory"))).
  reflexivity.
Defined.

(** * The command line *)

(** X14.  Among the command lines with known options, well-formed
    integers and no request for help, one without the positional run
    name, or with a model outside the three choices, ends in the parser
    with exit status 2: [main] is not called and no call is made.  When
    the parser returns, the arguments carry the given name and a model
    among the choices, which is pix2pix when none was given. *)
Theorem parse_args_exits
        (Obj : Type) (run : Main.Call Obj -> result Obj) (c : Main.cmdline) :
  (Main.cl_name c = None
   \/ (exists v, Main.cl_model c = Some v /\ ~ In v Main.model_choices) ->
   Main.parse_args c = Raise (SystemExit 2)
   /\ forall log,
       Main.script Obj run c log = (log, Main.Propagates (SystemExit 2)))
  /\ (forall args,
         Main.parse_args c = Ok args ->
         Main.cl_name c = Some (Main.name args)
         /\ In (Main.model args) Main.model_choices
         /\ (Main.cl_model c = None -> Main.model args = "pix2pix")
         /\ (forall v, Main.cl_model c = Some v -> Main.model args = v)).
Proof.
  split.
  - intros Hbad.
    assert (E : Main.parse_args c = Raise (SystemExit 2)).
    { unfold Main.parse_args, Main.parse_choice.
      destruct (Main.cl_name c) as [n|]; [|reflexivity].
      destruct Hbad as [Hn|(v & Hv & Hout)]; [discriminate|].
      rewrite Hv.
      destruct (existsb (String.eqb v) Main.model_choices) eqn:Hex;
        [|reflexivity].
      exfalso. apply Hout. apply existsb_exists in Hex.
      destruct Hex as (s & Hs & Heq). apply String.eqb_eq in Heq.
      now subst v. }
    split; [exact E|]. intros log. unfold Main.script. now rewrite E.
  - unfold Main.parse_args, Main.parse_choice.
    destruct (Main.cl_name c) as [n|]; [|discriminate].
    destruct (Main.cl_model c) as [v|]; cbn [Py.bind].
    + destruct (existsb (String.eqb v) Main.model_choices) eqn:Hv;
        cbn [Py.bind]; [|discriminate].
      assert (Hin : In v Main.model_choices).
      { apply existsb_exists in Hv. destruct Hv as (s & Hs & Heq).
        apply String.eqb_eq in Heq. now subst v. }
      intros args Hargs. injection Hargs as <-.
      cbn [Main.name Main.model].
      split; [reflexivity|]. split; [exact Hin|].
      split; [discriminate|]. intros v' Hv'. now injection Hv'.
    + intros args Hargs. injection Hargs as <-.
      cbn [Main.name Main.model Main.model_choices In].
      split; [reflexivity|]. split; [now left|].
      split; [reflexivity|]. discriminate.
Qed.

Lemma parse_args_exits_witness :
  (Main.parse_args
     (Main.mkCmdline (Some "run") None None None None None None (Some "foo"))
   = Raise (SystemExit 2)
   /\ forall log,
       Main.script unit (fun _ => Ok tt)
         (Main.mkCmdline (Some "run") None None None None None None
                         (Some "foo")) log
       = (log, Main.Propagates (SystemExit 2)))
  /\ (Main.cl_name
        (Main.mkCmdline (Some "run") None None None None None None
                        (Some "palette"))
      = Some (Main.name
                (Main.mkHparams "run" None None 50 200 2 "32" "palette"))
      /\ In (Main.model
               (Main.mkHparams "run" None None 50 200 2 "32" "palette"))
            Main.model_choices
      /\ (Main.cl_model
            (Main.mkCmdline (Some "run") None None None None None None
                            (Some "palette")) = None ->
          Main.model
            (Main.mkHparams "run" None None 50 200 2 "32" "palette")
          = "pix2pix")
      /\ (forall v,
             Main.cl_model
               (Main.mkCmdline (Some "run") None None None None None None
                               (Some "palette")) = Some v ->
             Main.model
               (Main.mkHparams "run" None None 50 200 2 "32" "palette")
             = v)).
Proof.
  split.
  - apply (proj1 (parse_args_exits
                    unit (fun _ => Ok tt)
                    (Main.mkCmdline (Some "run") None None None None None
                                    None (Some "foo")))).
    right. exists "foo". split; [reflexivity|].
    cbn [Main.model_choices In]. intros [H|[H|[H|[]]]]; discriminate H.
  - apply (proj2 (parse_args_exits
                    unit (fun _ => Ok tt)
                    (Main.mkCmdline (Some "run") None None None None None
                                    None (Some "palette")))).
    reflexivity.
Defined.

(** X15.  Run with nothing but the run name (and, if given, the two
    directories), the script trains pix2pix with L1 weight 50, batch size
    2, 200 epochs and precision "32": these are the calls it makes when
    all collaborators return. *)
Theorem script_defaults
        (Obj : Type) (run : Main.Call Obj -> result Obj)
        (n : string) (input_dir target_dir : option string)
        (s m d lg ema tr r : Obj) :
  run (Main.seed_everything Obj 42) = Ok s ->
  run (Main.Pix2Pix Obj 50) = Ok m ->
  run (Main.ImageDataModule Obj input_dir target_dir 2) = Ok d ->
  run (Main.CSVLogger Obj "logs" n) = Ok lg ->
  run (Main.EMACallback Obj) = Ok ema ->
  run (Main.Trainer Obj 200 "32" lg ema) = Ok tr ->
  run (Main.fit Obj tr m d) = Ok r ->
  Main.script Obj run
    (Main.mkCmdline (Some n) input_dir target_dir None None None None None) []
  = ([Main.seed_everything Obj 42; Main.Pix2Pix Obj 50;
      Main.ImageDataModule Obj input_dir target_dir 2;
      Main.CSVLogger Obj "logs" n;
      Main.EMACallback Obj;
      Main.Trainer Obj 200 "32" lg ema;
      Main.fit Obj tr m d],
     Main.Returns tt).
Proof.
  intros Hs Hm Hd Hlg Hema Htr Hr.
  unfold Main.script, Main.parse_args, Main.parse_choice, Main.with_default.
  cbn [Main.cl_name Main.cl_model Main.cl_input_dir Main.cl_target_dir
       Main.cl_l1_lambda Main.cl_epochs Main.cl_batch_size Main.cl_precision
       Py.bind].
  apply (main_success Obj run
           (Main.mkHparams n input_dir target_dir 50 200 2 "32" "pix2pix")
           (Main.Pix2Pix Obj 50) s m d lg ema tr r);
    try assumption.
  apply (call_pix2pix Obj
           (Main.mkHparams n input_dir target_dir 50 200 2 "32" "pix2pix")).
  reflexivity.
Qed.

Lemma script_defaults_witness :
  Main.script unit (fun _ => Ok tt)
    (Main.mkCmdline (Some "run") None None None None None None None) []
  = ([Main.seed_everything unit 42; Main.Pix2Pix unit 50;
      Main.ImageDataModule unit None None 2;
      Main.CSVLogger unit "logs" "run";
      Main.EMACallback unit;
      Main.Trainer unit 200 "32" tt tt;
      Main.fit unit tt tt tt],
     Main.Returns tt).
Proof.
  apply (script_defaults unit (fun _ => Ok tt) "run" None None
           tt tt tt tt tt tt tt);
    reflexivity.
Defined.

(** * The encoder pass: what is stored *)

Lemma enc_feats_nth (N : Z) (ms : list Z) (a b : Z) :
  forall (l : nat) (m : Z),
    nth_error ms l = Some m ->
    nth_error (Built.enc_feats N ms a b) l
    = Some (mkShape N (m * 64)
                    (2 ^ (len ms - 1 - Z.of_nat l) * a)
                    (2 ^ (len ms - 1 - Z.of_nat l) * b)).
Proof.
  induction ms as [|m0 rest IH]; intros l m Hl.
  - destruct l; discriminate.
  - destruct l as [|j]; cbn [nth_error Built.enc_feats] in *.
    + injection Hl as ->. rewrite len_cons.
      now replace (len rest + 1 - 1 - Z.of_nat 0) with (len rest) by lia.
    + rewrite (IH _ _ Hl), len_cons.
      now replace (len rest + 1 - 1 - Z.of_nat (S j))
        with (len rest - 1 - Z.of_nat j) by lia.
Qed.

Lemma length_enc_feats (N : Z) (ms : list Z) (a b : Z) :
  List.length (Built.enc_feats N ms a b) = List.length ms.
Proof.
  induction ms as [|m0 rest IH]; [reflexivity|].
  cbn [Built.enc_feats List.length]. now rewrite IH.
Qed.

Lemma pow2_div (n k a : Z) :
  0 <= k <= n -> (2 ^ n * a) / 2 ^ k = 2 ^ (n - k) * a.
Proof.
  intros Hk.
  replace n with (k + (n - k)) at 1 by lia.
  rewrite Z.pow_add_r by lia.
  rewrite <- Z.mul_assoc, Z.mul_comm.
  apply Z.div_mul. apply Z.pow_nonzero; lia.
Qed.

(** X16.  For positive multipliers and a positive [in_channels], on an
    input [N, in_channels, H, W] with [H] and [W] divisible by
    [2 ^ len(channel_mults)], the encoder pass stores one feature map per
    multiplier, the one of level [l] with 64 times multiplier [l] channels
    and sides [H / 2^(l+1)] and [W / 2^(l+1)], and ends at the bottleneck
    with 64 times the last multiplier channels and sides
    [H / 2^len] and [W / 2^len]. *)
Theorem ResUnet_encode_shapes
        (in_channels out_channels : Z) (channel_mults : list Z) (dropout : Q)
        (self : ResUnet.t) (mode : bool) (N H W : Z) :
  ResUnet.init in_channels out_channels channel_mults dropout = Ok self ->
  0 < in_channels -> forallb (fun k => 0 <? k) channel_mults = true ->
  0 <= N -> 0 < H -> 0 < W ->
  H mod 2 ^ len channel_mults = 0 ->
  W mod 2 ^ len channel_mults = 0 ->
  mode = false
  \/ N * (H / 2 ^ len channel_mults) * (W / 2 ^ len channel_mults) <> 1 ->
  exists stored,
    ResUnet.encode (ResUnet.train mode self) (mkShape N in_channels H W)
    = Ok (mkShape N (last channel_mults 0 * 64)
                  (H / 2 ^ len channel_mults) (W / 2 ^ len channel_mults),
          stored)
    /\ List.length stored = List.length channel_mults
    /\ forall (l : nat) (m : Z),
        nth_error channel_mults l = Some m ->
        nth_error stored l
        = Some (mkShape N (m * 64)
                        (H / 2 ^ (Z.of_nat l + 1)) (W / 2 ^ (Z.of_nat l + 1))).
Proof.
  intros Hinit Hci Hpos HN HH HW HmH HmW Hbn. apply forallb_pos in Hpos.
  apply init_inv in Hinit.
  destruct Hinit as (-> & Hne & _).
  pose proof (len_nonneg channel_mults) as Hn.
  destruct (side_split H _ Hn HH HmH) as [EH Ha].
  destruct (side_split W _ Hn HW HmW) as [EW Hb].
  set (a := H / 2 ^ len channel_mults) in *.
  set (b := W / 2 ^ len channel_mults) in *.
  exists (Built.enc_feats N channel_mults a b).
  split; [|split].
  - rewrite EH, EW at 1.
    rewrite encode_shape by (assumption || now right).
    now rewrite bottleneck_channels.
  - apply length_enc_feats.
  - intros l m Hl. rewrite (enc_feats_nth _ _ _ _ _ _ Hl).
    assert (Hlt : (l < List.length channel_mults)%nat)
      by (apply nth_error_Some; rewrite Hl; discriminate).
    rewrite EH, EW.
    rewrite !pow2_div by (unfold len; lia).
    now replace (len channel_mults - (Z.of_nat l + 1))
      with (len channel_mults - 1 - Z.of_nat l) by lia.
Qed.

Lemma ResUnet_encode_shapes_witness :
  exists stored,
    ResUnet.encode (ResUnet.train true (built 3 3 [1; 2; 4] (1 # 2)))
                   (mkShape 2 3 32 32)
    = Ok (mkShape 2 (last [1; 2; 4] 0 * 64)
                  (32 / 2 ^ len [1; 2; 4]) (32 / 2 ^ len [1; 2; 4]),
          stored)
    /\ List.length stored = List.length [1; 2; 4]
    /\ forall (l : nat) (m : Z),
        nth_error [1; 2; 4] l = Some m ->
        nth_error stored l
        = Some (mkShape 2 (m * 64)
                        (32 / 2 ^ (Z.of_nat l + 1)) (32 / 2 ^ (Z.of_nat l + 1))).
Proof.
  apply (ResUnet_encode_shapes 3 3 [1; 2; 4] (1 # 2)
           (built 3 3 [1; 2; 4] (1 # 2)) true 2 32 32);
    [reflexivity | lia | reflexivity | lia | lia | lia | reflexivity
     | reflexivity | right; vm_compute; discriminate].
Defined.

(** X17.  A network of two or more positive multipliers, as constructed
    (in training mode), raises ValueError on an input with a positive
    [in_channels] whose bottleneck holds a single value per channel: the
    first batch normalisation of the last encoder block refuses it. *)
Theorem forward_training_single_value
        (in_channels out_channels : Z) (channel_mults : list Z) (dropout : Q)
        (self : ResUnet.t) (N a b : Z) :
  ResUnet.init in_channels out_channels channel_mults dropout = Ok self ->
  0 < in_channels -> forallb (fun k => 0 <? k) channel_mults = true ->
  (2 <= List.length channel_mults)%nat ->
  0 < N -> 0 < a -> 0 < b -> N * a * b = 1 ->
  ResUnet.forward self
                  (mkShape N in_channels (2 ^ len channel_mults * a)
                           (2 ^ len channel_mults * b))
  = Raise (ValueError "Expected more than 1 value per channel when training").
Proof.
  intros Hinit Hci Hpos Hlen HN Ha Hb Hone. apply forallb_pos in Hpos.
  apply init_inv in Hinit. destruct Hinit as (-> & _).
  now apply forward_single_value.
Qed.

Lemma forward_training_single_value_witness :
  ResUnet.forward (built 3 3 [1; 2; 4] (1 # 2))
                  (mkShape 1 3 (2 ^ len [1; 2; 4] * 1) (2 ^ len [1; 2; 4] * 1))
  = Raise (ValueError "Expected more than 1 value per channel when training").
Proof.
  apply (forward_training_single_value 3 3 [1; 2; 4] (1 # 2)
           (built 3 3 [1; 2; 4] (1 # 2)) 1 1 1);
    [reflexivity | lia | reflexivity | simpl; lia | lia | lia | lia | lia].
Defined.

(** * Sides that reach length 3 at the last encoder block *)

Lemma cat_size_mismatch (N c1 c2 : Z) :
  ShapeOps.cat (mkShape N c1 4 4) (mkShape N c2 3 3)
  = Raise (RuntimeError "Sizes of tensors must match except in dimension 1").
Proof. unfold ShapeOps.cat. cbn [dimN dimH dimW]. now rewrite Z.eqb_refl. Qed.

Lemma decoder_items_snoc (front : list Z) (ml : Z) :
  front <> [] ->
  decoder_items (front ++ [ml])
  = (len front - 1, last front 0)
    :: rev (enumerate 0 (removelast front)).
Proof.
  intros Hne. unfold decoder_items. rewrite removelast_last.
  rewrite (app_removelast_last 0 Hne) at 1.
  rewrite enumerate_app, rev_app_distr. cbn [enumerate rev app].
  do 2 f_equal.
  rewrite (app_removelast_last 0 Hne) at 2. rewrite len_app.
  change (len [last front 0]) with 1. lia.
Qed.

Lemma last_pos (l : list Z) :
  l <> [] -> Forall (fun m => 0 < m) l -> 0 < last l 0.
Proof.
  intros Hne Hpos. rewrite Forall_forall in Hpos.
  apply Hpos. now apply In_last.
Qed.

Lemma forward_skip_mismatch
      (mode : bool) (cin cout : Z) (front : list Z) (ml : Z) (dropout : Q)
      (N : Z) :
  0 < cin -> Forall (fun m => 0 < m) front -> 0 < ml ->
  front <> [] -> 0 < N -> mode = false \/ N <> 1 ->
  ResUnet.forward
    (ResUnet.train mode (built cin cout (front ++ [ml]) dropout))
    (mkShape N cin (2 ^ len front * 3) (2 ^ len front * 3))
  = Raise (RuntimeError "Sizes of tensors must match except in dimension 1").
Proof.
  intros Hci Hpos Hml Hne HN Hbn.
  pose proof (last_pos front Hne Hpos) as Hlast.
  assert (Hfront : front = removelast front ++ [last front 0])
    by (now apply app_removelast_last).
  unfold ResUnet.forward. shape_ops. unfold ShapeOps.to_float32.
  assert (Henc :
            ResUnet.encode
              (ResUnet.train mode (built cin cout (front ++ [ml]) dropout))
              (mkShape N cin (2 ^ len front * 3) (2 ^ len front * 3))
            = Ok (mkShape N (ml * 64) 2 2,
                  Built.enc_feats N front 3 3
                  ++ [mkShape N (ml * 64) 2 2])).
  { destruct front as [|m0 pre]; [contradiction|].
    inversion Hpos as [|? ? Hm0 Hpre]; subst.
    unfold ResUnet.encode, ResUnet.train, built.
    cbn [app hd tl ResUnet.encoders map Stage_train Layer_train for_loop
         ResUnet.encode_step call_stage].
    shape_ops. rewrite !(pow2_len_cons m0).
    rewrite call_Conv2d_halve by (lia || (apply pow2_len_pos; lia)).
    cbn [Py.bind app].
    rewrite enc_blocks_app, map_app, for_loop_app.
    rewrite (encode_blocks_shape mode N 3 3 (Z.lt_le_incl _ _ HN) ltac:(lia) ltac:(lia))
      by (assumption || lia || (right; right; lia)).
    cbn [Py.bind Built.enc_blocks map Stage_train for_loop
         ResUnet.encode_step call_stage].
    rewrite EncoderBlock_forward_side_three;
      [|apply enc_channels_pos; [assumption|lia]|lia|lia|lia|now left
       |change (3 / 2) with 1; destruct Hbn; [now left|right; lia]].
    cbn [Py.bind]. change ((3 + 1) / 2) with 2.
    reflexivity. }
  assert (Hstack : Built.enc_feats N front 3 3
                   = Built.enc_feats N (removelast front) 6 6
                     ++ [mkShape N (last front 0 * 64) 3 3]).
  { rewrite Hfront at 1. rewrite enc_feats_snoc. reflexivity. }
  rewrite Henc. cbn [Py.bind]. rewrite pop_snoc. cbn [Py.bind].
  rewrite Hstack.
  unfold ResUnet.decode, ResUnet.train, built.
  cbn [ResUnet.decoders]. rewrite decoder_items_snoc by assumption.
  cbn [Built.dec_blocks app map Stage_train enumerate for_loop
       ResUnet.decode_step].
  cbn [Z.eqb negb Py.bind call_stage].
  assert (Hcb : Built.enc_channels (hd 0 (front ++ [ml]) * 64)
                                   (tl (front ++ [ml])) = ml * 64).
  { rewrite bottleneck_channels by (destruct front; discriminate).
    now rewrite last_last. }
  rewrite Hcb.
  rewrite DecoderBlock_forward_ok by lia. cbn [Py.bind].
  destruct (Built.dec_blocks _ _ _ ++ _) as [|t1 tail] eqn:Htail.
  - apply app_eq_nil in Htail. destruct Htail as [_ Hnil]. discriminate.
  - cbn [map enumerate for_loop ResUnet.decode_step].
    cbn [Z.eqb Z.add Pos.add negb]. rewrite pop_snoc. cbn [Py.bind].
    shape_ops. change (2 * 2) with 4.
    now rewrite cat_size_mismatch.
Qed.

Lemma forward_skip_mismatch_class
      (mode : bool) (cin cout : Z) (front : list Z) (ml : Z) (dropout : Q)
      (N : Z) :
  0 <= cin -> front <> [] -> 0 < N -> mode = false \/ N <> 1 ->
  is_RuntimeError
    (ResUnet.forward
       (ResUnet.train mode (built cin cout (front ++ [ml]) dropout))
       (mkShape N cin (2 ^ len front * 3) (2 ^ len front * 3)))
  = true.
Proof.
  intros Hci Hne HN Hbn.
  destruct (Z.eq_dec cin 0) as [->|Hnz];
    [now apply forward_no_input_channels|].
  assert (Hpc : 0 < cin) by lia.
  destruct (split_first_nonpos front) as [Hpos|(p & z & q & -> & Hp & Hz)].
  - destruct (Z_lt_le_dec 0 ml) as [Hml|Hml].
    + eapply is_RuntimeError_Raise. now apply forward_skip_mismatch.
    + eapply is_RuntimeError_Raise.
      apply forward_nonpositive; try assumption; try lia.
  - eapply is_RuntimeError_Raise.
    apply (forward_nonpositive_inside mode cin cout p q [ml]);
      (assumption || lia).
Qed.

(** X18.  When the sides of the input are 3 times [2 ^ (len - 1)], the
    forward pass raises RuntimeError, for every sequence of two or more
    multipliers, in evaluation mode and in training mode with [N >= 2].
    For positive multipliers the encoder pass goes through (its last block
    broadcasts a side of 3 to 2), the first decoder block returns sides of
    4, and the second decoder stage raises in [torch.cat]: the stored
    feature map it pops has sides of 3.  A multiplier of 0 gives a
    convolution that raises for its weight in the encoder pass, and a
    network without input channels raises in its first two stages. *)
Theorem ResUnet_forward_skip_mismatch
        (in_channels out_channels : Z) (front : list Z) (ml : Z) (dropout : Q)
        (self : ResUnet.t) (mode : bool) (N : Z) :
  ResUnet.init in_channels out_channels (front ++ [ml]) dropout = Ok self ->
  front <> [] -> 0 < N -> mode = false \/ N <> 1 ->
  let r := ResUnet.forward
             (ResUnet.train mode self)
             (mkShape N in_channels (2 ^ len front * 3) (2 ^ len front * 3)) in
  is_RuntimeError r = true
  /\ (0 < in_channels -> forallb (fun k => 0 <? k) (front ++ [ml]) = true ->
      r = Raise (RuntimeError
                   "Sizes of tensors must match except in dimension 1")).
Proof.
  intros Hinit Hne HN Hbn r. subst r.
  apply init_inv in Hinit. destruct Hinit as (-> & _ & Hci & _).
  split; [now apply forward_skip_mismatch_class|].
  intros Hpc Hpos. apply forallb_pos, Forall_app in Hpos.
  destruct Hpos as [Hfront Hml]. inversion Hml; subst.
  now apply forward_skip_mismatch.
Qed.

Lemma ResUnet_forward_skip_mismatch_witness :
  ResUnet.forward
    (ResUnet.train true (built 3 3 ([1; 2] ++ [4]) (1 # 2)))
    (mkShape 2 3 (2 ^ len [1; 2] * 3) (2 ^ len [1; 2] * 3))
  = Raise (RuntimeError "Sizes of tensors must match except in dimension 1").
Proof.
  destruct (ResUnet_forward_skip_mismatch 3 3 [1; 2] 4 (1 # 2)
              (built 3 3 ([1; 2] ++ [4]) (1 # 2)) true 2) as [_ Hexact];
    [reflexivity | discriminate | lia | right; lia |].
  apply Hexact; [lia|reflexivity].
Defined.

(** * The constructor: arguments it refuses *)

Lemma encoder_loop_negative (mults ms : list Z) :
  Exists (fun m => m < 0) ms ->
  forall (level : Z) (acc : list Stage) (cin : Z),
    0 <= cin ->
    for_loop (ResUnet.encoder_step mults) (enumerate level ms) (acc, cin)
    = Raise (RuntimeError "Trying to create tensor with negative dimension").
Proof.
  induction ms as [|m rest IH]; intros Hneg level acc cin Hcin.
  - inversion Hneg.
  - cbn [enumerate for_loop ResUnet.encoder_step].
    rewrite EncoderBlock_init_eq.
    destruct (Z.ltb_spec cin 0); [lia|].
    destruct (Z.ltb_spec (m * 64) 0) as [Hm|Hm]; [reflexivity|].
    cbn [orb Py.bind]. apply IH; [|lia].
    inversion Hneg as [? ? Hhere|? ? Hlater]; subst; [lia|exact Hlater].
Qed.

(** X19.  With a negative [in_channels] or a negative multiplier the
    constructor raises RuntimeError while it builds the encoder list: the
    first convolution whose weight would get a negative length cannot be
    created.  No decoder block has been looked at by then, so the dropout
    rate plays no part. *)
Theorem ResUnet_init_negative_channels
        (in_channels out_channels : Z) (channel_mults : list Z) (dropout : Q) :
  channel_mults <> [] ->
  in_channels < 0 \/ Exists (fun m => m < 0) channel_mults ->
  ResUnet.init in_channels out_channels channel_mults dropout
  = Raise (RuntimeError "Trying to create tensor with negative dimension").
Proof.
  intros Hne Hneg. destruct channel_mults as [|m0 rest]; [contradiction|].
  unfold ResUnet.init, nn.Conv2d. cbn [getitem0 Py.bind tl].
  destruct (Z.ltb_spec in_channels 0) as [Hi|Hi]; [reflexivity|].
  destruct (Z.ltb_spec (m0 * 64) 0) as [Hm|Hm]; [reflexivity|].
  cbn [orb Py.bind].
  rewrite encoder_loop_negative; [reflexivity| |lia].
  destruct Hneg as [Hi'|Hex]; [lia|].
  inversion Hex as [? ? Hhere|? ? Hlater]; subst; [lia|exact Hlater].
Qed.

Lemma ResUnet_init_negative_channels_witness :
  ResUnet.init 3 3 [1; 2; -4; 8] (3 # 2)
  = Raise (RuntimeError "Trying to create tensor with negative dimension").
Proof.
  apply (ResUnet_init_negative_channels 3 3 [1; 2; -4; 8] (3 # 2));
    [discriminate|].
  right. apply Exists_cons_tl, Exists_cons_tl, Exists_cons_hd. lia.
Defined.

Lemma rate_at_bottleneck (front : list Z) (ml : Z) (dropout : Q) :
  front <> [] ->
  Py.max (front ++ [ml]) = Ok (last front 0) ->
  Built.rate (front ++ [ml]) dropout (len front - 1) (last front 0) = dropout.
Proof.
  intros Hne Hmax. unfold Built.rate.
  assert (Hw : fold_left Z.max (tl (front ++ [ml])) (hd 0 (front ++ [ml]))
               = last front 0).
  { destruct front as [|m0 pre]; [contradiction|].
    cbn [app Py.max] in Hmax. now injection Hmax. }
  rewrite Hw, Z.eqb_refl. cbn [andb].
  rewrite len_app. change (len [ml]) with 1.
  destruct (Z.gtb_spec (len front - 1) (len front + 1 - 5)); [reflexivity|lia].
Qed.

(** X20.  With a dropout rate above 1 the constructor raises ValueError
    as soon as a decoder block is given the rate: when no channel count
    before it is negative and the multiplier next to the last one is the
    maximum, this is the first decoder block, whose [Dropout2d] layer
    cannot be created. *)
Theorem ResUnet_init_dropout_out_of_range
        (in_channels out_channels : Z) (front : list Z) (ml : Z) (dropout : Q) :
  front <> [] ->
  0 <= in_channels -> Forall (fun m => 0 <= m) (front ++ [ml]) ->
  Py.max (front ++ [ml]) = Ok (last front 0) ->
  (1 < dropout)%Q ->
  ResUnet.init in_channels out_channels (front ++ [ml]) dropout
  = Raise (ValueError "dropout probability has to be between 0 and 1").
Proof.
  intros Hne Hi Hnn Hmax Hd.
  assert (Hne' : front ++ [ml] <> []) by (destruct front; discriminate).
  pose proof (bottleneck_nonneg _ Hnn) as Hcb.
  pose proof (rate_at_bottleneck front ml dropout Hne Hmax) as Hrate.
  assert (Hlast : 0 <= last front 0).
  { apply Forall_app in Hnn. destruct Hnn as [Hfront _].
    rewrite Forall_forall in Hfront. apply Hfront. now apply In_last. }
  destruct (front ++ [ml]) as [|m0 rest] eqn:Hmults; [contradiction|].
  inversion Hnn as [|? ? Hm0 Hrest]; subst.
  unfold ResUnet.init, nn.Conv2d. cbn [getitem0 Py.bind tl].
  destruct (Z.ltb_spec in_channels 0); [lia|].
  destruct (Z.ltb_spec (m0 * 64) 0); [lia|]. cbn [orb Py.bind].
  rewrite encoder_loop_built by (assumption || lia). cbn [Py.bind].
  fold (decoder_items (m0 :: rest)). rewrite <- Hmults in *.
  rewrite decoder_items_snoc by assumption.
  cbn [for_loop ResUnet.decoder_step].
  rewrite decoder_dropout_built by assumption. cbn [Py.bind].
  rewrite Hrate, DecoderBlock_init_eq.
  rewrite Hmults in Hcb. cbn [hd tl] in Hcb.
  destruct (Z.ltb_spec (Built.enc_channels (m0 * 64) rest) 0); [lia|].
  destruct (Z.ltb_spec (last front 0 * 64) 0); [lia|]. cbn [orb].
  destruct (Qlt_le_dec 1 dropout) as [_|Hle]; [reflexivity|].
  exfalso. exact (Qlt_not_le _ _ Hd Hle).
Qed.

Lemma ResUnet_init_dropout_out_of_range_witness :
  ResUnet.init 3 3 ([8] ++ [8]) (3 # 2)
  = Raise (ValueError "dropout probability has to be between 0 and 1").
Proof.
  apply (ResUnet_init_dropout_out_of_range 3 3 [8] 8 (3 # 2));
    [discriminate | lia | repeat constructor; lia | reflexivity | reflexivity].
Defined.
